(** * Troupe OS, financials module: the ledger posting route

    A shallow embedding of [apps/api/src/modules/financials.js]
    ([POST /financials/accounts] and [POST /financials/ledger/entries])
    together with the part of the PostgreSQL schema those two routes write
    to ([accounts], [ledger_entries], [ledger_lines]).

    The route handlers are JavaScript: request bodies are JSON values, the
    amounts are IEEE-754 binary64 numbers, and the checks rely on the
    language's coercions ([Number], [String], truthiness).  The file
    models those language operations first, then the store, then the two
    handlers statement by statement, and ends with the properties of the
    handlers.

    Further sections cover the rest of the module, the two listing routes
    ([GET /financials/accounts] and [GET /financials/ledger/entries]), and
    the asset registry of [apps/api/src/modules/assets.js] with its table:
    creation, fetch by id and update. *)

From Stdlib Require Import ZArith List Bool String Ascii Lia.
From Stdlib Require Import Floats.SpecFloat.
From Stdlib Require Import Sorting.Permutation Sorting.Sorted.
Import ListNotations.
Set Warnings "-register-all,-notation-for-abbreviation".
Open Scope string_scope.
Open Scope Z_scope.

(* ====================================================================== *)
(** ** JavaScript numbers *)
(* ====================================================================== *)

Module Num.

(** A JavaScript Number is a binary64 float: 53 bits of precision,
    infinities at exponent 1024. *)
Definition prec : Z := 53.
Definition emax : Z := 1024.

Definition number := spec_float.

Definition nan : number := S754_nan.
Definition pos_zero : number := S754_zero false.

(** [a + b] on numbers. *)
Definition add (a b : number) : number := SFadd prec emax a b.

(** [a === b], [a <= b] and [a < b] on numbers ([NaN] compares false,
    the two zeros are equal). *)
Definition eqb (a b : number) : bool := SFeqb a b.
Definition leb (a b : number) : bool := SFleb a b.
Definition ltb (a b : number) : bool := SFltb a b.

(** [Number.isFinite] on a value that is already a number. *)
Definition isFinite (a : number) : bool :=
  match a with
  | S754_zero _ | S754_finite _ _ _ => true
  | S754_infinity _ | S754_nan => false
  end.

(** The number nearest to the integer [n] (ties to even). *)
Definition of_Z (n : Z) : number := binary_normalize prec emax n 0 false.

(** The number nearest to [(-1)^sg * m * 10^e10], for [m >= 0]: how a
    decimal literal is rounded.  A zero mantissa keeps the sign. *)
Definition of_decimal (sg : bool) (m e10 : Z) : number :=
  match m with
  | Z0 => S754_zero sg
  | Zpos p =>
      if 0 <=? e10
      then binary_normalize prec emax (cond_Zopp sg (m * 10 ^ e10)) 0 sg
      else SFdiv prec emax (S754_finite sg p 0)
                 (S754_finite false (Z.to_pos (10 ^ (- e10))) 0)
  | Zneg _ => nan
  end.

(** The exact value of a positive finite number [m * 2^e], as a fraction
    of two positive integers. *)
Definition fraction (m : positive) (e : Z) : Z * Z :=
  if 0 <=? e then (Zpos m * 2 ^ e, 1) else (Zpos m, 2 ^ (- e)).

(** [round_half_up n d] is the integer nearest to [n / d], the larger one
    on a tie ([n >= 0], [d > 0]). *)
Definition round_half_up (n d : Z) : Z := (2 * n + d) / (2 * d).

(** The decimal digits of a non-negative integer. *)
Fixpoint digits_fuel (fuel : nat) (n : Z) (acc : string) : string :=
  match fuel with
  | O => acc
  | S fuel' =>
      let acc' := String (ascii_of_nat (48 + Z.to_nat (n mod 10))) acc in
      if n / 10 =? 0 then acc' else digits_fuel fuel' (n / 10) acc'
  end.

Definition digits (n : Z) : string :=
  digits_fuel (S (Z.to_nat (Z.log2 n))) n "".

(** The [n] with [10^(n-1) <= num/den < 10^n], for a positive fraction. *)
Fixpoint decade_up (fuel : nat) (q : Z) (n : Z) : Z :=
  match fuel with
  | O => n
  | S fuel' => if q <? 10 then n else decade_up fuel' (q / 10) (n + 1)
  end.

Fixpoint decade_down (fuel : nat) (num den : Z) (n : Z) : Z :=
  match fuel with
  | O => n
  | S fuel' =>
      if den <=? 10 * num then n else decade_down fuel' (10 * num) den (n - 1)
  end.

Definition decade (num den : Z) : Z :=
  if den <=? num
  then decade_up (S (Z.to_nat (Z.log2 num))) (num / den) 1
  else decade_down (S (Z.to_nat (Z.log2 den))) num den 0.

(** *** Number to string

    [Number::toString] (radix 10) prints the shortest digit string that
    reads back as the same number: integers [s], [k], [n] with
    [10^(k-1) <= s < 10^k], [s * 10^(n-k)] rounding to [x], [k] minimal,
    and among those the [s] closest to [x] (the even one on a tie). *)

(** [x / 10^q] for the fraction [x = num/den]. *)
Definition scaled (num den q : Z) : Z * Z :=
  if 0 <=? q then (num, den * 10 ^ q) else (num * 10 ^ (- q), den).

Fixpoint shortest_from (fuel : nat) (k : Z) (x : number) (num den n0 : Z)
  : Z * Z :=
  let q := n0 - k in
  let '(a, b) := scaled num den q in
  let lo := a / b in
  let hi := lo + 1 in
  let closest :=
    match 2 * (a mod b) ?= b with
    | Lt => lo
    | Gt => hi
    | Eq => if Z.even lo then lo else hi
    end in
  let pick (s : Z) := if s =? 10 ^ k then (s / 10, n0 + 1) else (s, n0) in
  match fuel with
  | O => pick closest
  | S fuel' =>
      match eqb (of_decimal false lo q) x, eqb (of_decimal false hi q) x with
      | true, true => pick closest
      | true, false => pick lo
      | false, true => pick hi
      | false, false => shortest_from fuel' (k + 1) x num den n0
      end
  end.

(** The pair [(s, n)] for a positive finite number. *)
Definition shortest (m : positive) (e : Z) : Z * Z :=
  let '(num, den) := fraction m e in
  shortest_from 16 1 (S754_finite false m e) num den (decade num den).

Fixpoint zeros (n : nat) : string :=
  match n with
  | O => ""
  | S n' => String "0" (zeros n')
  end.

Definition format_shortest (s n : Z) : string :=
  let ds := digits s in
  let k := Z.of_nat (String.length ds) in
  if (-5 <=? n) && (n <=? 21) then
    if k <=? n then ds ++ zeros (Z.to_nat (n - k))
    else if 0 <? n then
      substring 0 (Z.to_nat n) ds ++ "." ++
      substring (Z.to_nat n) (Z.to_nat (k - n)) ds
    else "0." ++ zeros (Z.to_nat (- n)) ++ ds
  else
    let c := n - 1 in
    let sign := if c <? 0 then "-" else "+" in
    if k =? 1 then ds ++ "e" ++ sign ++ digits (Z.abs c)
    else substring 0 1 ds ++ "." ++ substring 1 (Z.to_nat (k - 1)) ds
         ++ "e" ++ sign ++ digits (Z.abs c).

(** [String(x)] / [x.toString()] for a number [x]. *)
Definition to_string (x : number) : string :=
  match x with
  | S754_nan => "NaN"
  | S754_zero _ => "0"
  | S754_infinity sg => if sg then "-Infinity" else "Infinity"
  | S754_finite sg m e =>
      let '(s, n) := shortest m e in
      (if sg then "-" else "") ++ format_shortest s n
  end.

(** *** [Number.prototype.toFixed]

    [x.toFixed(f)] for [0 <= f <= 100]: a non-finite [x] prints as
    [String(x)]; [|x| >= 10^21] prints as [String(x)]; otherwise the
    integer [n] nearest to [|x| * 10^f] (the larger on a tie) is printed
    with a decimal point before its last [f] digits. *)
Definition fixed_units (f : Z) (m : positive) (e : Z) : Z :=
  let '(num, den) := fraction m e in
  round_half_up (num * 10 ^ f) den.

Definition format_fixed (f : Z) (n : Z) : string :=
  let ds := digits n in
  if f =? 0 then ds
  else
    let k := Z.of_nat (String.length ds) in
    let ds' := if k <=? f then zeros (Z.to_nat (f + 1 - k)) ++ ds else ds in
    let k' := Z.of_nat (String.length ds') in
    substring 0 (Z.to_nat (k' - f)) ds' ++ "." ++
    substring (Z.to_nat (k' - f)) (Z.to_nat f) ds'.

Definition toFixed (x : number) (f : Z) : string :=
  match x with
  | S754_nan | S754_infinity _ => to_string x
  | S754_zero _ => format_fixed f 0
  | S754_finite sg m e =>
      let '(num, den) := fraction m e in
      (if sg then "-" else "") ++
      (if 10 ^ 21 * den <=? num
       then to_string (S754_finite false m e)
       else format_fixed f (fixed_units f m e))
  end.

(** *** String to number

    [StringToNumber]: surrounding white space is dropped, the empty
    string is [+0], a prefix [0x], [0o] or [0b] introduces an unsigned
    integer in that radix, and otherwise the text must be an optionally
    signed [Infinity] or decimal literal with optional fraction and
    exponent.  Anything else is [NaN].  The mathematical value is
    rounded to the nearest number.  Strings are sequences of ASCII code
    units here: the white-space characters beyond U+007F are outside
    the model. *)

Definition is_space (c : ascii) : bool :=
  let n := nat_of_ascii c in
  ((9 <=? n) && (n <=? 13) || (n =? 32))%nat.

Fixpoint skip_space (l : list ascii) : list ascii :=
  match l with
  | c :: r => if is_space c then skip_space r else l
  | [] => []
  end.

Definition trim (l : list ascii) : list ascii :=
  rev (skip_space (rev (skip_space l))).

Definition digit_of (base : Z) (c : ascii) : option Z :=
  let n := Z.of_nat (nat_of_ascii c) in
  let v :=
    if (48 <=? n) && (n <=? 57) then Some (n - 48)
    else if (97 <=? n) && (n <=? 102) then Some (n - 87)
    else if (65 <=? n) && (n <=? 70) then Some (n - 55)
    else None in
  match v with
  | Some d => if d <? base then Some d else None
  | None => None
  end.

(** Reads the longest run of digits: the value accumulated on top of
    [acc], the number of digits read, and what follows. *)
Fixpoint read_digits (base : Z) (l : list ascii) (acc cnt : Z)
  : Z * Z * list ascii :=
  match l with
  | c :: r =>
      match digit_of base c with
      | Some d => read_digits base r (acc * base + d) (cnt + 1)
      | None => (acc, cnt, l)
      end
  | [] => (acc, cnt, [])
  end.

Definition is_char (c : ascii) (s : string) : bool :=
  String.eqb (String c "") s.

(** An optional exponent part that must reach the end of the text. *)
Definition parse_exponent (l : list ascii) : option Z :=
  match l with
  | [] => Some 0
  | c :: r =>
      if is_char c "e" || is_char c "E" then
        let '(sg, r') :=
          match r with
          | s :: r' =>
              if is_char s "+" then (false, r')
              else if is_char s "-" then (true, r')
              else (false, r)
          | [] => (false, r)
          end in
        let '(v, cnt, rest) := read_digits 10 r' 0 0 in
        match rest with
        | [] => if 0 <? cnt then Some (cond_Zopp sg v) else None
        | _ :: _ => None
        end
      else None
  end.

Definition parse_unsigned_decimal (sg : bool) (l : list ascii) : number :=
  if String.eqb (string_of_list_ascii l) "Infinity" then S754_infinity sg
  else
    let '(ip, ic, r1) := read_digits 10 l 0 0 in
    let finish (m cnt : Z) (rest : list ascii) :=
      match parse_exponent rest with
      | Some ex => of_decimal sg m (ex - cnt)
      | None => nan
      end in
    match r1 with
    | c :: r2 =>
        if is_char c "." then
          let '(fp, fc, r3) := read_digits 10 r2 ip 0 in
          if (ic =? 0) && (fc =? 0) then nan else finish fp fc r3
        else if ic =? 0 then nan else finish ip 0 r1
    | [] => if ic =? 0 then nan else finish ip 0 r1
    end.

Definition parse_radix (base : Z) (l : list ascii) : number :=
  let '(v, cnt, rest) := read_digits base l 0 0 in
  match rest with
  | [] => if 0 <? cnt then of_Z v else nan
  | _ :: _ => nan
  end.

Definition parse_literal (l : list ascii) : number :=
  match l with
  | [] => pos_zero
  | c :: r =>
      let radix :=
        match r with
        | p :: r' =>
            if is_char c "0" then
              if is_char p "x" || is_char p "X" then Some (16, r')
              else if is_char p "o" || is_char p "O" then Some (8, r')
              else if is_char p "b" || is_char p "B" then Some (2, r')
              else None
            else None
        | [] => None
        end in
      match radix with
      | Some (base, r') => parse_radix base r'
      | None =>
          if is_char c "+" then parse_unsigned_decimal false r
          else if is_char c "-" then parse_unsigned_decimal true r
          else parse_unsigned_decimal false l
      end
  end.

(** [Number(s)] for a string [s]. *)
Definition of_string (s : string) : number :=
  parse_literal (trim (list_ascii_of_string s)).

End Num.

(* ====================================================================== *)
(** ** JavaScript values and coercions *)
(* ====================================================================== *)

Module Js.

(** What [express.json()] (or the extended url-encoded parser) hands to a
    route: the values of JSON, plus [undefined] for an absent property.
    An object is the list of its own properties, in order, with distinct
    keys as [JSON.parse] leaves them.  Strings are sequences of ASCII
    code units: characters beyond U+007F are outside the model. *)
Inductive value :=
| VUndefined
| VNull
| VBool (b : bool)
| VNumber (x : Num.number)
| VString (s : string)
| VArray (items : list value)
| VObject (props : list (string * value)).

(** The only exception the coercions below can raise. *)
Inductive exn := TypeError.

Inductive completion (A : Type) :=
| Normal (a : A)
| Throw (e : exn).
Arguments Normal {A} a.
Arguments Throw {A} e.

Fixpoint lookup (props : list (string * value)) (key : string)
  : option value :=
  match props with
  | [] => None
  | (k, v) :: rest => if String.eqb k key then Some v else lookup rest key
  end.

(** [o.key] as the handlers use it, through destructuring: the own
    property when [o] is an object that has it, [undefined] otherwise.
    None of the keys the handlers read is inherited from a prototype,
    and none is an array index or [length]. *)
Definition get (o : value) (key : string) : value :=
  match o with
  | VObject props =>
      match lookup props key with
      | Some v => v
      | None => VUndefined
      end
  | _ => VUndefined
  end.

(** [ToBoolean]. *)
Definition truthy (v : value) : bool :=
  match v with
  | VUndefined | VNull => false
  | VBool b => b
  | VNumber (S754_zero _) | VNumber S754_nan => false
  | VNumber _ => true
  | VString s => negb (String.eqb s "")
  | VArray _ | VObject _ => true
  end.

(** [a || b]. *)
Definition or_else (a b : value) : value := if truthy a then a else b.

(** [v == null]. *)
Definition is_nullish (v : value) : bool :=
  match v with
  | VUndefined | VNull => true
  | _ => false
  end.

(** [ToString], which is what [String(v)] applies.  An array joins the
    strings of its elements with commas, [null] and [undefined] elements
    giving the empty string.  A plain object answers through
    [Object.prototype.toString] unless an own property named [toString]
    shadows it: an own property parsed from JSON is never callable, the
    inherited [valueOf] returns the object itself, and the conversion
    ends in a [TypeError]. *)
Fixpoint to_str (v : value) : completion string :=
  match v with
  | VUndefined => Normal "undefined"
  | VNull => Normal "null"
  | VBool b => Normal (if b then "true" else "false")
  | VNumber x => Normal (Num.to_string x)
  | VString s => Normal s
  | VArray items =>
      (fix join (l : list value) : completion string :=
         match l with
         | [] => Normal ""
         | x :: r =>
             let sx :=
               match x with
               | VUndefined | VNull => Normal ""
               | _ => to_str x
               end in
             match sx, r with
             | Throw e, _ => Throw e
             | Normal s, [] => Normal s
             | Normal s, _ :: _ =>
                 match join r with
                 | Throw e => Throw e
                 | Normal t => Normal (s ++ "," ++ t)
                 end
             end
         end) items
  | VObject props =>
      match lookup props "toString" with
      | Some _ => Throw TypeError
      | None => Normal "[object Object]"
      end
  end.

(** [ToNumber], which is what [Number(v)] applies: an array or object is
    first turned into a primitive, and for the values of JSON that
    primitive is the string above. *)
Definition to_number (v : value) : completion Num.number :=
  match v with
  | VUndefined => Normal Num.nan
  | VNull => Normal Num.pos_zero
  | VBool b => Normal (if b then Num.of_Z 1 else Num.pos_zero)
  | VNumber x => Normal x
  | VString s => Normal (Num.of_string s)
  | VArray _ | VObject _ =>
      match to_str v with
      | Normal s => Normal (Num.of_string s)
      | Throw e => Throw e
      end
  end.

(** [typeof v === 'string']. *)
Definition is_string (v : value) : bool :=
  match v with
  | VString _ => true
  | _ => false
  end.

(** [toLowerCase] and [toUpperCase] on ASCII code units. *)
Definition lower_char (c : ascii) : ascii :=
  let n := nat_of_ascii c in
  if ((65 <=? n) && (n <=? 90))%nat then ascii_of_nat (n + 32) else c.

Definition upper_char (c : ascii) : ascii :=
  let n := nat_of_ascii c in
  if ((97 <=? n) && (n <=? 122))%nat then ascii_of_nat (n - 32) else c.

Fixpoint map_string (f : ascii -> ascii) (s : string) : string :=
  match s with
  | EmptyString => EmptyString
  | String c r => String (f c) (map_string f r)
  end.

Definition toLowerCase (s : string) : string := map_string lower_char s.
Definition toUpperCase (s : string) : string := map_string upper_char s.

(** [s.trim()]. *)
Definition trim (s : string) : string :=
  string_of_list_ascii (Num.trim (list_ascii_of_string s)).

(** A number in JSON text: [NaN] and the infinities are written [null],
    and zero is written without its sign. *)
Definition JSON_number (x : Num.number) : value :=
  match x with
  | S754_finite _ _ _ => VNumber x
  | S754_zero _ => VNumber Num.pos_zero
  | S754_infinity _ | S754_nan => VNull
  end.

(** The value a reader parses from the text [JSON.stringify] writes for a
    value that sits inside an array or object: [undefined] is written
    [null] in an array, and a property whose value is [undefined] is left
    out.  None of the values of the model has a callable [toJSON]. *)
Fixpoint JSON_value (v : value) : value :=
  match v with
  | VUndefined => VNull
  | VNull | VBool _ | VString _ => v
  | VNumber x => JSON_number x
  | VArray items => VArray (map JSON_value items)
  | VObject props =>
      VObject
        ((fix members (l : list (string * value)) : list (string * value) :=
            match l with
            | [] => []
            | (_, VUndefined) :: rest => members rest
            | (k, x) :: rest => (k, JSON_value x) :: members rest
            end) props)
  end.

(** [JSON.stringify(v)], as the value a reader parses from the text;
    there is no text for [undefined]. *)
Definition JSON_stringify (v : value) : option value :=
  match v with
  | VUndefined => None
  | _ => Some (JSON_value v)
  end.

End Js.

(* ====================================================================== *)
(** ** The store: the three tables of the schema and one client session *)
(* ====================================================================== *)

Module Pg.
Import Js.

Definition uuid := string.

(** [accounts]: [id UUID PRIMARY KEY], [name TEXT NOT NULL],
    [code TEXT UNIQUE], [description TEXT],
    [currency TEXT NOT NULL DEFAULT 'USD'], the two owner references,
    [is_active], [metadata JSONB].  Columns whose content the routes
    never inspect keep the parameter as it was sent. *)
Record account_row := {
  acct_id : uuid;
  acct_name : string;
  acct_code : option string;
  acct_description : option string;
  acct_currency : string;
  acct_owner_group_id : value;
  acct_owner_user_id : value;
  acct_metadata : value;
  acct_is_active : bool;
  acct_created_at : Z
}.

(** [ledger_entries]. *)
Record entry_row := {
  entry_id : uuid;
  entry_occurred_at : Z;
  entry_description : value;
  entry_reference_type : value;
  entry_reference_id : value;
  entry_metadata : value;
  entry_created_at : Z
}.

(** [ledger_lines]: [id BIGSERIAL], [entry_id] and [account_id] foreign
    keys, [direction ledger_direction_enum],
    [amount NUMERIC(36,18) CHECK (amount >= 0)], [currency TEXT],
    [metadata JSONB].  The amount is held in units of [10^-18]. *)
Record line_row := {
  row_id : Z;
  row_entry_id : uuid;
  row_account_id : uuid;
  row_direction : string;
  row_amount : Z;
  row_currency : string;
  row_metadata : value
}.

Record tables := {
  accounts : list account_row;
  ledger_entries : list entry_row;
  ledger_lines : list line_row
}.

(** What readers see is [committed]; the line-id sequence advances
    outside any transaction. *)
Record db := {
  committed : tables;
  ledger_lines_id_seq : Z
}.

(** One client connection: whether it is still connected, the working
    copy of the tables while a transaction is open, and whether that
    transaction has been put in the failed state by a statement error. *)
Record session := {
  connected : bool;
  tx : option tables;
  tx_failed : bool
}.

Definition fresh_session : session :=
  {| connected := true; tx := None; tx_failed := false |}.

(** The statements the two routes issue, with the parameters they pass. *)
Inductive statement :=
| BEGIN
| COMMIT
| ROLLBACK
| INSERT_INTO_accounts
    (name code description currency owner_group_id owner_user_id
     metadata : value)
| INSERT_INTO_ledger_entries
    (description reference_type reference_id metadata : value)
| INSERT_INTO_ledger_lines
    (entry_id : uuid) (account_id : value) (direction : string)
    (amount : Num.number) (currency : string) (metadata : value).

(** [result.rows] of a statement that succeeded. *)
Inductive rows :=
| NoRows
| AccountRows (r : account_row)
| EntryRows (r : entry_row)
| LineRows (r : line_row).

(** What the outside world does to one statement: nothing, a refusal by
    the server for a reason the tables below do not decide (an encoding
    or JSON syntax error, an owner reference, a timeout), or the loss of
    the connection.  A connection can be lost before the statement reaches
    the server, or after the server has run it, so that only the
    acknowledgement is lost ([applied]); the client sees the same rejected
    promise in both cases. *)
Inductive verdict := Healthy | Refused | Lost (applied : bool).

(** The value a [NUMERIC(36,18)] column takes from a number parameter,
    in units of [10^-18].  The driver sends a number as its [toString]
    text; the server reads that decimal, rounds it to 18 fractional
    digits (half away from zero) and refuses 19 or more integer digits.
    Only finite numbers are covered: the posting route sends no other. *)
Definition numeric_36_18 (x : Num.number) : option Z :=
  match x with
  | S754_zero _ => Some 0
  | S754_finite sg m e =>
      let '(s, n) := Num.shortest m e in
      let k := Z.of_nat (String.length (Num.digits s)) in
      let q := n - k + 18 in
      let u := if 0 <=? q then s * 10 ^ q
               else Num.round_half_up s (10 ^ (- q)) in
      if u <? 10 ^ 36 then Some (cond_Zopp sg u) else None
  | S754_infinity _ | S754_nan => None
  end.

Definition has_account (t : tables) (id : uuid) : bool :=
  existsb (fun a => String.eqb (acct_id a) id) (accounts t).

Definition has_entry (t : tables) (id : uuid) : bool :=
  existsb (fun e => String.eqb (entry_id e) id) (ledger_entries t).

Definition has_code (t : tables) (c : string) : bool :=
  existsb (fun a => match acct_code a with
                    | Some c' => String.eqb c' c
                    | None => false
                    end) (accounts t).

(** A read of one entry by id, as any later reader would do it. *)
Definition find_entry (d : db) (id : uuid) : option entry_row :=
  find (fun e => String.eqb (entry_id e) id) (ledger_entries (committed d)).

Definition lines_of_entry (d : db) (id : uuid) : list line_row :=
  filter (fun l => String.eqb (row_entry_id l) id)
         (ledger_lines (committed d)).

Section Driver.

(** Two conversions happen between the handler and the tables and are
    code of neither: the text the driver sends for a parameter bound
    to a [TEXT] column, and the id the server reads from a parameter
    bound to a [UUID] column ([None] when the text is not a uuid). *)
Variable encode_text : value -> string.
Variable uuid_in : value -> option uuid.

Definition text_or_null (v : value) : option string :=
  if is_nullish v then None else Some (encode_text v).

(** The row an [INSERT] would add and the table change, or [None] when
    a constraint of the schema rejects it. *)
Definition insert_account (new_id : uuid) (now : Z) (t : tables)
    (name code description currency owner_group_id owner_user_id
     metadata : value) : option (account_row * tables) :=
  let code_col := text_or_null code in
  let unique_ok :=
    match code_col with
    | Some c => negb (has_code t c)
    | None => true
    end in
  if is_nullish name || has_account t new_id || negb unique_ok then None
  else
    let r := {| acct_id := new_id;
                acct_name := encode_text name;
                acct_code := code_col;
                acct_description := text_or_null description;
                acct_currency :=
                  match text_or_null currency with
                  | Some c => c
                  | None => "USD"
                  end;
                acct_owner_group_id := owner_group_id;
                acct_owner_user_id := owner_user_id;
                acct_metadata :=
                  if is_nullish metadata then VObject [] else metadata;
                acct_is_active := true;
                acct_created_at := now |} in
    Some (r, {| accounts := accounts t ++ [r];
                ledger_entries := ledger_entries t;
                ledger_lines := ledger_lines t |}).

Definition insert_entry (new_id : uuid) (now : Z) (t : tables)
    (description reference_type reference_id metadata : value)
  : option (entry_row * tables) :=
  if has_entry t new_id then None
  else
    let r := {| entry_id := new_id;
                entry_occurred_at := now;
                entry_description := description;
                entry_reference_type := reference_type;
                entry_reference_id := reference_id;
                entry_metadata :=
                  if is_nullish metadata then VObject [] else metadata;
                entry_created_at := now |} in
    Some (r, {| accounts := accounts t;
                ledger_entries := ledger_entries t ++ [r];
                ledger_lines := ledger_lines t |}).

Definition insert_line (line_id : Z) (t : tables)
    (entry : uuid) (account_id : value) (direction : string)
    (amount : Num.number) (currency : string) (metadata : value)
  : option (line_row * tables) :=
  match uuid_in account_id, numeric_36_18 amount with
  | Some acct, Some units =>
      if has_entry t entry && has_account t acct
         && (String.eqb direction "debit" || String.eqb direction "credit")
         && (0 <=? units)
      then
        let r := {| row_id := line_id;
                    row_entry_id := entry;
                    row_account_id := acct;
                    row_direction := direction;
                    row_amount := units;
                    row_currency := currency;
                    row_metadata :=
                      if is_nullish metadata then VObject []
                      else metadata |} in
        Some (r, {| accounts := accounts t;
                    ledger_entries := ledger_entries t;
                    ledger_lines := ledger_lines t ++ [r] |})
      else None
  | _, _ => None
  end.

(** The tables a statement works on: the transaction's copy when one
    is open, the committed tables otherwise (autocommit). *)
Definition view (d : db) (s : session) : tables :=
  match tx s with
  | Some t => t
  | None => committed d
  end.

Definition write (d : db) (s : session) (t : tables) (seq : Z)
  : db * session :=
  match tx s with
  | Some _ =>
      ({| committed := committed d; ledger_lines_id_seq := seq |},
       {| connected := connected s; tx := Some t;
          tx_failed := tx_failed s |})
  | None =>
      ({| committed := t; ledger_lines_id_seq := seq |}, s)
  end.

(** A statement error: inside a transaction it puts the transaction in
    the failed state. *)
Definition fail_statement (d : db) (s : session)
  : option rows * db * session :=
  (None, d,
   {| connected := connected s; tx := tx s;
      tx_failed := match tx s with Some _ => true | None => false end |}).

(** The outcome of an [INSERT] once its row has been formed or refused;
    [seq] is the value of the line-id sequence afterwards.  The default of
    [id] is evaluated before the row is checked, so an insert refused by a
    constraint or by the precision of [amount] has drawn from the sequence
    as well. *)
Definition run_insert (d : db) (s : session) (seq : Z)
    (r : option (rows * tables)) : option rows * db * session :=
  match r with
  | Some (out, t) =>
      let '(d', s') := write d s t seq in (Some out, d', s')
  | None =>
      let '(_, d', s') :=
        fail_statement
          {| committed := committed d; ledger_lines_id_seq := seq |} s in
      (None, d', s')
  end.

Definition with_rows {A} (f : A -> rows) (r : option (A * tables))
  : option (rows * tables) :=
  match r with
  | Some (a, t) => Some (f a, t)
  | None => None
  end.

(** What the server does with a statement that reached it on a live
    session, and what it would answer.  [refused] is a refusal for a
    reason the tables do not decide.  [ROLLBACK] is never refused; a
    [COMMIT] that is refused, or that arrives in a failed transaction,
    commits nothing.  An [account_id] that is not a uuid is refused when
    the parameters are bound, before the statement runs and draws a line
    id. *)
Definition serve (refused : bool) (new_id : uuid) (now : Z)
    (stmt : statement) (d : db) (s : session)
  : option rows * db * session :=
  match stmt with
  | ROLLBACK =>
      (Some NoRows, d,
       {| connected := true; tx := None; tx_failed := false |})
  | BEGIN =>
      if refused then (None, d, s)
      else
        (Some NoRows, d,
         match tx s with
         | Some _ => s
         | None => {| connected := true; tx := Some (committed d);
                      tx_failed := false |}
         end)
  | COMMIT =>
      let closed :=
        {| connected := true; tx := None; tx_failed := false |} in
      if refused then (None, d, closed)
      else
        match tx s with
        | Some t =>
            if tx_failed s then (Some NoRows, d, closed)
            else (Some NoRows,
                  {| committed := t;
                     ledger_lines_id_seq := ledger_lines_id_seq d |},
                  closed)
        | None => (Some NoRows, d, closed)
        end
  | INSERT_INTO_accounts n c de cu og ou m =>
      if tx_failed s then (None, d, s)
      else if refused then fail_statement d s
      else
        run_insert d s (ledger_lines_id_seq d)
          (with_rows AccountRows
             (insert_account new_id now (view d s) n c de cu og ou m))
  | INSERT_INTO_ledger_entries de rt ri m =>
      if tx_failed s then (None, d, s)
      else if refused then fail_statement d s
      else
        run_insert d s (ledger_lines_id_seq d)
          (with_rows EntryRows
             (insert_entry new_id now (view d s) de rt ri m))
  | INSERT_INTO_ledger_lines e a di am cu m =>
      if tx_failed s then (None, d, s)
      else if refused then fail_statement d s
      else
        match uuid_in a with
        | None => fail_statement d s
        | Some _ =>
            run_insert d s (ledger_lines_id_seq d + 1)
              (with_rows LineRows
                 (insert_line (ledger_lines_id_seq d) (view d s)
                    e a di am cu m))
        end
  end.

(** A session whose connection is gone: the server has discarded the
    transaction it had open. *)
Definition dropped : session :=
  {| connected := false; tx := None; tx_failed := false |}.

(** [client.query(stmt)]: [Some rows] when the promise resolves,
    [None] when it rejects.  A lost connection rejects the promise, ends
    the session and discards its open transaction; when the statement had
    reached the server before the loss, what the server did with it
    stands: the [COMMIT] of a transaction, or an [INSERT] outside any
    transaction, is then visible to readers although the client was told
    nothing. *)
Definition exec (v : verdict) (new_id : uuid) (now : Z)
    (stmt : statement) (d : db) (s : session)
  : option rows * db * session :=
  if negb (connected s) then (None, d, dropped)
  else
    match v with
    | Healthy => serve false new_id now stmt d s
    | Refused => serve true new_id now stmt d s
    | Lost applied =>
        (None,
         if applied then snd (fst (serve false new_id now stmt d s)) else d,
         dropped)
    end.

End Driver.

End Pg.

(* ====================================================================== *)
(** ** The financials routes *)
(* ====================================================================== *)

Module Financials.
Import Js Pg.

Definition DECIMAL_PRECISION : Z := 18.

(** The argument of [res.status(..).json(..)]: an error object, or the
    row(s) the store returned.  What travels to the caller is the JSON
    text of that argument: for [Json v] the caller reads
    [JSON_stringify v], in which a number that is not finite has become
    [null]. *)
Inductive body :=
| Json (v : value)
| CreatedAccount (row : account_row)
| CreatedEntry (entry : entry_row) (lines : list line_row).

Record response := { status : Z; payload : body }.

Definition error_json (status : Z) (msg : string) : response :=
  {| status := status; payload := Json (VObject [("error", VString msg)]) |}.

(** What a handler does that the outside can observe, in order. *)
Inductive event :=
| Connect (ok : bool)
| Query (stmt : statement) (ok : bool)
| Respond (r : response)
| Release.

(** A statement of a handler body either falls through to the next one,
    returns a response, or lets an exception escape. *)
Inductive step (A : Type) :=
| Next (a : A)
| Return (r : response)
| Raise (e : exn).
Arguments Next {A} a.
Arguments Return {A} r.
Arguments Raise {A} e.

Definition bind {A B} (m : step A) (k : A -> step B) : step B :=
  match m with
  | Next a => k a
  | Return r => Return r
  | Raise e => Raise e
  end.

Definition coerce {A} (c : completion A) : step A :=
  match c with
  | Normal a => Next a
  | Throw e => Raise e
  end.

Notation "x <- m ;; k" := (bind m (fun x => k))
  (at level 61, m at next level, right associativity).

(** [function isNonEmptyString(v)]. *)
Definition isNonEmptyString (v : value) : bool :=
  match v with
  | VString s => (0 <? String.length (trim s))%nat
  | _ => false
  end.

(** One element of [normalizedLines]. *)
Record normalized_line := {
  line_account_id : value;
  line_direction : string;
  line_amount : Num.number;
  line_currency : string;
  line_metadata : value
}.

(** The variables the validation loop updates; [currency] is [null]
    ([None]) until the first line sets it. *)
Record loop_state := {
  normalizedLines : list normalized_line;
  currency : option string;
  totalDebits : Num.number;
  totalCredits : Num.number
}.

Definition loop_start : loop_state :=
  {| normalizedLines := []; currency := None;
     totalDebits := Num.pos_zero; totalCredits := Num.pos_zero |}.

(** [!currency]. *)
Definition currency_unset (c : option string) : bool :=
  match c with
  | None => true
  | Some s => String.eqb s ""
  end.

(** [currency !== ccy]. *)
Definition differs (c : option string) (ccy : string) : bool :=
  match c with
  | None => true
  | Some s => negb (String.eqb s ccy)
  end.

(** The body of [for (const line of lines)]. *)
Definition validate_line (st : loop_state) (line : value)
  : step loop_state :=
  let fields := or_else line (VObject []) in
  let account_id := get fields "account_id" in
  let direction := get fields "direction" in
  let amount := get fields "amount" in
  let lineCurrency := get fields "currency" in
  let lineMetadata := get fields "metadata" in
  if negb (truthy account_id) || negb (truthy direction)
     || is_nullish amount || negb (truthy lineCurrency)
  then Return (error_json 400
         "Each line requires account_id, direction, amount, and currency")
  else
    direction_text <- coerce (to_str direction) ;;
    let dir := toLowerCase direction_text in
    if negb (String.eqb dir "debit") && negb (String.eqb dir "credit")
    then Return (error_json 400 "direction must be debit or credit")
    else
      numericAmount <- coerce (to_number amount) ;;
      if negb (Num.isFinite numericAmount)
         || Num.leb numericAmount Num.pos_zero
      then Return (error_json 400 "amount must be a positive number")
      else
        currency_text <- coerce (to_str lineCurrency) ;;
        let ccy := toUpperCase currency_text in
        currency' <-
          (if currency_unset (currency st) then Next (Some ccy)
           else if differs (currency st) ccy
                then Return (error_json 400
                               "All lines must use the same currency")
                else Next (currency st)) ;;
        let debit := String.eqb dir "debit" in
        Next {| normalizedLines :=
                  normalizedLines st ++
                  [ {| line_account_id := account_id;
                       line_direction := dir;
                       line_amount := numericAmount;
                       line_currency := ccy;
                       line_metadata := or_else lineMetadata (VObject [])
                    |} ];
                currency := currency';
                totalDebits :=
                  if debit then Num.add (totalDebits st) numericAmount
                  else totalDebits st;
                totalCredits :=
                  if debit then totalCredits st
                  else Num.add (totalCredits st) numericAmount |}.

Fixpoint validate_lines (lines : list value) (st : loop_state)
  : step loop_state :=
  match lines with
  | [] => Next st
  | line :: rest =>
      st' <- validate_line st line ;;
      validate_lines rest st'
  end.

(** [Number(total.toFixed(DECIMAL_PRECISION))]. *)
Definition rounded (total : Num.number) : Num.number :=
  Num.of_string (Num.toFixed total DECIMAL_PRECISION).

Definition unbalanced (roundedDebits roundedCredits : Num.number)
  : response :=
  {| status := 400;
     payload := Json (VObject
       [("error", VString "Debits and credits must balance");
        ("details", VObject
           [("total_debits", VNumber roundedDebits);
            ("total_credits", VNumber roundedCredits)])]) |}.

(** The double-entry integrity check after the loop. *)
Definition balance_check (st : loop_state) : step unit :=
  let roundedDebits := rounded (totalDebits st) in
  let roundedCredits := rounded (totalCredits st) in
  if negb (Num.eqb roundedDebits roundedCredits)
  then Return (unbalanced roundedDebits roundedCredits)
  else Next tt.

(** Everything the posting handler does before it touches [db]:
    the normalized lines, or the response it returns early. *)
Definition validation (lines : value) : step (list normalized_line) :=
  match lines with
  | VArray items =>
      if (List.length items <? 2)%nat
      then Return (error_json 400 "At least two ledger lines are required")
      else
        st <- validate_lines items loop_start ;;
        _ <- balance_check st ;;
        Next (normalizedLines st)
  | _ => Return (error_json 400 "At least two ledger lines are required")
  end.

(** The world around one request: whether [db.connect()] resolves, what
    happens to the [k]-th statement sent on the client, the id
    [gen_random_uuid()] draws and the value of [NOW()]. *)
Record environment := {
  connect_ok : bool;
  verdict_of : nat -> verdict;
  gen_random_uuid : uuid;
  now : Z
}.

(** The client during the transaction block: the store, the session,
    how many statements were sent, and the events so far. *)
Record conn := {
  database : db;
  client : session;
  sent : nat;
  log : list event
}.

(** What a handler leaves behind.  [reply] is [None] when an
    exception escaped the handler and nothing was sent. *)
Record outcome := {
  reply : option response;
  trace : list event;
  db_after : db;
  client_after : option session
}.

Section Routes.

Variable encode_text : value -> string.
Variable uuid_in : value -> option uuid.
Variable env : environment.

(** Awaited store calls: [None] is a rejected promise, which jumps to
    the [catch] block. *)
Definition await (A : Type) := conn -> option A * conn.

Definition ret {A} (a : A) : await A := fun c => (Some a, c).

Definition reject {A} : await A := fun c => (None, c).

Definition and_then {A B} (m : await A) (k : A -> await B) : await B :=
  fun c =>
    match m c with
    | (Some a, c') => k a c'
    | (None, c') => (None, c')
    end.

Notation "x <~ m ;; k" := (and_then m (fun x => k))
  (at level 61, m at next level, right associativity).

(** [await client.query(stmt)]. *)
Definition query (stmt : statement) : await rows :=
  fun c =>
    let '(r, d, s) :=
      exec encode_text uuid_in (verdict_of env (sent c))
           (gen_random_uuid env) (now env) stmt
           (database c) (client c) in
    (r, {| database := d; client := s; sent := S (sent c);
           log := log c ++ [Query stmt
                              (match r with Some _ => true
                                          | None => false end)] |}).

(** [entryResult.rows[0]]; reading [.id] of a missing row throws. *)
Definition first_entry (r : rows) : await entry_row :=
  match r with
  | EntryRows e => ret e
  | _ => reject
  end.

Definition first_line (r : rows) : await line_row :=
  match r with
  | LineRows l => ret l
  | _ => reject
  end.

(** [for (const line of normalizedLines)]: one [INSERT] per line, the
    returned rows pushed on [lineInserts]. *)
Fixpoint insert_lines (entry : entry_row) (lines : list normalized_line)
    (lineInserts : list line_row) : await (list line_row) :=
  match lines with
  | [] => ret lineInserts
  | line :: rest =>
      lineResult <~ query (INSERT_INTO_ledger_lines
                             (entry_id entry)
                             (line_account_id line)
                             (line_direction line)
                             (line_amount line)
                             (line_currency line)
                             (line_metadata line)) ;;
      row <~ first_line lineResult ;;
      insert_lines entry rest (lineInserts ++ [row])
  end.

(** The [try] block, up to and including [COMMIT]. *)
Definition transaction (description reference_type reference_id
                        metadata : value)
    (lines : list normalized_line)
  : await (entry_row * list line_row) :=
  _ <~ query BEGIN ;;
  entryResult <~ query (INSERT_INTO_ledger_entries
                          (or_else description VNull)
                          (or_else reference_type VNull)
                          (or_else reference_id VNull)
                          (or_else metadata (VObject []))) ;;
  entry <~ first_entry entryResult ;;
  lineInserts <~ insert_lines entry lines [] ;;
  _ <~ query COMMIT ;;
  ret (entry, lineInserts).

Definition finish (r : response) (c : conn) : outcome :=
  {| reply := Some r;
     trace := log c ++ [Respond r; Release];
     db_after := database c;
     client_after := Some (client c) |}.

(** [try { .. } catch (err) { ROLLBACK; 500 } finally { release }]. *)
Definition storage (d : db)
    (description reference_type reference_id metadata : value)
    (lines : list normalized_line) : outcome :=
  if negb (connect_ok env)
  then {| reply := Some (error_json 500 "Database connection failed");
          trace := [Connect false;
                    Respond (error_json 500 "Database connection failed")];
          db_after := d;
          client_after := None |}
  else
    let c0 := {| database := d; client := fresh_session; sent := O;
                 log := [Connect true] |} in
    match transaction description reference_type reference_id metadata
            lines c0 with
    | (Some (entry, lineInserts), c) =>
        finish {| status := 201;
                  payload := CreatedEntry entry lineInserts |} c
    | (None, c) =>
        let '(_, c') := query ROLLBACK c in
        finish (error_json 500 "Failed to create ledger entry") c'
    end.

(** [router.post('/ledger/entries', ...)]. *)
Definition post_ledger_entries (d : db) (req_body : value) : outcome :=
  let fields := or_else req_body (VObject []) in
  let description := get fields "description" in
  let reference_type := get fields "reference_type" in
  let reference_id := get fields "reference_id" in
  let metadata := get fields "metadata" in
  let lines := get fields "lines" in
  match validation lines with
  | Return r =>
      {| reply := Some r; trace := [Respond r];
         db_after := d; client_after := None |}
  | Raise _ =>
      {| reply := None; trace := [];
         db_after := d; client_after := None |}
  | Next normalized =>
      storage d description reference_type reference_id metadata
              normalized
  end.

(** [router.post('/accounts', ...)]: one [INSERT] through the pool,
    outside any transaction. *)
Definition post_accounts (d : db) (req_body : value) : outcome :=
  let fields := or_else req_body (VObject []) in
  let name := get fields "name" in
  let code := get fields "code" in
  let description := get fields "description" in
  let currency := get fields "currency" in
  let owner_group_id := get fields "owner_group_id" in
  let owner_user_id := get fields "owner_user_id" in
  let metadata := get fields "metadata" in
  if negb (isNonEmptyString name)
  then {| reply := Some (error_json 400 "name is required");
          trace := [Respond (error_json 400 "name is required")];
          db_after := d; client_after := None |}
  else
    let stmt := INSERT_INTO_accounts
                  name
                  (or_else code VNull)
                  (or_else description VNull)
                  (or_else currency VNull)
                  (or_else owner_group_id VNull)
                  (or_else owner_user_id VNull)
                  (or_else metadata (VObject [])) in
    let '(r, d', _) :=
      exec encode_text uuid_in (verdict_of env O)
           (gen_random_uuid env) (now env) stmt d fresh_session in
    let r' :=
      match r with
      | Some (AccountRows row) =>
          {| status := 201; payload := CreatedAccount row |}
      | Some _ => {| status := 201; payload := Json VUndefined |}
      | None => error_json 500 "Failed to create account"
      end in
    {| reply := Some r';
       trace := [Query stmt (match r with Some _ => true
                                        | None => false end);
                 Respond r'];
       db_after := d'; client_after := None |}.

End Routes.

End Financials.

(* ====================================================================== *)
(** ** Sample store, driver and requests used by the worked examples *)
(* ====================================================================== *)

Module Sample.
Import Js Pg Financials.

(** A driver for the examples: strings are sent as they are, other
    values as their [String(..)] text, and an id column reads a string
    written in canonical form as itself. *)
Definition encode_text (v : value) : string :=
  match to_str v with
  | Normal s => s
  | Throw _ => ""
  end.

Definition uuid_in (v : value) : option uuid :=
  match v with
  | VString s => Some s
  | _ => None
  end.

Definition cash : uuid := "0a000000-0000-4000-8000-000000000001".
Definition sales : uuid := "0a000000-0000-4000-8000-000000000002".
Definition nobody : uuid := "0a000000-0000-4000-8000-00000000dead".
Definition new_entry : uuid := "0e000000-0000-4000-8000-000000000001".

Definition account (id : uuid) (name : string) (code : option string)
  : account_row :=
  {| acct_id := id; acct_name := name; acct_code := code;
     acct_description := None; acct_currency := "USD";
     acct_owner_group_id := VNull; acct_owner_user_id := VNull;
     acct_metadata := VObject []; acct_is_active := true;
     acct_created_at := 0 |}.

(** Two accounts, no entry yet. *)
Definition books : db :=
  {| committed :=
       {| accounts := [account cash "Cash" (Some "1000");
                       account sales "Sales" (Some "4000")];
          ledger_entries := [];
          ledger_lines := [] |};
     ledger_lines_id_seq := 1 |}.

(** A world in which the store works. *)
Definition calm : environment :=
  {| connect_ok := true; verdict_of := fun _ => Healthy;
     gen_random_uuid := new_entry; now := 1700000000 |}.

(** A world in which the connection drops on the statement number [k],
    before the statement reaches the server. *)
Definition drops_at (k : nat) : environment :=
  {| connect_ok := true;
     verdict_of := fun i => if Nat.eqb i k then Lost false else Healthy;
     gen_random_uuid := new_entry; now := 1700000000 |}.

(** A world in which the server runs the statement number [k] and the
    connection drops before its acknowledgement arrives. *)
Definition unacknowledged_at (k : nat) : environment :=
  {| connect_ok := true;
     verdict_of := fun i => if Nat.eqb i k then Lost true else Healthy;
     gen_random_uuid := new_entry; now := 1700000000 |}.

Definition line (account direction : string) (amount : value)
    (currency : string) : value :=
  VObject [("account_id", VString account);
           ("direction", VString direction);
           ("amount", amount);
           ("currency", VString currency)].

Definition entry (lines : list value) : value :=
  VObject [("description", VString "sale"); ("lines", VArray lines)].

Definition post (env : environment) (d : db) (req_body : value) : outcome :=
  post_ledger_entries encode_text uuid_in env d req_body.

End Sample.

(* ====================================================================== *)
(** ** Vocabulary of the statements *)
(* ====================================================================== *)

Import Js Pg Financials.

(** The lines of a request body, as the handler reads them. *)
Definition lines_of (req_body : value) : value :=
  get (or_else req_body (VObject [])) "lines".

(** What the loop body appends and accumulates once a line has passed
    every check. *)
Definition push (st : loop_state) (nl : normalized_line)
    (c : option string) : loop_state :=
  {| normalizedLines := normalizedLines st ++ [nl];
     currency := c;
     totalDebits :=
       if String.eqb (line_direction nl) "debit"
       then Num.add (totalDebits st) (line_amount nl) else totalDebits st;
     totalCredits :=
       if String.eqb (line_direction nl) "debit"
       then totalCredits st
       else Num.add (totalCredits st) (line_amount nl) |}.

(** The checks of the loop body that look at the line only: the normalized
    line a raw line gives when it is the first of its entry. *)
Definition alone (line : value) : step normalized_line :=
  st <- validate_line loop_start line ;;
  match normalizedLines st with
  | nl :: _ => Next nl
  | [] => Raise TypeError
  end.

Definition same_currency_error : response :=
  error_json 400 "All lines must use the same currency".

(** The four early returns of the loop body. *)
Definition line_errors : list response :=
  [ error_json 400
      "Each line requires account_id, direction, amount, and currency";
    error_json 400 "direction must be debit or credit";
    error_json 400 "amount must be a positive number";
    same_currency_error ].


Definition balance_message : value :=
  VString "Debits and credits must balance".

Definition connection_failed : response :=
  error_json 500 "Database connection failed".

Definition posting_failed : response :=
  error_json 500 "Failed to create ledger entry".

Definition created (entry : entry_row) (rows : list line_row) : response :=
  {| status := 201; payload := CreatedEntry entry rows |}.

Definition account_failed : response :=
  error_json 500 "Failed to create account".

(** The left-to-right floating-point sum of the amounts of one direction,
    which is what [totalDebits += numericAmount] accumulates. *)
Definition float_total (direction : string) (nls : list normalized_line)
    (start : Num.number) : Num.number :=
  fold_left Num.add
    (map line_amount
       (filter (fun nl => String.eqb (line_direction nl) direction) nls))
    start.


(** The checks of the loop body that come before the amount check: the
    four fields are present and the direction reads as debit or credit. *)
Definition reaches_amount_check (line : value) : Prop :=
  let fields := or_else line (VObject []) in
  truthy (get fields "account_id") = true /\
  truthy (get fields "direction") = true /\
  is_nullish (get fields "amount") = false /\
  truthy (get fields "currency") = true /\
  exists text, to_str (get fields "direction") = Normal text /\
               (toLowerCase text = "debit" \/ toLowerCase text = "credit").

(** One side of a movement as the ledger holds it: direction, currency,
    and amount in units of [10^-18]. *)
Definition movement : Type := string * string * Z.

Definition movement_of_row (r : line_row) : movement :=
  (row_direction r, row_currency r, row_amount r).

(** The movement a normalized line would be stored as. *)
Definition movement_of_line (nl : normalized_line) : option movement :=
  match numeric_36_18 (line_amount nl) with
  | Some units => Some (line_direction nl, line_currency nl, units)
  | None => None
  end.

(** The exact sum of the amounts of one direction in one currency. *)
Definition subtotal (direction currency : string) (ms : list movement) : Z :=
  fold_right Z.add 0
    (map (fun m => snd m)
       (filter (fun m => String.eqb (fst (fst m)) direction
                         && String.eqb (snd (fst m)) currency) ms)).

(** The body the caller reads for an error response, and the object the
    response was built from; the JSON of a row is not modelled. *)
Definition received (r : response) : option value :=
  match payload r with
  | Json v => JSON_stringify v
  | _ => None
  end.

Definition json_of (r : response) : value :=
  match payload r with
  | Json v => v
  | _ => VUndefined
  end.

(** The error taxonomy of the specification, read off the HTTP status the
    way the routes of this repository use statuses: 400 for rejected
    input, 404 for a missing record, 409 for a conflict, 5xx for a storage
    failure. *)
Inductive error_kind :=
| ValidationError
| NotFoundError
| ConflictError
| StorageError.

Definition kind_of (r : response) : option error_kind :=
  if status r =? 400 then Some ValidationError
  else if status r =? 404 then Some NotFoundError
  else if status r =? 409 then Some ConflictError
  else if 500 <=? status r then Some StorageError
  else None.

(** The same world with every statement run and acknowledged. *)
Definition acknowledged (env : environment) : environment :=
  {| connect_ok := connect_ok env; verdict_of := fun _ => Healthy;
     gen_random_uuid := gen_random_uuid env; now := now env |}.

(** The verdict of a statement that the server ran and whose
    acknowledgement was lost. *)
Definition unacknowledged (v : verdict) : bool :=
  match v with
  | Lost applied => applied
  | _ => false
  end.

Definition succeeded {A} (r : option A) : bool :=
  match r with
  | Some _ => true
  | None => false
  end.

(** The tables with one more entry header, and with more lines. *)
Definition add_entry (t : tables) (e : entry_row) : tables :=
  {| accounts := accounts t;
     ledger_entries := ledger_entries t ++ [e];
     ledger_lines := ledger_lines t |}.

Definition add_lines (t : tables) (rows : list line_row) : tables :=
  {| accounts := accounts t;
     ledger_entries := ledger_entries t;
     ledger_lines := ledger_lines t ++ rows |}.

(** The state of the client between a successful [BEGIN] and the
    [COMMIT]: readers still see the tables of [d0], the transaction works
    on its own copy [t], and that copy has the accounts of [d0]. *)
Definition in_flight (d0 : db) (c : conn) (t : tables) : Prop :=
  committed (database c) = committed d0 /\
  connected (client c) = true /\
  tx_failed (client c) = false /\
  tx (client c) = Some t /\
  accounts t = accounts (committed d0).

(** Whether a parameter bound to [account_id] designates a row of
    [accounts]. *)
Definition resolves (uuid_in : value -> option uuid) (d : db)
    (account_id : value) : bool :=
  match uuid_in account_id with
  | Some id => has_account (committed d) id
  | None => false
  end.

(** What the store holds for a normalized line once its [INSERT] has
    succeeded. *)
Definition line_stored (uuid_in : value -> option uuid)
    (nl : normalized_line) (row : line_row) : Prop :=
  numeric_36_18 (line_amount nl) = Some (row_amount row) /\
  uuid_in (line_account_id nl) = Some (row_account_id row) /\
  row_direction row = line_direction nl /\
  row_currency row = line_currency nl.

(** What the store guarantees of a row returned by a line [INSERT]. *)
Definition row_ok (entry : uuid) (r : line_row) : Prop :=
  row_entry_id r = entry /\
  (row_direction r = "debit" \/ row_direction r = "credit") /\
  0 <= row_amount r.

(** What readers see once the transaction of a posting has been committed:
    the tables of [d] with the header [entry] and the [rows], one row for
    each normalized line, each against an account that exists. *)
Definition posted (uuid_in : value -> option uuid) (env : environment)
    (d : db) (ls : list normalized_line) (entry : entry_row)
    (rows : list line_row) (seen : tables) : Prop :=
  entry_id entry = gen_random_uuid env /\
  has_entry (committed d) (entry_id entry) = false /\
  Forall (fun nl => resolves uuid_in d (line_account_id nl) = true) ls /\
  Forall2 (line_stored uuid_in) ls rows /\
  Forall (row_ok (entry_id entry)) rows /\
  seen = add_lines (add_entry (committed d) entry) rows.

(** The ways the storage phase can end. *)
Inductive storage_end (uuid_in : value -> option uuid) (env : environment)
    (d : db) (ls : list normalized_line) (o : outcome) : Prop :=
| NoClient :
    connect_ok env = false ->
    o = {| reply := Some connection_failed;
           trace := [Connect false; Respond connection_failed];
           db_after := d; client_after := None |} ->
    storage_end uuid_in env d ls o
| Committed (entry : entry_row) (rows : list line_row) (pre : list event)
    (s : session) :
    connect_ok env = true ->
    reply o = Some (created entry rows) ->
    trace o = (pre ++ [Respond (created entry rows); Release])%list ->
    entry_id entry = gen_random_uuid env ->
    has_entry (committed d) (entry_id entry) = false ->
    Forall (fun nl => resolves uuid_in d (line_account_id nl) = true) ls ->
    Forall2 (line_stored uuid_in) ls rows ->
    Forall (fun row => row_entry_id row = entry_id entry) rows ->
    committed (db_after o)
    = add_lines (add_entry (committed d) entry) rows ->
    client_after o = Some s -> tx s = None ->
    storage_end uuid_in env d ls o
| Aborted (pre : list event) (ok : bool) (s : session) :
    connect_ok env = true ->
    reply o = Some posting_failed ->
    trace o = (pre ++ [Query ROLLBACK ok; Respond posting_failed;
                       Release])%list ->
    committed (db_after o) = committed d ->
    client_after o = Some s -> tx s = None ->
    storage_end uuid_in env d ls o
| Unacknowledged (entry : entry_row) (rows : list line_row)
    (pre : list event) (s : session) :
    connect_ok env = true ->
    verdict_of env (2 + List.length ls) = Lost true ->
    reply o = Some posting_failed ->
    trace o = (pre ++ [Query COMMIT false; Query ROLLBACK false;
                       Respond posting_failed; Release])%list ->
    posted uuid_in env d ls entry rows (committed (db_after o)) ->
    client_after o = Some s -> tx s = None ->
    storage_end uuid_in env d ls o.

(* ====================================================================== *)
(** ** Worked requests *)
(* ====================================================================== *)

(** A currency exchange: 100 USD in and out, 90 EUR in and out. *)
Definition exchange : list value :=
  [Sample.line Sample.cash "debit" (VString "100.00") "USD";
   Sample.line Sample.sales "credit" (VString "100.00") "USD";
   Sample.line Sample.sales "debit" (VString "90.00") "EUR";
   Sample.line Sample.cash "credit" (VString "90.00") "EUR"].

(** The exchange entry once normalized, and as movements. *)
Definition exchange_lines : list normalized_line :=
  let norm (account direction : string) (amount : Z) (ccy : string) :=
    {| line_account_id := VString account;
       line_direction := direction;
       line_amount := Num.of_decimal false amount (-2);
       line_currency := ccy;
       line_metadata := VObject [] |} in
  [norm Sample.cash "debit" 10000 "USD";
   norm Sample.sales "credit" 10000 "USD";
   norm Sample.sales "debit" 9000 "EUR";
   norm Sample.cash "credit" 9000 "EUR"].

Definition exchange_movements : list movement :=
  [("debit", "USD", 100 * 10 ^ 18); ("credit", "USD", 100 * 10 ^ 18);
   ("debit", "EUR", 90 * 10 ^ 18); ("credit", "EUR", 90 * 10 ^ 18)].

(** Scenario 2 of the specification: 100.00 against 99.99. *)
Definition short_by_a_cent : value :=
  Sample.entry
    [Sample.line Sample.cash "debit" (VString "100.00") "USD";
     Sample.line Sample.sales "credit" (VString "99.99") "USD"].

Definition short_by_a_cent_reply : response :=
  unbalanced (Num.of_decimal false 10000 (-2))
             (Num.of_decimal false 9999 (-2)).

(** Two debits of 1e308 against one credit of 1e308: the debit total
    overflows to [Infinity]. *)
Definition overflowing_debits : value :=
  Sample.entry
    [Sample.line Sample.cash "debit" (VString "1e308") "USD";
     Sample.line Sample.cash "debit" (VString "1e308") "USD";
     Sample.line Sample.sales "credit" (VString "1e308") "USD"].

(** Scenario 5 of the specification: a credit to an account nobody has. *)
Definition to_nobody : list value :=
  [Sample.line Sample.cash "debit" (VString "25.00") "USD";
   Sample.line Sample.nobody "credit" (VString "25.00") "USD"].

Definition to_nobody_lines : list normalized_line :=
  [{| line_account_id := VString Sample.cash; line_direction := "debit";
      line_amount := Num.of_decimal false 2500 (-2); line_currency := "USD";
      line_metadata := VObject [] |};
   {| line_account_id := VString Sample.nobody; line_direction := "credit";
      line_amount := Num.of_decimal false 2500 (-2); line_currency := "USD";
      line_metadata := VObject [] |}].

(** A second account asking for the code of Cash. *)
Definition second_cash : value :=
  VObject [("name", VString "Petty cash"); ("code", VString "1000")].

(** An entry whose amounts are [true] and [[1]], and an entry whose
    amounts are written with twenty decimals. *)
Definition odd_amounts : value :=
  Sample.entry
    [Sample.line Sample.cash "debit" (VBool true) "USD";
     Sample.line Sample.sales "credit" (VArray [VNumber (Num.of_Z 1)]) "USD"].

Definition twenty_decimals : value :=
  Sample.entry
    [Sample.line Sample.cash "debit"
       (VString "0.12345678901234567890") "USD";
     Sample.line Sample.sales "credit"
       (VString "0.12345678901234567890") "USD"].

Definition row (id : Z) (account direction : string) (units : Z) : line_row :=
  {| row_id := id; row_entry_id := Sample.new_entry;
     row_account_id := account; row_direction := direction;
     row_amount := units; row_currency := "USD";
     row_metadata := VObject [] |}.

Definition header : entry_row :=
  {| entry_id := Sample.new_entry; entry_occurred_at := 1700000000;
     entry_description := VString "sale"; entry_reference_type := VNull;
     entry_reference_id := VNull; entry_metadata := VObject [];
     entry_created_at := 1700000000 |}.

(** Two debits of 9007199254740992 and 1 against one credit of
    9007199254740992: the first sum is not a binary64 number and rounds
    back to 9007199254740992. *)
Definition absorbed_unit : value :=
  Sample.entry
    [Sample.line Sample.cash "debit"
       (VNumber (Num.of_Z 9007199254740992)) "USD";
     Sample.line Sample.cash "debit" (VNumber (Num.of_Z 1)) "USD";
     Sample.line Sample.sales "credit"
       (VNumber (Num.of_Z 9007199254740992)) "USD"].

Definition absorbed_rows : list line_row :=
  [row 1 Sample.cash "debit" (9007199254740992 * 10 ^ 18);
   row 2 Sample.cash "debit" (10 ^ 18);
   row 3 Sample.sales "credit" (9007199254740992 * 10 ^ 18)].

(* ====================================================================== *)
(** ** Vocabulary for the posting protocol and the store invariants *)
(* ====================================================================== *)

(** The two [INSERT] statements of the posting handler, as it builds them
    from the request and from a normalized line. *)
Definition entry_statement (req_body : value) : statement :=
  let fields := or_else req_body (VObject []) in
  INSERT_INTO_ledger_entries
    (or_else (get fields "description") VNull)
    (or_else (get fields "reference_type") VNull)
    (or_else (get fields "reference_id") VNull)
    (or_else (get fields "metadata") (VObject [])).

Definition line_statement (entry : uuid) (nl : normalized_line) : statement :=
  INSERT_INTO_ledger_lines entry (line_account_id nl) (line_direction nl)
    (line_amount nl) (line_currency nl) (line_metadata nl).

(** The statements of a posting that runs to its end, in order. *)
Definition script (entry : uuid) (req_body : value)
    (nls : list normalized_line) : list statement :=
  (BEGIN :: entry_statement req_body :: map (line_statement entry) nls
   ++ [COMMIT])%list.

(** The constraints of the schema on the ledger tables: entry ids and
    account ids are keys, account codes are unique, every line points at
    an existing entry and an existing account, has a direction of the
    enum and an amount that is not negative. *)
Definition line_ok (t : tables) (r : line_row) : Prop :=
  has_entry t (row_entry_id r) = true /\
  has_account t (row_account_id r) = true /\
  (row_direction r = "debit" \/ row_direction r = "credit") /\
  0 <= row_amount r.

Fixpoint codes_of (l : list account_row) : list string :=
  match l with
  | [] => []
  | a :: rest =>
      match acct_code a with
      | Some c => c :: codes_of rest
      | None => codes_of rest
      end
  end.

Definition schema_ok (t : tables) : Prop :=
  NoDup (map entry_id (ledger_entries t)) /\
  NoDup (map acct_id (accounts t)) /\
  NoDup (codes_of (accounts t)) /\
  Forall (line_ok t) (ledger_lines t).

(** A statement that was sent and succeeded, as an event. *)
Definition sent_ok (stmt : statement) : event := Query stmt true.

(** Scenario 1 of the specification as a request, and its normalized
    lines. *)
Definition balanced_sale : value :=
  Sample.entry
    [Sample.line Sample.cash "debit" (VString "100.00") "USD";
     Sample.line Sample.sales "credit" (VString "100.00") "USD"].

Definition balanced_sale_lines : list normalized_line :=
  [{| line_account_id := VString Sample.cash; line_direction := "debit";
      line_amount := Num.of_decimal false 10000 (-2); line_currency := "USD";
      line_metadata := VObject [] |};
   {| line_account_id := VString Sample.sales; line_direction := "credit";
      line_amount := Num.of_decimal false 10000 (-2); line_currency := "USD";
      line_metadata := VObject [] |}].

Definition balanced_sale_rows : list line_row :=
  [row 1 Sample.cash "debit" (100 * 10 ^ 18);
   row 2 Sample.sales "credit" (100 * 10 ^ 18)].

(** How a raw line of the request shows in the row stored for it: the
    direction text in lower case, the currency text in upper case, the
    account it names, and the amount [Number] made of it. *)
Definition stored_as (uuid_in : value -> option uuid) (d : db)
    (line : value) (r : line_row) : Prop :=
  let fields := or_else line (VObject []) in
  (exists text, to_str (get fields "direction") = Normal text /\
                row_direction r = toLowerCase text) /\
  (exists text, to_str (get fields "currency") = Normal text /\
                row_currency r = toUpperCase text) /\
  uuid_in (get fields "account_id") = Some (row_account_id r) /\
  has_account (committed d) (row_account_id r) = true /\
  (exists x, to_number (get fields "amount") = Normal x /\
             Num.isFinite x = true /\
             Num.ltb Num.pos_zero x = true /\
             numeric_36_18 x = Some (row_amount r)) /\
  0 <= row_amount r < 10 ^ 36.

(** A line whose currency is the empty array: [String([])] is the empty
    string, which the loop takes for "no currency yet". *)
Definition no_currency_line : value :=
  VObject [("account_id", VString Sample.cash);
           ("direction", VString "debit");
           ("amount", VString "5");
           ("currency", VArray [])].

Definition no_currency_normal : normalized_line :=
  {| line_account_id := VString Sample.cash; line_direction := "debit";
     line_amount := Num.of_Z 5; line_currency := "";
     line_metadata := VObject [] |}.

Definition euro_line : value :=
  Sample.line Sample.sales "credit" (VString "5") "eur".

Definition euro_normal : normalized_line :=
  {| line_account_id := VString Sample.sales; line_direction := "credit";
     line_amount := Num.of_Z 5; line_currency := "EUR";
     line_metadata := VObject [] |}.

Definition name_required : response := error_json 400 "name is required".

Definition account_created (r : account_row) : response :=
  {| status := 201; payload := CreatedAccount r |}.

(** The store with one more account. *)
Definition add_account (d : db) (r : account_row) : db :=
  {| committed :=
       {| accounts := accounts (committed d) ++ [r];
          ledger_entries := ledger_entries (committed d);
          ledger_lines := ledger_lines (committed d) |};
     ledger_lines_id_seq := ledger_lines_id_seq d |}.

(** A string has a character that is not white space. *)
Definition has_visible_char (s : string) : Prop :=
  exists c, In c (list_ascii_of_string s) /\ Num.is_space c = false.

(** A request for a third account. *)
Definition new_bank_account : value :=
  VObject [("name", VString "Bank"); ("code", VString "1010")].

Definition bank_row : account_row :=
  {| acct_id := Sample.new_entry; acct_name := "Bank";
     acct_code := Some "1010"; acct_description := None;
     acct_currency := "USD"; acct_owner_group_id := VNull;
     acct_owner_user_id := VNull; acct_metadata := VObject [];
     acct_is_active := true; acct_created_at := 1700000000 |}.

(* ====================================================================== *)
(** ** The two listing routes of the financials module *)
(* ====================================================================== *)

(** [parseInt(s, 10)] on a string: white space at the start is dropped,
    one sign is read, then the longest run of decimal digits; what follows
    is ignored.  No digit gives [NaN], and the integer read is rounded to
    the nearest number, which is an infinity when it is too large.  (An
    implementation may read the digits after the twentieth as zeros; the
    integer is rounded as written here.) *)
Definition parseInt (s : string) : Num.number :=
  let str := Num.skip_space (list_ascii_of_string s) in
  let '(sign, str) :=
    match str with
    | c :: r =>
        if Num.is_char c "-" then (true, r)
        else if Num.is_char c "+" then (false, r)
        else (false, str)
    | [] => (false, str)
    end in
  let '(mathInt, cnt, _) := Num.read_digits 10 str 0 0 in
  if cnt =? 0 then Num.nan
  else binary_normalize Num.prec Num.emax (cond_Zopp sign mathInt) 0 sign.

(** The first three lines of the entry listing: the [limit] it sends to
    the store for a [req.query.limit], or the exception of the string
    conversion inside [parseInt]. *)
Definition limit_of (query_limit : value) : completion Num.number :=
  match to_str (or_else query_limit (VString "50")) with
  | Throw e => Throw e
  | Normal s =>
      let limit := parseInt s in
      let limit :=
        if negb (Num.isFinite limit) || Num.leb limit (Num.of_Z 0)
        then Num.of_Z 50 else limit in
      let limit :=
        if Num.ltb (Num.of_Z 200) limit then Num.of_Z 200 else limit in
      Normal limit
  end.

(** The three [SELECT] statements of the two listings. *)
Inductive select :=
| SELECT_ledger_entries_LIMIT (limit : Num.number)
| SELECT_accounts_WHERE_is_active
| SELECT_accounts.

(** [result.rows] of a [SELECT]. *)
Inductive listing :=
| EntryList (l : list entry_row)
| AccountList (l : list account_row).

(** What a listing route sends: the rows with a status, or an error
    object. *)
Inductive page :=
| Page (status : Z) (rows : listing)
| Failed (r : response).

Section Listings.

(** [req.db.query]: [Some rows] when the promise resolves, [None] when it
    rejects. *)
Variable db_query : select -> option listing.

Definition get_ledger_entries (req_query : value) : completion page :=
  match limit_of (get req_query "limit") with
  | Throw e => Throw e
  | Normal limit =>
      Normal
        match db_query (SELECT_ledger_entries_LIMIT limit) with
        | Some rows => Page 200 rows
        | None => Failed (error_json 500 "Failed to list ledger entries")
        end
  end.

(** [req.query.active_only !== 'false']. *)
Definition activeOnly (req_query : value) : bool :=
  match get req_query "active_only" with
  | VString s => negb (String.eqb s "false")
  | _ => true
  end.

Definition get_accounts (req_query : value) : page :=
  match db_query (if activeOnly req_query
                  then SELECT_accounts_WHERE_is_active
                  else SELECT_accounts) with
  | Some rows => Page 200 rows
  | None => Failed (error_json 500 "Failed to list accounts")
  end.

End Listings.

(** [ORDER BY key DESC]: no row comes before a row with a larger key. *)
Definition newest_first {A} (key : A -> Z) (l : list A) : Prop :=
  StronglySorted (fun a b => key b <= key a) l.

(** The count a [LIMIT $1] reads from a number parameter: the driver sends
    the number as its [toString] text and the server reads a [bigint] from
    it, which fails unless the text is a run of digits. *)
Definition bigint_in (x : Num.number) : option Z :=
  let '(v, cnt, rest) :=
    Num.read_digits 10 (list_ascii_of_string (Num.to_string x)) 0 0 in
  match rest with
  | [] => if 0 <? cnt then Some v else None
  | _ :: _ => None
  end.

(** The rows the store may return for a [SELECT] on given tables.  The order
    among rows with equal keys is the store's choice, and so is which of
    them a [LIMIT] keeps. *)
Definition selects (t : tables) (q : select) (rows : listing) : Prop :=
  match q, rows with
  | SELECT_ledger_entries_LIMIT limit, EntryList l =>
      exists n all,
        bigint_in limit = Some n /\
        Permutation all (ledger_entries t) /\
        newest_first entry_occurred_at all /\
        l = firstn (Z.to_nat n) all
  | SELECT_accounts_WHERE_is_active, AccountList l =>
      Permutation l (filter acct_is_active (accounts t)) /\
      newest_first acct_created_at l
  | SELECT_accounts, AccountList l =>
      Permutation l (accounts t) /\ newest_first acct_created_at l
  | _, _ => False
  end.

(** A [db.query] that answers from the tables [t], or rejects. *)
Definition reads_from (t : tables) (db_query : select -> option listing)
  : Prop :=
  forall q rows, db_query q = Some rows -> selects t q rows.

(** One store that answers every listing: it sorts by insertion, which
    keeps rows with equal keys in the order of the table. *)
Fixpoint insert_desc {A} (key : A -> Z) (x : A) (l : list A) : list A :=
  match l with
  | [] => [x]
  | y :: r =>
      if key y <=? key x then x :: l else y :: insert_desc key x r
  end.

Definition order_by_desc {A} (key : A -> Z) (l : list A) : list A :=
  fold_right (insert_desc key) [] l.

Definition answer (t : tables) (q : select) : option listing :=
  match q with
  | SELECT_ledger_entries_LIMIT limit =>
      match bigint_in limit with
      | Some n =>
          Some (EntryList
                  (firstn (Z.to_nat n)
                     (order_by_desc entry_occurred_at (ledger_entries t))))
      | None => None
      end
  | SELECT_accounts_WHERE_is_active =>
      Some (AccountList
              (order_by_desc acct_created_at
                 (filter acct_is_active (accounts t))))
  | SELECT_accounts =>
      Some (AccountList (order_by_desc acct_created_at (accounts t)))
  end.

(** Three entries and three accounts, one of them closed. *)
Definition entry_at (id : uuid) (at_time : Z) : entry_row :=
  {| entry_id := id; entry_occurred_at := at_time;
     entry_description := VNull; entry_reference_type := VNull;
     entry_reference_id := VNull; entry_metadata := VObject [];
     entry_created_at := at_time |}.

Definition closed_account : account_row :=
  {| acct_id := Sample.nobody; acct_name := "Old till";
     acct_code := None; acct_description := None;
     acct_currency := "USD"; acct_owner_group_id := VNull;
     acct_owner_user_id := VNull; acct_metadata := VObject [];
     acct_is_active := false; acct_created_at := 5 |}.

Definition journal : tables :=
  {| accounts := closed_account :: accounts (committed Sample.books);
     ledger_entries := [entry_at "e1" 10; entry_at "e2" 30;
                        entry_at "e3" 20];
     ledger_lines := [] |}.

(* ====================================================================== *)
(** ** The asset registry: the table and the routes that write to it *)
(* ====================================================================== *)

Module Assets.

(** The labels of [asset_type_enum] and [asset_status_enum]. *)
Definition asset_type_enum : list string :=
  ["music"; "art"; "collectible"; "nft"; "document"; "other"].

Definition asset_status_enum : list string :=
  ["draft"; "indexed"; "published"; "on_sale"; "sold"; "archived"].

(** [assets]: [id UUID PRIMARY KEY], [type asset_type_enum NOT NULL],
    [status asset_status_enum NOT NULL DEFAULT 'draft'],
    [title TEXT NOT NULL], five optional texts, the references to [users],
    [groups] and [projects], [metadata JSONB] and the two timestamps,
    with [CHECK (owner_user_id IS NOT NULL OR owner_group_id IS NOT NULL)].
    A NULL is [None]. *)
Record asset_row := {
  asset_id : uuid;
  asset_type : string;
  asset_status : string;
  asset_title : string;
  asset_description : option string;
  asset_source : option string;
  asset_owner_user_id : option uuid;
  asset_owner_group_id : option uuid;
  asset_project_id : option uuid;
  asset_storage_uri : option string;
  asset_thumbnail_uri : option string;
  asset_metadata : value;
  asset_external_ref : option string;
  asset_created_at : Z;
  asset_updated_at : Z
}.

(** The asset table and the keys of the three tables it refers to. *)
Record registry := {
  users : list uuid;
  groups : list uuid;
  projects : list uuid;
  assets : list asset_row
}.

(** The statements of the three routes, with the parameters they pass;
    [req.params.id] is a string. *)
Inductive asset_statement :=
| INSERT_INTO_assets
    (type title description source owner_user_id owner_group_id project_id
     storage_uri thumbnail_uri metadata external_ref : value)
| SELECT_FROM_assets_WHERE_id (id : string)
| UPDATE_assets_WHERE_id (status metadata : value) (id : string).

Definition has_asset (g : registry) (id : uuid) : bool :=
  existsb (fun a => String.eqb (asset_id a) id) (assets g).

Definition member (id : uuid) (ids : list uuid) : bool :=
  existsb (String.eqb id) ids.

(** A reference column accepts NULL or a key of the table it refers to. *)
Definition refers_to (ids : list uuid) (r : option uuid) : bool :=
  match r with
  | Some id => member id ids
  | None => true
  end.

(** The [CHECK] of the table. *)
Definition has_owner (a : asset_row) : bool :=
  match asset_owner_user_id a, asset_owner_group_id a with
  | None, None => false
  | _, _ => true
  end.

Section Driver.

(** Three conversions happen between a handler and the table and are code
    of neither: the text the driver sends for a parameter bound to a
    [TEXT] or enum column, the id the server reads from a parameter bound
    to a [UUID] column, and the value a [JSONB] column holds for a
    parameter ([None] when the text sent is not a uuid, or not JSON). *)
Variable encode_text : value -> string.
Variable uuid_in : value -> option uuid.
Variable jsonb_in : value -> option value.

(** What a [UUID] column reads from a parameter: NULL, an id, or nothing
    when the text is not a uuid. *)
Definition reference_in (v : value) : option (option uuid) :=
  if is_nullish v then Some None
  else match uuid_in v with
       | Some id => Some (Some id)
       | None => None
       end.

(** The row an [INSERT] adds, or [None] when the schema rejects it. *)
Definition insert_asset (new_id : uuid) (now : Z) (g : registry)
    (type title description source owner_user_id owner_group_id project_id
     storage_uri thumbnail_uri metadata external_ref : value)
  : option (asset_row * registry) :=
  match reference_in owner_user_id, reference_in owner_group_id,
        reference_in project_id,
        (if is_nullish metadata then Some (VObject []) else jsonb_in metadata)
  with
  | Some owner_user, Some owner_group, Some project, Some stored =>
      let r := {| asset_id := new_id;
                  asset_type := encode_text type;
                  asset_status := "draft";
                  asset_title := encode_text title;
                  asset_description := text_or_null encode_text description;
                  asset_source := text_or_null encode_text source;
                  asset_owner_user_id := owner_user;
                  asset_owner_group_id := owner_group;
                  asset_project_id := project;
                  asset_storage_uri := text_or_null encode_text storage_uri;
                  asset_thumbnail_uri :=
                    text_or_null encode_text thumbnail_uri;
                  asset_metadata := stored;
                  asset_external_ref :=
                    text_or_null encode_text external_ref;
                  asset_created_at := now;
                  asset_updated_at := now |} in
      if negb (is_nullish type) && member (encode_text type) asset_type_enum
         && negb (is_nullish title)
         && negb (has_asset g new_id)
         && refers_to (users g) owner_user
         && refers_to (groups g) owner_group
         && refers_to (projects g) project
         && has_owner r
      then Some (r, {| users := users g; groups := groups g;
                       projects := projects g;
                       assets := assets g ++ [r] |})
      else None
  | _, _, _, _ => None
  end.

(** What the [UPDATE] makes of a row it matches: [COALESCE] keeps the old
    value for a NULL parameter, and the [BEFORE UPDATE] trigger of the
    table stamps [updated_at]. *)
Definition updated (now : Z) (status : option string)
    (metadata : option value) (a : asset_row) : asset_row :=
  {| asset_id := asset_id a;
     asset_type := asset_type a;
     asset_status := match status with
                     | Some s => s
                     | None => asset_status a
                     end;
     asset_title := asset_title a;
     asset_description := asset_description a;
     asset_source := asset_source a;
     asset_owner_user_id := asset_owner_user_id a;
     asset_owner_group_id := asset_owner_group_id a;
     asset_project_id := asset_project_id a;
     asset_storage_uri := asset_storage_uri a;
     asset_thumbnail_uri := asset_thumbnail_uri a;
     asset_metadata := match metadata with
                       | Some m => m
                       | None => asset_metadata a
                       end;
     asset_external_ref := asset_external_ref a;
     asset_created_at := asset_created_at a;
     asset_updated_at := now |}.

(** The rows an [UPDATE ... WHERE id = $3 RETURNING *] returns and the
    table it leaves, or [None] when a parameter cannot be read (an id that
    is not a uuid, a status that is not a label of the enum, a metadata
    that is not JSON) or a new row fails the [CHECK]. *)
Definition update_asset (now : Z) (g : registry) (status metadata : value)
    (id : string) : option (list asset_row * registry) :=
  match uuid_in (VString id),
        (if is_nullish metadata then Some None
         else match jsonb_in metadata with
              | Some m => Some (Some m)
              | None => None
              end)
  with
  | Some key, Some stored =>
      let label := text_or_null encode_text status in
      let readable :=
        match label with
        | Some s => member s asset_status_enum
        | None => true
        end in
      let hit (a : asset_row) := String.eqb (asset_id a) key in
      let rows := map (updated now label stored) (filter hit (assets g)) in
      if readable && forallb has_owner rows
      then Some (rows,
                 {| users := users g; groups := groups g;
                    projects := projects g;
                    assets := map (fun a => if hit a
                                            then updated now label stored a
                                            else a) (assets g) |})
      else None
  | _, _ => None
  end.

Definition select_asset (g : registry) (id : string)
  : option (list asset_row) :=
  match uuid_in (VString id) with
  | None => None
  | Some key =>
      Some (filter (fun a => String.eqb (asset_id a) key) (assets g))
  end.

(** What the server does with a statement that reached it, outside any
    transaction: the rows it would answer and the registry afterwards. *)
Definition serve_statement (new_id : uuid) (now : Z)
    (stmt : asset_statement) (g : registry)
  : option (list asset_row) * registry :=
  match stmt with
  | INSERT_INTO_assets ty ti de so ou og pr st th me ex =>
      match insert_asset new_id now g ty ti de so ou og pr st th me ex
      with
      | Some (r, g') => (Some [r], g')
      | None => (None, g)
      end
  | SELECT_FROM_assets_WHERE_id id => (select_asset g id, g)
  | UPDATE_assets_WHERE_id status metadata id =>
      match update_asset now g status metadata id with
      | Some (rows, g') => (Some rows, g')
      | None => (None, g)
      end
  end.

(** [db.query(stmt)] on the pool: the rows when the promise resolves, and
    the registry afterwards.  A statement the outside world refuses, or
    that is lost before it reaches the server, changes nothing; a
    statement the server ran before the connection was lost has changed
    what it changes, and the promise is rejected all the same. *)
Definition run_statement (v : verdict) (new_id : uuid) (now : Z)
    (stmt : asset_statement) (g : registry)
  : option (list asset_row) * registry :=
  match v with
  | Healthy => serve_statement new_id now stmt g
  | Refused => (None, g)
  | Lost applied =>
      (None, if applied then snd (serve_statement new_id now stmt g) else g)
  end.

End Driver.

(** What an asset route sends: a row with a status, or an error object. *)
Inductive asset_reply :=
| Sent (status : Z) (row : asset_row)
| Refusal (r : response).

(** A handler run: the response, the statements sent with their success,
    and the registry afterwards. *)
Record asset_outcome := {
  answer_sent : asset_reply;
  statements : list (asset_statement * bool);
  registry_after : registry
}.

Section Routes.

Variable encode_text : value -> string.
Variable uuid_in : value -> option uuid.
Variable jsonb_in : value -> option value.
Variable env : environment.

Definition db_query (stmt : asset_statement) (g : registry)
  : option (list asset_row) * registry :=
  run_statement encode_text uuid_in jsonb_in (verdict_of env O)
    (gen_random_uuid env) (now env) stmt g.

(** [res.status(code).json(result.rows[0])]; [rows[0]] of an empty result
    is [undefined] and the body is then empty. *)
Definition first_row (code : Z) (rows : list asset_row) : asset_reply :=
  match rows with
  | r :: _ => Sent code r
  | [] => Refusal {| status := code; payload := Json VUndefined |}
  end.

(** [router.post('/')]. *)
Definition post_asset (g : registry) (req_body : value) : asset_outcome :=
  let fields := or_else req_body (VObject []) in
  let type := get fields "type" in
  let title := get fields "title" in
  let description := get fields "description" in
  let source := get fields "source" in
  let owner_user_id := get fields "owner_user_id" in
  let owner_group_id := get fields "owner_group_id" in
  let project_id := get fields "project_id" in
  let storage_uri := get fields "storage_uri" in
  let thumbnail_uri := get fields "thumbnail_uri" in
  let metadata := get fields "metadata" in
  let external_ref := get fields "external_ref" in
  if negb (truthy type) || negb (truthy title)
  then {| answer_sent :=
            Refusal (error_json 400 "type and title are required");
          statements := []; registry_after := g |}
  else
    let stmt := INSERT_INTO_assets
                  type title
                  (or_else description VNull)
                  (or_else source VNull)
                  (or_else owner_user_id VNull)
                  (or_else owner_group_id VNull)
                  (or_else project_id VNull)
                  (or_else storage_uri VNull)
                  (or_else thumbnail_uri VNull)
                  (or_else metadata (VObject []))
                  (or_else external_ref VNull) in
    match db_query stmt g with
    | (Some rows, g') =>
        {| answer_sent := first_row 201 rows;
           statements := [(stmt, true)]; registry_after := g' |}
    | (None, g') =>
        {| answer_sent := Refusal (error_json 500 "Failed to create asset");
           statements := [(stmt, false)]; registry_after := g' |}
    end.

(** [router.get('/:id')]. *)
Definition get_asset (g : registry) (id : string) : asset_outcome :=
  let stmt := SELECT_FROM_assets_WHERE_id id in
  match db_query stmt g with
  | (Some rows, g') =>
      {| answer_sent :=
           if (List.length rows =? 0)%nat
           then Refusal (error_json 404 "Asset not found")
           else first_row 200 rows;
         statements := [(stmt, true)]; registry_after := g' |}
  | (None, g') =>
      {| answer_sent := Refusal (error_json 500 "Failed to fetch asset");
         statements := [(stmt, false)]; registry_after := g' |}
  end.

(** [router.patch('/:id')]. *)
Definition patch_asset (g : registry) (id : string) (req_body : value)
  : asset_outcome :=
  let fields := or_else req_body (VObject []) in
  let status := get fields "status" in
  let metadata := get fields "metadata" in
  let stmt := UPDATE_assets_WHERE_id
                (or_else status VNull) (or_else metadata VNull) id in
  match db_query stmt g with
  | (Some rows, g') =>
      {| answer_sent :=
           if (List.length rows =? 0)%nat
           then Refusal (error_json 404 "Asset not found")
           else first_row 200 rows;
         statements := [(stmt, true)]; registry_after := g' |}
  | (None, g') =>
      {| answer_sent := Refusal (error_json 500 "Failed to update asset");
         statements := [(stmt, false)]; registry_after := g' |}
  end.

End Routes.

End Assets.

Import Assets.

(** The constraints of the schema on the asset table: ids are keys, the
    type and the status are labels of their enums, every asset has an
    owner, and its references point at existing rows. *)
Definition asset_ok (g : registry) (a : asset_row) : Prop :=
  In (asset_type a) asset_type_enum /\
  In (asset_status a) asset_status_enum /\
  has_owner a = true /\
  refers_to (users g) (asset_owner_user_id a) = true /\
  refers_to (groups g) (asset_owner_group_id a) = true /\
  refers_to (projects g) (asset_project_id a) = true.

Definition assets_ok (g : registry) : Prop :=
  NoDup (map asset_id (assets g)) /\ Forall (asset_ok g) (assets g).

(** The registry with one more asset. *)
Definition add_asset (g : registry) (a : asset_row) : registry :=
  {| users := users g; groups := groups g; projects := projects g;
     assets := assets g ++ [a] |}.

(** The asset table with the rows of one id replaced. *)
Definition replace_asset (g : registry) (key : uuid) (a' : asset_row)
  : registry :=
  {| users := users g; groups := groups g; projects := projects g;
     assets := map (fun a => if String.eqb (asset_id a) key then a' else a)
                   (assets g) |}.

Definition asset_required : asset_reply :=
  Refusal (error_json 400 "type and title are required").
Definition asset_failed : asset_reply :=
  Refusal (error_json 500 "Failed to create asset").
Definition asset_not_found : asset_reply :=
  Refusal (error_json 404 "Asset not found").
Definition fetch_failed : asset_reply :=
  Refusal (error_json 500 "Failed to fetch asset").
Definition update_failed : asset_reply :=
  Refusal (error_json 500 "Failed to update asset").

(** A driver for the examples reads a JSON object as itself; the
    examples send none whose keys the store would reorder. *)
Definition jsonb_object (v : value) : option value :=
  match v with
  | VObject _ => Some v
  | _ => None
  end.

(** A registry with one user and one asset of theirs, and requests on
    it. *)
Definition artist : uuid := "0b000000-0000-4000-8000-000000000001".
Definition first_song : uuid := "0c000000-0000-4000-8000-000000000001".

Definition song : asset_row :=
  {| asset_id := first_song; asset_type := "music";
     asset_status := "draft"; asset_title := "Demo";
     asset_description := None; asset_source := None;
     asset_owner_user_id := Some artist; asset_owner_group_id := None;
     asset_project_id := None; asset_storage_uri := None;
     asset_thumbnail_uri := None; asset_metadata := VObject [];
     asset_external_ref := None; asset_created_at := 100;
     asset_updated_at := 100 |}.

Definition studio : registry :=
  {| users := [artist]; groups := []; projects := []; assets := [song] |}.

Definition new_painting : value :=
  VObject [("type", VString "art"); ("title", VString "Dusk");
           ("owner_user_id", VString artist)].

Definition painting : asset_row :=
  {| asset_id := Sample.new_entry; asset_type := "art";
     asset_status := "draft"; asset_title := "Dusk";
     asset_description := None; asset_source := None;
     asset_owner_user_id := Some artist; asset_owner_group_id := None;
     asset_project_id := None; asset_storage_uri := None;
     asset_thumbnail_uri := None; asset_metadata := VObject [];
     asset_external_ref := None; asset_created_at := 1700000000;
     asset_updated_at := 1700000000 |}.

(** The three routes on the driver of the examples, in a world in which
    the store works. *)
Definition create (g : registry) (req_body : value) : asset_outcome :=
  post_asset Sample.encode_text Sample.uuid_in jsonb_object Sample.calm g
    req_body.

Definition fetch (g : registry) (id : string) : asset_outcome :=
  get_asset Sample.encode_text Sample.uuid_in jsonb_object Sample.calm g id.

Definition update (g : registry) (id : string) (req_body : value)
  : asset_outcome :=
  patch_asset Sample.encode_text Sample.uuid_in jsonb_object Sample.calm g
    id req_body.

Definition ownerless_painting : value :=
  VObject [("type", VString "art"); ("title", VString "Dusk")].

Definition publish : value := VObject [("status", VString "published")].

Definition published_song : asset_row :=
  {| asset_id := first_song; asset_type := "music";
     asset_status := "published"; asset_title := "Demo";
     asset_description := None; asset_source := None;
     asset_owner_user_id := Some artist; asset_owner_group_id := None;
     asset_project_id := None; asset_storage_uri := None;
     asset_thumbnail_uri := None; asset_metadata := VObject [];
     asset_external_ref := None; asset_created_at := 100;
     asset_updated_at := 1700000000 |}.

(* ====================================================================== *)
(** ** Vocabulary for postings of whole amounts *)
(* ====================================================================== *)

(** The number that holds the integer [n] below [2^53]: its 53-bit
    mantissa and exponent. *)
Definition whole (n : positive) : Num.number :=
  S754_finite false
    (Z.to_pos (Zpos n * 2 ^ (53 - Zpos (digits2_pos n))))
    (Zpos (digits2_pos n) - 53).

(** Decimal digits as characters, and the integer they write. *)
Definition digit_char_of (d : Z) : ascii := ascii_of_nat (48 + Z.to_nat d).

Definition decimal (ds : list Z) : list ascii := map digit_char_of ds.

Definition written (ds : list Z) (acc : Z) : Z :=
  fold_left (fun a d => a * 10 + d) ds acc.

Definition are_digits (ds : list Z) : Prop :=
  Forall (fun d => 0 <= d < 10) ds.

(** A line whose amount converts to the integer [a]. *)
Definition whole_amount (line : value) (a : Z) : Prop :=
  to_number (get (or_else line (VObject [])) "amount")
  = Normal (Num.of_Z a).

(** The amount stored on one side of an entry, in units of [10^-18]. *)
Definition posted_units (direction : string) (rows : list line_row) : Z :=
  fold_right Z.add 0
    (map row_amount
       (filter (fun r => String.eqb (row_direction r) direction) rows)).

(** The integers of the lines on one side of an entry. *)
Fixpoint side (direction : string) (amounts : list Z)
    (nls : list normalized_line) : Z :=
  match amounts, nls with
  | a :: amounts', nl :: nls' =>
      (if String.eqb (line_direction nl) direction then a else 0)
      + side direction amounts' nls'
  | _, _ => 0
  end.

(** The two lines of the balanced sale, and the state of the loop after
    them. *)
Definition balanced_sale_items : list value :=
  [Sample.line Sample.cash "debit" (VString "100.00") "USD";
   Sample.line Sample.sales "credit" (VString "100.00") "USD"].

Definition balanced_sale_state : loop_state :=
  {| normalizedLines := balanced_sale_lines; currency := Some "USD";
     totalDebits := Num.of_Z 100; totalCredits := Num.of_Z 100 |}.

(* ====================================================================== *)
(** ** The language layer on known values *)
(* ====================================================================== *)

Example number_of_one_tenth :
  Num.of_string "0.1" = S754_finite false 7205759403792794 (-56).
Proof. vm_compute. reflexivity. Qed.

Example one_tenth_plus_two_tenths :
  Num.to_string (Num.add (Num.of_string "0.1") (Num.of_string "0.2"))
  = "0.30000000000000004".
Proof. vm_compute. reflexivity. Qed.

Example one_tenth_toFixed :
  Num.toFixed (Num.of_string "0.1") 18 = "0.100000000000000006".
Proof. vm_compute. reflexivity. Qed.

Example large_toFixed :
  Num.toFixed (Num.of_string "1e21") 18 = "1e+21" /\
  Num.toFixed (Num.of_string "1e20") 18
  = "100000000000000000000.000000000000000000".
Proof. split; vm_compute; reflexivity. Qed.

Example number_of_strings :
  Num.of_string "" = Num.pos_zero /\
  Num.of_string "abc" = Num.nan /\
  Num.of_string " 12.5 " = Num.of_decimal false 125 (-1) /\
  Num.of_string "0x1F" = Num.of_Z 31 /\
  Num.of_string "-Infinity" = S754_infinity true /\
  Num.of_string "1e400" = S754_infinity false /\
  Num.of_string "1,5" = Num.nan.
Proof. repeat split; vm_compute; reflexivity. Qed.

Example unit_absorbed :
  Num.add (Num.of_Z 9007199254740992) (Num.of_Z 1)
  = Num.of_Z 9007199254740992.
Proof. vm_compute. reflexivity. Qed.

Example rounded_keeps_a_number :
  rounded (Num.of_string "99.99") = Num.of_string "99.99" /\
  Num.toFixed (Num.of_string "99.99") 18 = "99.989999999999994884".
Proof. split; vm_compute; reflexivity. Qed.

Example strings_of_values :
  to_str (VArray [VNumber (Num.of_Z 5); VNull; VString "a"]) = Normal "5,,a" /\
  to_str (VObject [("a", VNull)]) = Normal "[object Object]" /\
  to_str (VObject [("toString", VNumber (Num.of_Z 1))]) = Throw TypeError /\
  to_number (VArray []) = Normal Num.pos_zero /\
  to_number (VObject []) = Normal Num.nan.
Proof. repeat split; vm_compute; reflexivity. Qed.

(** Scenario 1 of the specification: 100.00 USD from one account to the
    other is committed. *)
Example balanced_entry_is_posted :
  let o := Sample.post Sample.calm Sample.books
             (Sample.entry
                [Sample.line Sample.cash "debit" (VString "100.00") "USD";
                 Sample.line Sample.sales "credit" (VString "100.00") "USD"]) in
  reply o = Some (created header [row 1 Sample.cash "debit" (100 * 10 ^ 18);
                                  row 2 Sample.sales "credit" (100 * 10 ^ 18)])
  /\ lines_of_entry (db_after o) Sample.new_entry
     = [row 1 Sample.cash "debit" (100 * 10 ^ 18);
        row 2 Sample.sales "credit" (100 * 10 ^ 18)].
Proof. cbv zeta. split; vm_compute; reflexivity. Qed.

(* ====================================================================== *)
(** ** Facts about the validation phase *)
(* ====================================================================== *)

Ltac break_in H :=
  match type of H with
  | context [match ?x with _ => _ end] => destruct x eqn:?
  | context [if ?x then _ else _] => destruct x eqn:?
  end.

(** The loop body is the state-free checks followed by the currency
    comparison against the loop variable. *)
Lemma validate_line_alone (st : loop_state) (line : value) :
  validate_line st line =
  match alone line with
  | Next nl =>
      if currency_unset (currency st)
      then Next (push st nl (Some (line_currency nl)))
      else if differs (currency st) (line_currency nl)
           then Return same_currency_error
           else Next (push st nl (currency st))
  | Return r => Return r
  | Raise e => Raise e
  end.
Proof.
  unfold alone, validate_line, push, same_currency_error.
  cbn [currency loop_start currency_unset normalizedLines app bind].
  destruct (negb (truthy (get (or_else line (VObject [])) "account_id"))
            || negb (truthy (get (or_else line (VObject [])) "direction"))
            || is_nullish (get (or_else line (VObject [])) "amount")
            || negb (truthy (get (or_else line (VObject [])) "currency")));
    [reflexivity|].
  destruct (to_str (get (or_else line (VObject [])) "direction"));
    cbn [coerce bind]; [|reflexivity].
  destruct (negb (toLowerCase a =? "debit")%string
            && negb (toLowerCase a =? "credit")%string); [reflexivity|].
  destruct (to_number (get (or_else line (VObject [])) "amount"));
    cbn [coerce bind]; [|reflexivity].
  destruct (negb (Num.isFinite a0) || Num.leb a0 Num.pos_zero);
    [reflexivity|].
  destruct (to_str (get (or_else line (VObject [])) "currency"));
    cbn [coerce bind]; [|reflexivity].
  cbn [line_currency line_direction line_amount normalizedLines].
  destruct (currency_unset (currency st)); cbn [bind]; [reflexivity|].
  destruct (differs (currency st) (toUpperCase a1)); reflexivity.
Qed.

(** Every early return of the state-free checks is one of the first three
    line errors. *)
Lemma alone_return (line : value) (r : response) :
  alone line = Return r -> In r (firstn 3 line_errors).
Proof.
  unfold alone, validate_line.
  cbn [currency loop_start currency_unset normalizedLines app bind].
  destruct (negb (truthy (get (or_else line (VObject [])) "account_id"))
            || negb (truthy (get (or_else line (VObject [])) "direction"))
            || is_nullish (get (or_else line (VObject [])) "amount")
            || negb (truthy (get (or_else line (VObject [])) "currency")));
    [intros [= <-]; cbn; auto|].
  destruct (to_str (get (or_else line (VObject [])) "direction"));
    cbn [coerce bind]; [|discriminate].
  destruct (negb (toLowerCase a =? "debit")%string
            && negb (toLowerCase a =? "credit")%string);
    [intros [= <-]; cbn; auto|].
  destruct (to_number (get (or_else line (VObject [])) "amount"));
    cbn [coerce bind]; [|discriminate].
  destruct (negb (Num.isFinite a0) || Num.leb a0 Num.pos_zero);
    [intros [= <-]; cbn; auto|].
  destruct (to_str (get (or_else line (VObject [])) "currency"));
    cbn [coerce bind normalizedLines]; discriminate.
Qed.

Lemma validate_line_return (st : loop_state) (line : value) (r : response) :
  validate_line st line = Return r -> In r line_errors.
Proof.
  rewrite validate_line_alone.
  destruct (alone line) eqn:Ha; try discriminate.
  - intros H. repeat break_in H; try discriminate H. injection H as <-.
    unfold line_errors. cbn. auto.
  - intros [= <-]. apply alone_return in Ha.
    unfold line_errors in *. cbn in *. intuition.
Qed.

Lemma validate_lines_return (items : list value) :
  forall (st : loop_state) (r : response),
    validate_lines items st = Return r -> In r line_errors.
Proof.
  induction items as [|line rest IH]; intros st r; cbn [validate_lines].
  - discriminate.
  - destruct (validate_line st line) eqn:Hl; cbn [bind].
    + apply IH.
    + intros [= <-]. eapply validate_line_return; eassumption.
    + discriminate.
Qed.

Lemma line_errors_400 (r : response) : In r line_errors -> status r = 400.
Proof.
  unfold line_errors. cbn. intuition; subst; reflexivity.
Qed.

(** Whatever the validation phase returns early is a 400. *)
Lemma validation_return_400 (lines : value) (r : response) :
  validation lines = Return r -> status r = 400.
Proof.
  unfold validation.
  destruct lines; try (intros [= <-]; reflexivity).
  destruct (List.length items <? 2)%nat; [intros [= <-]; reflexivity|].
  destruct (validate_lines items loop_start) eqn:Hv; cbn [bind].
  - unfold balance_check.
    destruct (negb _); cbn [bind]; [intros [= <-]; reflexivity|discriminate].
  - intros [= <-]. apply line_errors_400.
    eapply validate_lines_return; eassumption.
  - discriminate.
Qed.

Lemma alone_fields (line : value) (nl : normalized_line) :
  alone line = Next nl ->
  line_account_id nl = get (or_else line (VObject [])) "account_id" /\
  (line_direction nl = "debit" \/ line_direction nl = "credit") /\
  to_number (get (or_else line (VObject [])) "amount")
  = Normal (line_amount nl) /\
  Num.isFinite (line_amount nl) = true /\
  Num.leb (line_amount nl) Num.pos_zero = false /\
  truthy (get (or_else line (VObject [])) "account_id") = true.
Proof.
  unfold alone, validate_line.
  cbn [currency loop_start currency_unset normalizedLines app bind].
  destruct (negb (truthy (get (or_else line (VObject [])) "account_id")))
    eqn:Hacc; cbn [orb]; [discriminate|].
  destruct (negb (truthy (get (or_else line (VObject [])) "direction"))
            || is_nullish (get (or_else line (VObject [])) "amount")
            || negb (truthy (get (or_else line (VObject [])) "currency")));
    [discriminate|].
  destruct (to_str (get (or_else line (VObject [])) "direction"));
    cbn [coerce bind]; [|discriminate].
  destruct (toLowerCase a =? "debit")%string eqn:Hd;
    destruct (toLowerCase a =? "credit")%string eqn:Hc;
    cbn [negb andb]; try discriminate;
    (destruct (to_number (get (or_else line (VObject [])) "amount"));
     cbn [coerce bind]; [|discriminate];
     destruct (Num.isFinite a0) eqn:Hfin; cbn [negb orb]; [|discriminate];
     destruct (Num.leb a0 Num.pos_zero) eqn:Hle; [discriminate|];
     destruct (to_str (get (or_else line (VObject [])) "currency"));
     cbn [coerce bind normalizedLines]; [|discriminate];
     intros [= <-]; cbn;
     apply negb_false_iff in Hacc;
     rewrite ?String.eqb_eq in *; auto 10).
Qed.

(** When the loop runs to its end, every raw line passed its own checks,
    the normalized lines are those of the raw lines in order, and the two
    totals are the floating-point sums of the debit and of the other
    amounts. *)
Lemma validate_lines_next (items : list value) :
  forall st st',
    validate_lines items st = Next st' ->
    exists nls,
      Forall2 (fun l nl => alone l = Next nl) items nls /\
      normalizedLines st' = (normalizedLines st ++ nls)%list /\
      totalDebits st' = float_total "debit" nls (totalDebits st) /\
      totalCredits st' = float_total "credit" nls (totalCredits st).
Proof.
  induction items as [|line rest IH]; intros st st'; cbn [validate_lines].
  - intros [= <-]. exists []. rewrite app_nil_r.
    repeat split; constructor.
  - rewrite validate_line_alone.
    destruct (alone line) as [nl| |] eqn:Ha; try discriminate.
    assert (Hstep : forall c,
               validate_lines rest (push st nl c) = Next st' ->
               exists nls,
                 Forall2 (fun l nl => alone l = Next nl) (line :: rest) nls /\
                 normalizedLines st' = (normalizedLines st ++ nls)%list /\
                 totalDebits st' = float_total "debit" nls (totalDebits st) /\
                 totalCredits st'
                 = float_total "credit" nls (totalCredits st)).
    { intros c Hrest. destruct (IH _ _ Hrest) as (nls & Hall & Hn & Hd & Hc).
      exists (nl :: nls). cbn [push normalizedLines totalDebits totalCredits]
        in Hn, Hd, Hc.
      split; [constructor; assumption|].
      split; [rewrite Hn, <- app_assoc; reflexivity|].
      unfold float_total in *. cbn [filter].
      destruct (alone_fields _ _ Ha) as (_ & [Hdir|Hdir] & _);
        rewrite Hdir in *; cbn in *; auto. }
    destruct (currency_unset (currency st)); cbn [bind].
    + apply Hstep.
    + destruct (differs (currency st) (line_currency nl)); cbn [bind];
        [discriminate|apply Hstep].
Qed.



Lemma alone_accepts (line : value) (x : Num.number) (text : string) :
  reaches_amount_check line ->
  to_number (get (or_else line (VObject [])) "amount") = Normal x ->
  Num.isFinite x = true ->
  Num.ltb Num.pos_zero x = true ->
  to_str (get (or_else line (VObject [])) "currency") = Normal text ->
  exists nl, alone line = Next nl /\
             line_amount nl = x /\
             line_currency nl = toUpperCase text.
Proof.
  intros (Ha & Hd & Hn & Hc & dt & Ht & Hdir) Hx Hfin Hpos Hcur.
  unfold alone, validate_line.
  cbn [currency loop_start currency_unset normalizedLines app bind].
  rewrite Ha, Hd, Hn, Hc, Ht, Hx, Hcur. cbn [negb orb coerce bind].
  assert (Hok : negb (toLowerCase dt =? "debit")%string
                && negb (toLowerCase dt =? "credit")%string = false).
  { destruct Hdir as [-> | ->]; reflexivity. }
  rewrite Hok, Hfin. cbn [negb orb].
  assert (Hle : Num.leb x Num.pos_zero = false).
  { revert Hpos. unfold Num.ltb, Num.leb, SFltb, SFleb, Num.pos_zero.
    destruct x as [s|s| |s m e]; cbn; try destruct s; cbn;
      congruence. }
  rewrite Hle. cbn [normalizedLines]. eexists. split; [reflexivity|].
  split; reflexivity.
Qed.



Lemma currency_unset_some (c : string) :
  c <> "" -> currency_unset (Some c) = false.
Proof. intros H. cbn. apply String.eqb_neq. exact H. Qed.

(** Once the loop variable holds a non-empty currency, a later line in
    another currency ends the loop with the same-currency error, provided
    the lines in between pass their own checks. *)
Lemma validate_lines_second_currency (items : list value) :
  forall (st : loop_state) (c : string),
    currency st = Some c -> c <> "" ->
    (forall l, In l items -> exists nl, alone l = Next nl) ->
    (exists l nl, In l items /\ alone l = Next nl /\ line_currency nl <> c) ->
    validate_lines items st = Return same_currency_error.
Proof.
  induction items as [|line rest IH]; intros st c Hc Hne Hall Hex.
  - destruct Hex as (l & _ & [] & _).
  - cbn [validate_lines]. rewrite validate_line_alone.
    destruct (Hall line (or_introl eq_refl)) as [nl Hnl]. rewrite Hnl.
    rewrite Hc, (currency_unset_some c Hne). cbn [differs].
    destruct (String.eqb c (line_currency nl)) eqn:Heq; cbn [negb bind].
    + apply String.eqb_eq in Heq.
      apply (IH _ c); [reflexivity|assumption|intros; apply Hall; right;
                                                assumption|].
      destruct Hex as (l & nl' & [<-|Hin] & Hal & Hdiff).
      * rewrite Hnl in Hal. injection Hal as <-. congruence.
      * exists l, nl'. auto.
    + reflexivity.
Qed.

(* ====================================================================== *)
(** ** Facts about the store and the transaction block *)
(* ====================================================================== *)

(** What a statement that succeeded returned, whatever the session was. *)
Lemma serve_rows (encode_text : value -> string)
    (uuid_in : value -> option uuid) (refused : bool) (new_id : uuid)
    (now : Z) (stmt : statement) (d d' : db) (s s' : session) (r : rows) :
  serve encode_text uuid_in refused new_id now stmt d s = (Some r, d', s') ->
  match stmt with
  | BEGIN | COMMIT | ROLLBACK => r = NoRows
  | INSERT_INTO_accounts _ _ _ _ _ _ _ => exists row, r = AccountRows row
  | INSERT_INTO_ledger_entries _ _ _ _ =>
      exists e, r = EntryRows e /\ entry_id e = new_id
  | INSERT_INTO_ledger_lines e a di am cu m =>
      exists row, r = LineRows row /\
                  row_entry_id row = e /\
                  (row_direction row = "debit"
                   \/ row_direction row = "credit") /\
                  0 <= row_amount row
  end.
Proof.
  unfold serve.
  destruct stmt.
  - destruct refused; [discriminate|]. intros [= <- _ _]. reflexivity.
  - destruct refused, (tx s); try destruct (tx_failed s); try discriminate;
      intros [= <- _ _]; reflexivity.
  - intros [= <- _ _]. reflexivity.
  - destruct (tx_failed s); [discriminate|].
    destruct refused; try (unfold fail_statement; discriminate).
    unfold run_insert, with_rows.
    destruct (insert_account _ _ _ _ _ _ _ _ _ _ _) as [[row t]|].
    + destruct (write _ _ _ _). intros [= <- _ _]. eauto.
    + unfold fail_statement. discriminate.
  - destruct (tx_failed s); [discriminate|].
    destruct refused; try (unfold fail_statement; discriminate).
    unfold run_insert, with_rows, insert_entry.
    destruct (has_entry _ _).
    + unfold fail_statement. discriminate.
    + destruct (write _ _ _ _). intros [= <- _ _]. eexists. split; reflexivity.
  - destruct (tx_failed s); [discriminate|].
    destruct refused; try (unfold fail_statement; discriminate).
    unfold run_insert, with_rows, insert_line.
    destruct (uuid_in account_id) as [acct|];
      [|unfold fail_statement; discriminate].
    destruct (numeric_36_18 amount) as [units|];
      [|unfold fail_statement; discriminate].
    destruct (has_entry _ _); cbn [andb];
      [|unfold fail_statement; discriminate].
    destruct (has_account _ _); cbn [andb];
      [|unfold fail_statement; discriminate].
    destruct (String.eqb direction "debit") eqn:Hd;
      destruct (String.eqb direction "credit") eqn:Hc; cbn [orb andb];
      try (unfold fail_statement; discriminate);
      (destruct (0 <=? units) eqn:Hu;
       [|unfold fail_statement; discriminate];
       destruct (write _ _ _ _); intros [= <- _ _];
       eexists; split; [reflexivity|]; cbn;
       apply Z.leb_le in Hu; rewrite ?String.eqb_eq in *; auto).
Qed.

Lemma exec_rows (encode_text : value -> string)
    (uuid_in : value -> option uuid) (v : verdict) (new_id : uuid) (now : Z)
    (stmt : statement) (d d' : db) (s s' : session) (r : rows) :
  exec encode_text uuid_in v new_id now stmt d s = (Some r, d', s') ->
  match stmt with
  | BEGIN | COMMIT | ROLLBACK => r = NoRows
  | INSERT_INTO_accounts _ _ _ _ _ _ _ => exists row, r = AccountRows row
  | INSERT_INTO_ledger_entries _ _ _ _ =>
      exists e, r = EntryRows e /\ entry_id e = new_id
  | INSERT_INTO_ledger_lines e a di am cu m =>
      exists row, r = LineRows row /\
                  row_entry_id row = e /\
                  (row_direction row = "debit"
                   \/ row_direction row = "credit") /\
                  0 <= row_amount row
  end.
Proof.
  unfold exec.
  destruct (negb (connected s)); [discriminate|].
  destruct v; try discriminate; apply serve_rows.
Qed.

Section StoreFacts.

Variable encode_text : value -> string.
Variable uuid_in : value -> option uuid.
Variable env : environment.

Local Notation query := (Financials.query encode_text uuid_in env).
Local Notation insert_lines :=
  (Financials.insert_lines encode_text uuid_in env).
Local Notation transaction :=
  (Financials.transaction encode_text uuid_in env).
Local Notation storage := (Financials.storage encode_text uuid_in env).
Local Notation post_ledger_entries :=
  (Financials.post_ledger_entries encode_text uuid_in env).

Lemma query_log (stmt : statement) (c : conn) :
  log (snd (query stmt c)) =
  (log c ++ [Query stmt (succeeded (fst (query stmt c)))])%list.
Proof.
  unfold Financials.query.
  destruct (exec _ _ _ _ _ _ _ _) as [[r d] s]. reflexivity.
Qed.

Lemma query_begin (d : db) (lg : list event) :
  let c0 := {| database := d; client := fresh_session; sent := O;
               log := lg |} in
  committed (database (snd (query BEGIN c0))) = committed d /\
  (succeeded (fst (query BEGIN c0)) = true ->
   in_flight d (snd (query BEGIN c0)) (committed d)).
Proof.
  unfold Financials.query, exec, in_flight. cbn.
  destruct (verdict_of env 0) as [| |[|]]; cbn; split; try reflexivity;
    try discriminate.
  intros _. repeat split.
Qed.

Lemma query_rollback (c : conn) :
  database (snd (query ROLLBACK c)) = database c /\
  tx (client (snd (query ROLLBACK c))) = None.
Proof.
  unfold Financials.query, exec.
  destruct (negb (connected (client c))); [cbn; split; reflexivity|].
  destruct (verdict_of env (sent c)) as [| |[|]]; cbn; split; reflexivity.
Qed.

(** [COMMIT] either publishes the transaction's copy or leaves the
    store as it was; it publishes it without telling the client when its
    acknowledgement is lost. *)
Lemma query_commit (d0 : db) (c : conn) (t : tables) :
  in_flight d0 c t ->
  match fst (query COMMIT c) with
  | Some _ => committed (database (snd (query COMMIT c))) = t
  | None =>
      if unacknowledged (verdict_of env (sent c))
      then committed (database (snd (query COMMIT c))) = t /\
           connected (client (snd (query COMMIT c))) = false
      else database (snd (query COMMIT c)) = database c
  end /\
  tx (client (snd (query COMMIT c))) = None.
Proof.
  intros (Hc & Hconn & Hfail & Ht & Hacc).
  unfold Financials.query, exec, serve.
  rewrite Hconn, Hfail, Ht. cbn [negb orb].
  destruct (verdict_of env (sent c)) as [| |[|]]; cbn; repeat split.
Qed.

Lemma query_sent (stmt : statement) (c : conn) :
  sent (snd (query stmt c)) = S (sent c).
Proof.
  unfold Financials.query.
  destruct (exec _ _ _ _ _ _ _ _) as [[r d] s]. reflexivity.
Qed.

Lemma has_account_accounts (t t' : tables) (id : uuid) :
  accounts t = accounts t' -> has_account t id = has_account t' id.
Proof. unfold has_account. intros ->. reflexivity. Qed.

(** An [INSERT] of a header inside the transaction. *)
Lemma query_insert_entry (d0 : db) (c : conn) (t : tables)
    (de rt ri m : value) :
  in_flight d0 c t ->
  let out := query (INSERT_INTO_ledger_entries de rt ri m) c in
  committed (database (snd out)) = committed d0 /\
  match fst out with
  | Some r =>
      exists e, r = EntryRows e /\ entry_id e = gen_random_uuid env /\
                has_entry t (entry_id e) = false /\
                in_flight d0 (snd out) (add_entry t e)
  | None => True
  end.
Proof.
  intros (Hc & Hconn & Hfail & Ht & Hacc).
  unfold Financials.query, exec, in_flight.
  rewrite Hconn. cbn [negb].
  destruct (verdict_of env (sent c)) as [| |[|]]; unfold serve;
    rewrite ?Hfail; cbn.
  - unfold run_insert, with_rows, insert_entry, view, write.
    rewrite Ht.
    destruct (has_entry t (gen_random_uuid env)) eqn:Hnew; cbn.
    + auto.
    + split; [assumption|]. eexists. split; [reflexivity|]. cbn.
      repeat split; auto.
  - unfold fail_statement. cbn. auto.
  - cbn [fst snd]. unfold run_insert, with_rows, insert_entry, view, write.
    rewrite Ht.
    destruct (has_entry t (gen_random_uuid env)); cbn; auto.
  - auto.
Qed.

(** An [INSERT] of one line inside the transaction: when it succeeds the
    account resolved to a row of [accounts] and the stored amount is the
    [NUMERIC(36,18)] reading of the number that was sent. *)
Lemma query_insert_line (d0 : db) (c : conn) (t : tables) (e : uuid)
    (a : value) (di : string) (am : Num.number) (cu : string) (m : value) :
  in_flight d0 c t ->
  let out := query (INSERT_INTO_ledger_lines e a di am cu m) c in
  committed (database (snd out)) = committed d0 /\
  match fst out with
  | Some r =>
      exists row acct,
        r = LineRows row /\
        in_flight d0 (snd out) (add_lines t [row]) /\
        uuid_in a = Some acct /\
        has_account (committed d0) acct = true /\
        numeric_36_18 am = Some (row_amount row) /\
        row_entry_id row = e /\ row_account_id row = acct /\
        row_direction row = di /\ row_currency row = cu
  | None => True
  end.
Proof.
  intros (Hc & Hconn & Hfail & Ht & Hacc).
  unfold Financials.query, exec, in_flight.
  rewrite Hconn. cbn [negb].
  destruct (verdict_of env (sent c)) as [| |[|]]; unfold serve;
    rewrite ?Hfail; cbn.
  4: auto.
  3: { cbn [fst snd].
       unfold run_insert, with_rows, insert_line, view, write,
         fail_statement.
       rewrite Ht.
       destruct (uuid_in a) as [acct|]; [|cbn; rewrite ?Ht; cbn; auto].
       destruct (numeric_36_18 am) as [units|];
         [|cbn; rewrite ?Ht; cbn; auto].
       destruct (has_entry t e && has_account t acct
                 && ((di =? "debit")%string || (di =? "credit")%string)
                 && (0 <=? units)); cbn; rewrite ?Ht; cbn; auto. }
  - unfold run_insert, with_rows, insert_line, view, write, fail_statement.
    rewrite Ht.
    destruct (uuid_in a) as [acct|]; [|cbn; rewrite ?Ht; cbn; auto].
    destruct (numeric_36_18 am) as [units|];
      [|cbn; rewrite ?Ht; cbn; auto].
    destruct (has_entry t e); cbn [andb]; [|cbn; rewrite ?Ht; cbn; auto].
    destruct (has_account t acct) eqn:Hhas; cbn [andb];
      [|cbn; rewrite ?Ht; cbn; auto].
    destruct ((di =? "debit")%string || (di =? "credit")%string);
      cbn [andb]; [|cbn; rewrite ?Ht; cbn; auto].
    destruct (0 <=? units); [|cbn; rewrite ?Ht; cbn; auto].
    cbn. split; [assumption|]. do 2 eexists.
    split; [reflexivity|]. cbn. repeat split; auto.
    rewrite <- (has_account_accounts t _ acct Hacc). assumption.
  - unfold fail_statement. cbn. auto.
Qed.

Lemma query_line_row_ok (c : conn) (e : uuid) (a : value) (di : string)
    (am : Num.number) (cu : string) (m : value) (row : line_row) :
  fst (query (INSERT_INTO_ledger_lines e a di am cu m) c)
  = Some (LineRows row) ->
  row_ok e row.
Proof.
  unfold Financials.query.
  destruct (exec _ _ _ _ _ _ _ _) as [[r d] s] eqn:He. cbn [fst].
  intros ->. apply exec_rows in He.
  destruct He as (row' & [= <-] & H). exact H.
Qed.

Lemma add_lines_app (t : tables) (r1 r2 : list line_row) :
  add_lines (add_lines t r1) r2 = add_lines t (r1 ++ r2).
Proof. unfold add_lines. cbn. rewrite app_assoc. reflexivity. Qed.

Lemma add_lines_nil (t : tables) : add_lines t [] = t.
Proof. destruct t. unfold add_lines. cbn. rewrite app_nil_r. reflexivity. Qed.

Lemma insert_lines_spec (d0 : db) (entry : entry_row) :
  forall (ls : list normalized_line) (acc : list line_row) (c c' : conn)
         (t : tables) (r : option (list line_row)),
    in_flight d0 c t ->
    insert_lines entry ls acc c = (r, c') ->
    committed (database c') = committed d0 /\
    match r with
    | Some rows =>
        Forall (fun nl => resolves uuid_in d0 (line_account_id nl) = true) ls /\
        exists new, rows = (acc ++ new)%list /\
                    Forall2 (line_stored uuid_in) ls new /\
                    Forall (row_ok (entry_id entry)) new /\
                    in_flight d0 c' (add_lines t new)
    | None => True
    end.
Proof.
  induction ls as [|nl rest IH]; intros acc c c' t r Hin Hrun;
    cbn [Financials.insert_lines] in Hrun.
  - injection Hrun as <- <-.
    split; [apply Hin|]. split; [constructor|].
    exists []. rewrite app_nil_r, add_lines_nil.
    repeat split; try constructor; apply Hin.
  - unfold and_then in Hrun.
    pose proof (query_insert_line d0 c t (entry_id entry)
                  (line_account_id nl) (line_direction nl) (line_amount nl)
                  (line_currency nl) (line_metadata nl) Hin) as H.
    cbv zeta in H.
    pose proof (query_line_row_ok c (entry_id entry)
                  (line_account_id nl) (line_direction nl) (line_amount nl)
                  (line_currency nl) (line_metadata nl)) as Hok.
    destruct (query _ c) as [r1 c1]. cbn [fst snd] in H, Hok.
    destruct H as [Hc H].
    destruct r1 as [r1|]; [|injection Hrun as <- <-; auto].
    destruct H as (row & acct & -> & Hin1 & Hu & Hacc & Hnum & He & Hid
                   & Hdir & Hccy).
    specialize (Hok row eq_refl).
    cbn [first_line ret] in Hrun.
    destruct (IH _ _ _ _ _ Hin1 Hrun) as [Hc' Hr]. split; [assumption|].
    destruct r as [rows|]; [|exact I].
    destruct Hr as (Hres & new & -> & Hall & Hent & Hin2).
    split.
    + constructor; [|assumption]. unfold resolves. rewrite Hu. assumption.
    + exists (row :: new). rewrite <- app_assoc. split; [reflexivity|].
      split; [|split].
      * constructor; [|assumption]. unfold line_stored. subst acct. auto.
      * constructor; assumption.
      * rewrite add_lines_app in Hin2. exact Hin2.
Qed.

Lemma insert_lines_sent (entry : entry_row) :
  forall (ls : list normalized_line) (acc : list line_row) (c c' : conn)
         (rows : list line_row),
    insert_lines entry ls acc c = (Some rows, c') ->
    sent c' = (sent c + List.length ls)%nat.
Proof.
  induction ls as [|nl rest IH]; intros acc c c' rows Hrun;
    cbn [Financials.insert_lines] in Hrun.
  - injection Hrun as _ <-. cbn. lia.
  - unfold and_then in Hrun.
    pose proof (query_sent (INSERT_INTO_ledger_lines
                              (entry_id entry) (line_account_id nl)
                              (line_direction nl) (line_amount nl)
                              (line_currency nl) (line_metadata nl)) c) as Hs.
    destruct (query _ c) as [[r1|] c1]; [|discriminate]. cbn [snd] in Hs.
    destruct (first_line r1 c1) as [[row|] c2] eqn:Hf; [|discriminate].
    assert (c2 = c1) as ->.
    { destruct r1; cbn [first_line] in Hf; unfold ret, reject in Hf;
        congruence. }
    apply IH in Hrun. rewrite Hrun, Hs. cbn [List.length]. lia.
Qed.

(** The [try] block as a whole: either it ran to the end of [COMMIT], and
    readers now see the tables of [d] with the header and one row per
    line added, each line stored against an existing account; or a promise
    was rejected, and readers see the tables exactly as before, unless the
    rejected promise is that of a [COMMIT] the server had applied. *)
Lemma transaction_spec (d : db) (lg : list event)
    (de rt ri m : value) (ls : list normalized_line)
    (r : option (entry_row * list line_row)) (c' : conn) :
  transaction de rt ri m ls
    {| database := d; client := fresh_session; sent := O; log := lg |}
  = (r, c') ->
  match r with
  | Some (entry, rows) =>
      posted uuid_in env d ls entry rows (committed (database c'))
  | None =>
      committed (database c') = committed d \/
      exists entry rows pre,
        verdict_of env (2 + List.length ls) = Lost true /\
        connected (client c') = false /\
        log c' = (pre ++ [Query COMMIT false])%list /\
        posted uuid_in env d ls entry rows (committed (database c'))
  end.
Proof.
  unfold Financials.transaction, and_then, posted. intros Hrun.
  pose proof (query_begin d lg) as Hb. cbv zeta in Hb.
  pose proof (query_sent BEGIN
                {| database := d; client := fresh_session; sent := O;
                   log := lg |}) as Hs1.
  destruct (query BEGIN _) as [r0 c1]. cbn [fst snd sent] in Hb, Hs1.
  destruct Hb as [Hc1 Hin1].
  destruct r0 as [r0|]; [|injection Hrun as <- <-; left; exact Hc1].
  specialize (Hin1 eq_refl).
  pose proof (query_insert_entry d c1 _ (or_else de VNull) (or_else rt VNull)
                (or_else ri VNull) (or_else m (VObject [])) Hin1) as He.
  cbv zeta in He.
  pose proof (query_sent (INSERT_INTO_ledger_entries
                            (or_else de VNull) (or_else rt VNull)
                            (or_else ri VNull) (or_else m (VObject [])))
                c1) as Hs2.
  destruct (query (INSERT_INTO_ledger_entries _ _ _ _) c1) as [r1 c2].
  cbn [fst snd] in He, Hs2. destruct He as [Hc2 He].
  destruct r1 as [r1|]; [|injection Hrun as <- <-; left; exact Hc2].
  destruct He as (e & -> & Hid & Hnew & Hin2).
  cbn [first_entry ret] in Hrun.
  destruct (insert_lines e ls [] c2) as [r2 c3] eqn:Hl.
  destruct (insert_lines_spec d e ls [] c2 c3 _ r2 Hin2 Hl) as [Hc3 Hr].
  destruct r2 as [rows|]; [|injection Hrun as <- <-; left; exact Hc3].
  apply insert_lines_sent in Hl.
  destruct Hr as (Hres & new & -> & Hall & Hent & Hin3). cbn [app] in *.
  pose proof (query_commit d c3 _ Hin3) as [Hk _].
  pose proof (query_log COMMIT c3) as Hlog.
  destruct (query COMMIT c3) as [r3 c4]. cbn [fst snd] in *.
  destruct r3 as [r3|]; injection Hrun as <- <-.
  - auto 10.
  - replace (sent c3) with (S (S (List.length ls))) in Hk by lia.
    destruct (verdict_of env (S (S (List.length ls)))) as [| |[|]] eqn:Hv;
      cbn [unacknowledged] in Hk.
    + left. rewrite Hk. exact Hc3.
    + left. rewrite Hk. exact Hc3.
    + right. destruct Hk as [Hk Hgone]. exists e, new, (log c3).
      cbn [succeeded] in Hlog. auto 12.
    + left. rewrite Hk. exact Hc3.
Qed.

Lemma query_rollback_dropped (c : conn) :
  connected (client c) = false ->
  query ROLLBACK c
  = (None, {| database := database c; client := dropped;
              sent := S (sent c);
              log := log c ++ [Query ROLLBACK false] |}).
Proof.
  intros H. unfold Financials.query, exec. rewrite H. reflexivity.
Qed.

Lemma storage_cases (d : db) (de rt ri m : value)
    (ls : list normalized_line) :
  storage_end uuid_in env d ls (storage d de rt ri m ls).
Proof.
  unfold Financials.storage.
  destruct (connect_ok env) eqn:Hconn; cbn [negb].
  2: { apply NoClient; [assumption|reflexivity]. }
  destruct (transaction de rt ri m ls _) as [r c] eqn:Hrun.
  pose proof (transaction_spec _ _ _ _ _ _ _ _ _ Hrun) as Hspec.
  destruct r as [[entry rows]|].
  - destruct Hspec as (Hid & Hnew & Hres & Hall & Hrows & Hdb).
    assert (Hent : Forall (fun row => row_entry_id row = entry_id entry)
                          rows).
    { eapply Forall_impl; [|exact Hrows]. intros row H. apply H. }
    (* the block ended with COMMIT, which closed the transaction *)
    assert (Hclosed : tx (client c) = None).
    { revert Hrun. unfold Financials.transaction, and_then.
      destruct (query BEGIN _) as [[r0|] c1]; [|discriminate].
      destruct (query (INSERT_INTO_ledger_entries _ _ _ _) c1)
        as [[r1|] c2]; [|discriminate].
      destruct (first_entry r1 c2) as [[e|] c2']; [|discriminate].
      destruct (insert_lines e ls [] c2') as [[rows'|] c3]; [|discriminate].
      assert (Hc : tx (client (snd (query COMMIT c3))) = None).
      { unfold Financials.query, exec.
        destruct (negb (connected (client c3))); [reflexivity|].
        destruct (verdict_of env (sent c3)) as [| |[|]]; unfold serve;
          destruct (tx (client c3));
          try destruct (tx_failed (client c3)); reflexivity. }
      destruct (query COMMIT c3) as [[r3|] c4]; [|discriminate].
      unfold ret. intros [= _ _ <-]. exact Hc. }
    eapply (Committed uuid_in env d ls _ entry rows (log c) (client c)); cbn;
      try reflexivity; assumption.
  - destruct Hspec as [Hspec|(entry & rows & pre & Hv & Hgone & Hlg & Hp)].
    + pose proof (query_rollback c) as [Hdb Htx].
      pose proof (query_log ROLLBACK c) as Hlog.
      destruct (query ROLLBACK c) as [ok c'] eqn:Hrb. cbn [fst snd] in *.
      eapply (Aborted uuid_in env d ls _ (log c) (succeeded ok) (client c'));
        cbn; try reflexivity; try assumption.
      * rewrite Hlog, <- app_assoc. reflexivity.
      * rewrite Hdb. exact Hspec.
    + rewrite (query_rollback_dropped c Hgone).
      eapply (Unacknowledged uuid_in env d ls _ entry rows pre dropped);
        cbn; try reflexivity; try assumption.
      rewrite Hlg, <- !app_assoc. reflexivity.
Qed.

End StoreFacts.

Lemma find_entry_added (t : tables) (e : entry_row) :
  has_entry t (entry_id e) = false ->
  find (fun x => String.eqb (entry_id x) (entry_id e))
       (ledger_entries t ++ [e]) = Some e.
Proof.
  unfold has_entry. induction (ledger_entries t) as [|x l IH]; cbn.
  - intros _. rewrite String.eqb_refl. reflexivity.
  - destruct (String.eqb (entry_id x) (entry_id e)); cbn;
      [discriminate|exact IH].
Qed.

Lemma schema_ok_books : schema_ok (committed Sample.books).
Proof.
  unfold schema_ok. cbn. repeat split; try constructor;
    try (cbn; intros [H|[]]; discriminate H);
    try (intros []); repeat constructor; intros [].
Qed.

Lemma or_else_truthy (a b : value) : truthy a = true -> or_else a b = a.
Proof. unfold or_else. intros ->. reflexivity. Qed.

Lemma truthy_not_nullish (a : value) : truthy a = true -> is_nullish a = false.
Proof. destruct a; try reflexivity; discriminate. Qed.

(** The [INSERT] into [accounts], sent outside a transaction with a code
    that is taken, is rejected and leaves the store as it was. *)
Lemma insert_account_duplicate
    (encode_text : value -> string) (uuid_in : value -> option uuid)
    (v : verdict) (new_id : uuid) (now : Z) (d : db)
    (n c de cu og ou m : value) :
  truthy c = true ->
  has_code (committed d) (encode_text c) = true ->
  exists s,
    exec encode_text uuid_in v new_id now
         (INSERT_INTO_accounts n c de cu og ou m) d fresh_session
    = (None, d, s).
Proof.
  intros Hc Hdup.
  assert (Hs : serve encode_text uuid_in false new_id now
                 (INSERT_INTO_accounts n c de cu og ou m) d fresh_session
               = (None, d, fresh_session)).
  { unfold serve, fresh_session. cbn [tx_failed].
    unfold run_insert, with_rows, insert_account, view, text_or_null.
    cbn [tx]. rewrite (truthy_not_nullish c Hc), Hdup. cbn [negb].
    rewrite !orb_true_r. unfold fail_statement. cbn. destruct d.
    reflexivity. }
  unfold exec. cbn [fresh_session connected negb].
  destruct v as [| |[|]].
  - eexists. exact Hs.
  - unfold serve, fail_statement. cbn. eexists. reflexivity.
  - fold fresh_session. rewrite Hs. eexists. reflexivity.
  - eexists. reflexivity.
Qed.

(** What a posted request stored, in terms of the request. *)
Lemma posted_lines (encode_text : value -> string)
    (uuid_in : value -> option uuid) (env : environment) (d : db)
    (req_body : value) (entry : entry_row) (rows : list line_row) :
  reply (post_ledger_entries encode_text uuid_in env d req_body)
  = Some (created entry rows) ->
  exists items nls,
    lines_of req_body = VArray items /\
    validation (VArray items) = Next nls /\
    Forall2 (fun l nl => alone l = Next nl) items nls /\
    Forall2 (line_stored uuid_in) nls rows /\
    committed (db_after (post_ledger_entries encode_text uuid_in env d
                           req_body))
    = add_lines (add_entry (committed d) entry) rows.
Proof.
  unfold post_ledger_entries. fold (lines_of req_body).
  destruct (validation (lines_of req_body)) as [ls|r'|e] eqn:Hv;
    cbn [reply db_after]; [| |discriminate].
  - intros Hr.
    destruct (storage_cases encode_text uuid_in env d
                (get (or_else req_body (VObject [])) "description")
                (get (or_else req_body (VObject [])) "reference_type")
                (get (or_else req_body (VObject [])) "reference_id")
                (get (or_else req_body (VObject [])) "metadata") ls)
      as [_ Ho|entry' rows' pre s _ Ho _ _ _ _ Hall _ Hdb _ _|? ? ? _ Ho
          |? ? ? ? _ _ Ho].
    + rewrite Ho in Hr. discriminate Hr.
    + rewrite Ho in Hr. injection Hr as <- <-.
      revert Hv. unfold validation.
      destruct (lines_of req_body) as [| | | | |items|]; try discriminate.
      intros Hv. exists items, ls. split; [reflexivity|].
      split; [exact Hv|]. split; [|split; assumption].
      revert Hv.
      destruct (List.length items <? 2)%nat; [discriminate|].
      destruct (validate_lines items loop_start) as [st| |] eqn:Hloop;
        cbn [bind]; try discriminate.
      destruct (balance_check st); cbn [bind]; try discriminate.
      intros [= <-].
      destruct (validate_lines_next _ _ _ Hloop) as (nls & Hal & Hn & _).
      cbn [loop_start normalizedLines app] in Hn. rewrite Hn. exact Hal.
    + rewrite Ho in Hr. discriminate Hr.
    + rewrite Ho in Hr. discriminate Hr.
  - intros [= ->]. apply validation_return_400 in Hv. discriminate Hv.
Qed.

(** What the balance check does establish for a posted request: the two
    floating-point totals, printed with 18 decimals and read back, are
    equal numbers. *)
Lemma posted_entries_have_equal_float_totals
    (encode_text : value -> string) (uuid_in : value -> option uuid)
    (env : environment) (d : db) (req_body : value)
    (entry : entry_row) (rows : list line_row) :
  reply (post_ledger_entries encode_text uuid_in env d req_body)
  = Some (created entry rows) ->
  exists items nls,
    lines_of req_body = VArray items /\
    Forall2 (fun l nl => alone l = Next nl) items nls /\
    Num.eqb (rounded (float_total "debit" nls Num.pos_zero))
            (rounded (float_total "credit" nls Num.pos_zero)) = true.
Proof.
  intros Hr.
  destruct (posted_lines _ _ _ _ _ _ _ Hr) as (items & nls & Hl & Hv & _).
  exists items, nls. split; [exact Hl|].
  revert Hv. unfold validation.
  destruct (List.length items <? 2)%nat; [discriminate|].
  destruct (validate_lines items loop_start) as [st| |] eqn:Hloop;
    cbn [bind]; try discriminate.
  destruct (validate_lines_next _ _ _ Hloop) as (nls' & Hal & Hn & Hd & Hc).
  cbn [loop_start normalizedLines totalDebits totalCredits app] in Hn, Hd, Hc.
  unfold balance_check. rewrite Hd, Hc.
  destruct (Num.eqb _ _) eqn:Heq; cbn [negb bind]; [|discriminate].
  intros [= <-]. rewrite Hn. auto.
Qed.

Section Protocol.

Variable encode_text : value -> string.
Variable uuid_in : value -> option uuid.
Variable env : environment.

Local Notation query := (Financials.query encode_text uuid_in env).
Local Notation insert_lines :=
  (Financials.insert_lines encode_text uuid_in env).
Local Notation transaction :=
  (Financials.transaction encode_text uuid_in env).

Lemma query_event (stmt : statement) (c c' : conn) (r : option rows) :
  query stmt c = (r, c') ->
  log c' = (log c ++ [Query stmt (succeeded r)])%list.
Proof.
  intros H. pose proof (query_log encode_text uuid_in env stmt c) as Hl.
  rewrite H in Hl. exact Hl.
Qed.

Lemma query_rows (stmt : statement) (c c' : conn) (r : rows) :
  query stmt c = (Some r, c') ->
  match stmt with
  | BEGIN | COMMIT | ROLLBACK => r = NoRows
  | INSERT_INTO_accounts _ _ _ _ _ _ _ => exists row, r = AccountRows row
  | INSERT_INTO_ledger_entries _ _ _ _ =>
      exists e, r = EntryRows e /\ entry_id e = gen_random_uuid env
  | INSERT_INTO_ledger_lines e a di am cu m =>
      exists row, r = LineRows row /\ row_ok e row
  end.
Proof.
  unfold Financials.query.
  destruct (exec _ _ _ _ _ _ _ _) as [[r0 d] s] eqn:He.
  intros [= -> _]. apply exec_rows in He.
  destruct stmt; auto.
Qed.

(** The line loop sends one [INSERT] per line, in order, and stops at the
    first one that fails. *)
Lemma insert_lines_trace (entry : entry_row) :
  forall (ls : list normalized_line) (acc : list line_row) (c c' : conn)
         (r : option (list line_row)),
    insert_lines entry ls acc c = (r, c') ->
    match r with
    | Some rows =>
        log c' = (log c ++ map (fun nl => sent_ok (line_statement
                                                     (entry_id entry) nl))
                               ls)%list /\
        exists new, rows = (acc ++ new)%list /\
                    List.length new = List.length ls /\
                    Forall (row_ok (entry_id entry)) new
    | None =>
        exists pre nl post,
          ls = (pre ++ nl :: post)%list /\
          log c' = (log c
                    ++ map (fun nl => sent_ok (line_statement
                                                 (entry_id entry) nl)) pre
                    ++ [Query (line_statement (entry_id entry) nl) false])%list
    end.
Proof.
  induction ls as [|nl rest IH]; intros acc c c' r Hrun;
    cbn [Financials.insert_lines] in Hrun.
  - injection Hrun as <- <-. cbn. rewrite app_nil_r. split; [reflexivity|].
    exists []. rewrite app_nil_r. repeat split. constructor.
  - unfold and_then in Hrun.
    destruct (query _ c) as [r1 c1] eqn:Hq.
    pose proof (query_event _ _ _ _ Hq) as Hlog.
    destruct r1 as [r1|].
    + apply query_rows in Hq. destruct Hq as (row & -> & Hrow).
      cbn [first_line ret] in Hrun. apply IH in Hrun.
      destruct r as [rows|].
      * destruct Hrun as (Hl & new & -> & Hlen & Hall).
        split.
        -- rewrite Hl, Hlog. cbn [map succeeded]. rewrite <- app_assoc.
           reflexivity.
        -- exists (row :: new). rewrite <- app_assoc. cbn.
           repeat split; auto.
      * destruct Hrun as (pre & bad & post & -> & Hl).
        exists (nl :: pre), bad, post. split; [reflexivity|].
        rewrite Hl, Hlog. cbn [map succeeded app]. rewrite <- !app_assoc.
        reflexivity.
    + injection Hrun as <- <-. exists [], nl, rest.
      split; [reflexivity|]. rewrite Hlog. reflexivity.
Qed.

(** The transaction block sends the statements of the script in order and
    stops at the first one that fails. *)
Lemma transaction_trace (de rt ri m : value) (ls : list normalized_line)
    (c c' : conn) (r : option (entry_row * list line_row)) :
  transaction de rt ri m ls c = (r, c') ->
  let header := INSERT_INTO_ledger_entries
                  (or_else de VNull) (or_else rt VNull) (or_else ri VNull)
                  (or_else m (VObject [])) in
  let sc := (BEGIN :: header
             :: map (line_statement (gen_random_uuid env)) ls
             ++ [COMMIT])%list in
  match r with
  | Some (entry, rows) =>
      entry_id entry = gen_random_uuid env /\
      log c' = (log c ++ map sent_ok sc)%list /\
      List.length rows = List.length ls /\
      Forall (row_ok (entry_id entry)) rows
  | None =>
      exists done failed rest,
        sc = (done ++ failed :: rest)%list /\
        log c' = (log c ++ map sent_ok done ++ [Query failed false])%list
  end.
Proof.
  cbv zeta. unfold Financials.transaction, and_then. intros Hrun.
  destruct (query BEGIN c) as [r0 c1] eqn:Hb.
  pose proof (query_event _ _ _ _ Hb) as Hlb.
  destruct r0 as [r0|].
  2: { injection Hrun as <- <-. exists [], BEGIN. eexists.
       split; [reflexivity|]. rewrite Hlb. reflexivity. }
  destruct (query (INSERT_INTO_ledger_entries _ _ _ _) c1) as [r1 c2] eqn:He.
  pose proof (query_event _ _ _ _ He) as Hle.
  destruct r1 as [r1|].
  2: { injection Hrun as <- <-. exists [BEGIN]. do 2 eexists.
       split; [reflexivity|]. rewrite Hle, Hlb. cbn.
       rewrite <- app_assoc. reflexivity. }
  apply query_rows in He. destruct He as (e & -> & Hid).
  cbn [first_entry ret] in Hrun.
  destruct (insert_lines e ls [] c2) as [r2 c3] eqn:Hl.
  apply insert_lines_trace in Hl. rewrite Hid in Hl.
  destruct r2 as [rows|].
  2: { injection Hrun as <- <-.
       destruct Hl as (pre & bad & post & -> & Hlog).
       exists (BEGIN :: INSERT_INTO_ledger_entries
                 (or_else de VNull) (or_else rt VNull) (or_else ri VNull)
                 (or_else m (VObject []))
               :: map (line_statement (gen_random_uuid env)) pre),
         (line_statement (gen_random_uuid env) bad).
       eexists. split.
       - rewrite map_app. cbn [map app]. rewrite <- app_assoc. reflexivity.
       - rewrite Hlog, Hle, Hlb. cbn [map app succeeded sent_ok].
         rewrite map_map. rewrite <- !app_assoc. reflexivity. }
  destruct Hl as (Hlog & new & -> & Hlen & Hall). cbn [app] in *.
  destruct (query COMMIT c3) as [r3 c4] eqn:Hk.
  pose proof (query_event _ _ _ _ Hk) as Hlk.
  destruct r3 as [r3|]; injection Hrun as <- <-.
  - split; [exact Hid|]. split; [|split; [exact Hlen|]].
    + rewrite Hlk, Hlog, Hle, Hlb. cbn [map app succeeded sent_ok].
      rewrite map_app, map_map. cbn [map]. rewrite <- !app_assoc.
      reflexivity.
    + rewrite Hid. exact Hall.
  - exists (BEGIN :: INSERT_INTO_ledger_entries
              (or_else de VNull) (or_else rt VNull) (or_else ri VNull)
              (or_else m (VObject []))
            :: map (line_statement (gen_random_uuid env)) ls), COMMIT, [].
    split; [reflexivity|].
    rewrite Hlk, Hlog, Hle, Hlb. cbn [map app succeeded sent_ok].
    rewrite map_map. rewrite <- !app_assoc. reflexivity.
Qed.

End Protocol.

(** The statements of a posting that was answered 201. *)
Lemma posted_trace (encode_text : value -> string)
    (uuid_in : value -> option uuid) (env : environment) (d : db)
    (req_body : value) (entry : entry_row) (rows : list line_row)
    (nls : list normalized_line) :
  let o := post_ledger_entries encode_text uuid_in env d req_body in
  reply o = Some (created entry rows) ->
  validation (lines_of req_body) = Next nls ->
  trace o = (Connect true
             :: map sent_ok (script (gen_random_uuid env) req_body nls)
             ++ [Respond (created entry rows); Release])%list.
Proof.
  cbv zeta. unfold post_ledger_entries. fold (lines_of req_body).
  intros Hr Hv. rewrite Hv in *. revert Hr. unfold storage.
  destruct (negb (connect_ok env)); [discriminate|].
  destruct (transaction _ _ _ _ _ _ _ _ _) as [r c] eqn:Hrun.
  apply transaction_trace in Hrun. cbv zeta in Hrun.
  destruct r as [[e rs]|].
  - destruct Hrun as (_ & Hlog & _). unfold finish. cbn [reply trace].
    intros [= <- <-]. rewrite Hlog. unfold script, entry_statement.
    cbn [log app map]. reflexivity.
  - destruct (query _ _ _ ROLLBACK c). unfold finish. cbn [reply].
    discriminate.
Qed.

(* ====================================================================== *)
(** ** C1: the balance check against the stored amounts *)
(* ====================================================================== *)

(** C1, the code at the failing input: the entry is accepted and
    committed, and the rows readers then find for it hold debits of
    9007199254740993 against credits of 9007199254740992. *)
Theorem unbalanced_entry_is_posted :
  let o := Sample.post Sample.calm Sample.books absorbed_unit in
  reply o = Some (created header absorbed_rows) /\
  find_entry (db_after o) Sample.new_entry = Some header /\
  lines_of_entry (db_after o) Sample.new_entry = absorbed_rows /\
  subtotal "debit" "USD" (map movement_of_row absorbed_rows)
  = 9007199254740993 * 10 ^ 18 /\
  subtotal "credit" "USD" (map movement_of_row absorbed_rows)
  = 9007199254740992 * 10 ^ 18 /\
  subtotal "debit" "USD" (map movement_of_row absorbed_rows)
  <> subtotal "credit" "USD" (map movement_of_row absorbed_rows).
Proof.
  cbv zeta. repeat split; try (vm_compute; reflexivity).
  vm_compute. discriminate.
Qed.

(* ====================================================================== *)
(** ** C2: rollback on a storage failure *)
(* ====================================================================== *)

(** C2 (as amended). Whenever the posting handler reports "Failed to
    create ledger entry" (a rejected promise inside the transaction
    block), a [ROLLBACK] was sent immediately before the response and the
    client is left without an open transaction.  Readers then see exactly
    the tables they saw before, and a read of the entry id drawn for the
    attempt finds nothing unless that id was already taken; the one
    exception is a [COMMIT] that the server applied and whose
    acknowledgement was lost: the handler rolls back and reports the error
    all the same, and readers see the header and every line of the
    entry. *)
Theorem storage_failure_rolls_back_unless_commit_applied
    (encode_text : value -> string) (uuid_in : value -> option uuid)
    (env : environment) (d : db) (req_body : value) :
  let o := post_ledger_entries encode_text uuid_in env d req_body in
  reply o = Some posting_failed ->
  (exists pre ok,
     trace o = (pre ++ [Query ROLLBACK ok; Respond posting_failed;
                        Release])%list) /\
  (exists s, client_after o = Some s /\ tx s = None) /\
  ((committed (db_after o) = committed d /\
    (find_entry d (gen_random_uuid env) = None ->
     find_entry (db_after o) (gen_random_uuid env) = None /\
     lines_of_entry (db_after o) (gen_random_uuid env)
     = lines_of_entry d (gen_random_uuid env)))
   \/
   (exists nls entry rows pre,
      validation (lines_of req_body) = Next nls /\
      verdict_of env (2 + List.length nls) = Lost true /\
      trace o = (pre ++ [Query COMMIT false; Query ROLLBACK false;
                         Respond posting_failed; Release])%list /\
      List.length rows = List.length nls /\
      committed (db_after o)
      = add_lines (add_entry (committed d) entry) rows /\
      find_entry (db_after o) (gen_random_uuid env) = Some entry)) /\
  ((forall nls, validation (lines_of req_body) = Next nls ->
                verdict_of env (2 + List.length nls) <> Lost true) ->
   committed (db_after o) = committed d).
Proof.
  cbv zeta. unfold post_ledger_entries. fold (lines_of req_body).
  destruct (validation _) as [ls|r'|e] eqn:Hv; cbn [reply trace db_after
                                                     client_after].
  - intros Hr.
    destruct (storage_cases encode_text uuid_in env d
                (get (or_else req_body (VObject [])) "description")
                (get (or_else req_body (VObject [])) "reference_type")
                (get (or_else req_body (VObject [])) "reference_id")
                (get (or_else req_body (VObject [])) "metadata") ls)
      as [_ Ho|? ? ? ? _ Ho|pre ok s _ Ho Htr Hdb Hcl Htx
          |entry rows pre s _ Hlost Ho Htr Hp Hcl Htx].
    + rewrite Ho in Hr. discriminate Hr.
    + rewrite Ho in Hr. discriminate Hr.
    + split; [exists pre, ok; exact Htr|].
      split; [exists s; auto|]. split; [|intros _; exact Hdb].
      left. split; [exact Hdb|].
      unfold find_entry, lines_of_entry. rewrite Hdb. auto.
    + destruct Hp as (Hid & Hnew & _ & Hst & _ & Hdb).
      split.
      { exists (pre ++ [Query COMMIT false])%list, false.
        rewrite Htr, <- app_assoc. reflexivity. }
      split; [exists s; auto|]. split.
      * right. exists ls, entry, rows, pre. split; [reflexivity|].
        split; [exact Hlost|]. split; [exact Htr|].
        split; [symmetry; exact (Forall2_length Hst)|].
        split; [exact Hdb|].
        unfold find_entry. rewrite Hdb, <- Hid.
        cbn [add_lines add_entry ledger_entries].
        apply find_entry_added. exact Hnew.
      * intros Hnone. exfalso. exact (Hnone ls eq_refl Hlost).
  - intros [= ->]. apply validation_return_400 in Hv. discriminate Hv.
  - discriminate.
Qed.

(** The connection drops while the second line is being inserted. *)
Lemma storage_failure_rolls_back_unless_commit_applied_witness :
  let o := Sample.post (Sample.drops_at 3) Sample.books balanced_sale in
  reply o = Some posting_failed /\
  committed (db_after o) = committed Sample.books /\
  find_entry (db_after o) Sample.new_entry = None.
Proof.
  cbv zeta.
  assert (H : reply (Sample.post (Sample.drops_at 3) Sample.books
                       balanced_sale) = Some posting_failed).
  { vm_compute. reflexivity. }
  split; [exact H|].
  destruct (storage_failure_rolls_back_unless_commit_applied
              Sample.encode_text Sample.uuid_in (Sample.drops_at 3)
              Sample.books balanced_sale H) as (_ & _ & _ & Hsame).
  assert (Hdb : committed (db_after (Sample.post (Sample.drops_at 3)
                                       Sample.books balanced_sale))
                = committed Sample.books).
  { apply Hsame. intros nls Hv. vm_compute in Hv. injection Hv as <-.
    vm_compute. discriminate. }
  split; [exact Hdb|]. unfold find_entry.
  change (Sample.post (Sample.drops_at 3) Sample.books balanced_sale)
    with (post_ledger_entries Sample.encode_text Sample.uuid_in
            (Sample.drops_at 3) Sample.books balanced_sale) in Hdb.
  unfold Sample.post. rewrite Hdb. reflexivity.
Defined.

(** C2, the claim as stated fails: the server applies the [COMMIT] of a
    two-line entry and the connection is lost before the acknowledgement
    arrives.  The handler sends [ROLLBACK] and reports the failure, and a
    read of the entry id finds the header and both lines. *)
Lemma failed_posting_is_visible_after_lost_acknowledgement :
  let o := Sample.post (Sample.unacknowledged_at 4) Sample.books
             balanced_sale in
  reply o = Some posting_failed /\
  trace o = (Connect true
             :: map sent_ok [BEGIN; entry_statement balanced_sale;
                             line_statement Sample.new_entry
                               (nth 0 balanced_sale_lines no_currency_normal);
                             line_statement Sample.new_entry
                               (nth 1 balanced_sale_lines no_currency_normal)]
             ++ [Query COMMIT false; Query ROLLBACK false;
                 Respond posting_failed; Release])%list /\
  find_entry Sample.books Sample.new_entry = None /\
  find_entry (db_after o) Sample.new_entry = Some header /\
  lines_of_entry (db_after o) Sample.new_entry = balanced_sale_rows.
Proof.
  cbv zeta. repeat split; vm_compute; reflexivity.
Qed.

(* ====================================================================== *)
(** ** C3: validation failures precede storage *)
(* ====================================================================== *)

(** C3. Whenever the posting handler answers 400 (a validation failure),
    or a coercion of the validation phase throws and it does not answer at
    all, the handler did nothing else: no client was acquired from the
    pool, no statement was sent, and the store is unchanged. *)
Theorem validation_failure_precedes_storage
    (encode_text : value -> string) (uuid_in : value -> option uuid)
    (env : environment) (d : db) (req_body : value) :
  let o := post_ledger_entries encode_text uuid_in env d req_body in
  reply o = None \/ (exists r, reply o = Some r /\ status r = 400) ->
  trace o = match reply o with
            | Some r => [Respond r]
            | None => []
            end /\
  db_after o = d /\
  client_after o = None.
Proof.
  cbv zeta. unfold post_ledger_entries.
  destruct (validation _) as [ls|r'|e] eqn:Hv;
    cbn [reply trace db_after client_after]; auto.
  intros Hr. exfalso.
  destruct (storage_cases encode_text uuid_in env d
              (get (or_else req_body (VObject [])) "description")
              (get (or_else req_body (VObject [])) "reference_type")
              (get (or_else req_body (VObject [])) "reference_id")
              (get (or_else req_body (VObject [])) "metadata") ls)
    as [_ Ho|? ? ? ? _ Ho|? ? ? _ Ho|? ? ? ? _ _ Ho];
    rewrite Ho in Hr;
    (destruct Hr as [Hr|(r & Hr & Hs)];
     [discriminate Hr|injection Hr as <-; discriminate Hs]).
Qed.

(** Scenario 2 of the specification, 100.00 against 99.99, is answered 400
    without a store call. *)
Lemma validation_failure_precedes_storage_witness :
  let o := Sample.post Sample.calm Sample.books short_by_a_cent in
  (reply o = None \/ (exists r, reply o = Some r /\ status r = 400)) /\
  trace o = [Respond short_by_a_cent_reply] /\
  db_after o = Sample.books /\
  client_after o = None.
Proof.
  cbv zeta.
  assert (H : reply (Sample.post Sample.calm Sample.books short_by_a_cent)
              = None \/
              (exists r,
                 reply (Sample.post Sample.calm Sample.books short_by_a_cent)
                 = Some r /\ status r = 400)).
  { right. exists short_by_a_cent_reply.
    split; [vm_compute; reflexivity|reflexivity]. }
  split; [exact H|].
  pose proof (validation_failure_precedes_storage Sample.encode_text
                Sample.uuid_in Sample.calm Sample.books short_by_a_cent H)
    as (Ht & Hd & Hc).
  split; [|split; assumption].
  unfold Sample.post. rewrite Ht. vm_compute. reflexivity.
Defined.

(* ====================================================================== *)
(** ** C4: one currency per entry *)
(* ====================================================================== *)

(** C4 (as amended). An entry may not span currencies: when every line
    passes the checks on its own fields and carries a non-empty currency,
    and two of the lines differ in upper-cased currency, the request is
    answered 400 "All lines must use the same currency" before any store
    call, however the amounts balance within each currency. *)
Theorem mixed_currency_entry_rejected
    (encode_text : value -> string) (uuid_in : value -> option uuid)
    (env : environment) (d : db) (req_body : value) (items : list value) :
  lines_of req_body = VArray items ->
  (forall l, In l items ->
             exists nl, alone l = Next nl /\ line_currency nl <> "") ->
  (exists l1 l2 nl1 nl2,
     In l1 items /\ In l2 items /\
     alone l1 = Next nl1 /\ alone l2 = Next nl2 /\
     line_currency nl1 <> line_currency nl2) ->
  post_ledger_entries encode_text uuid_in env d req_body =
  {| reply := Some same_currency_error;
     trace := [Respond same_currency_error];
     db_after := d;
     client_after := None |}.
Proof.
  intros Hl Hall Hex. unfold post_ledger_entries.
  fold (lines_of req_body). rewrite Hl.
  assert (Hv : validation (VArray items) = Return same_currency_error).
  { unfold validation.
    destruct items as [|l0 rest].
    { destruct Hex as (l1 & _ & _ & _ & [] & _). }
    destruct rest as [|l1 rest].
    { destruct Hex as (a & b & na & nb & [<-|[]] & [<-|[]] & Ha & Hb & Hd).
      rewrite Ha in Hb. injection Hb as <-. congruence. }
    cbn [List.length Nat.ltb Nat.leb].
    change (validate_lines (l0 :: l1 :: rest) loop_start)
      with (st' <- validate_line loop_start l0 ;;
            validate_lines (l1 :: rest) st').
    rewrite validate_line_alone.
    destruct (Hall l0 (or_introl eq_refl)) as (nl0 & Hnl0 & Hne0).
    rewrite Hnl0. cbn [loop_start currency currency_unset bind].
    rewrite (validate_lines_second_currency (l1 :: rest) _ (line_currency nl0));
      [reflexivity|reflexivity|assumption| |].
    - intros l Hin. destruct (Hall l (or_intror Hin)) as (nl & Hnl & _).
      eauto.
    - destruct Hex as (a & b & na & nb & Ha & Hb & Hna & Hnb & Hd).
      destruct (string_dec (line_currency na) (line_currency nl0)) as [Ea|Ea].
      + exists b, nb. repeat split; [|assumption|congruence].
        destruct Hb as [<-|Hb]; [|assumption].
        rewrite Hnl0 in Hnb. injection Hnb as <-. congruence.
      + exists a, na. repeat split; [|assumption|assumption].
        destruct Ha as [<-|Ha]; [|assumption].
        rewrite Hnl0 in Hna. injection Hna as <-. congruence. }
  rewrite Hv. reflexivity.
Qed.

(** The exchange entry, taken as a list of movements, balances in each of
    its two currencies; the handler refuses it all the same. *)
Lemma mixed_currency_entry_rejected_witness :
  lines_of (Sample.entry exchange) = VArray exchange /\
  Sample.post Sample.calm Sample.books (Sample.entry exchange) =
  {| reply := Some same_currency_error;
     trace := [Respond same_currency_error];
     db_after := Sample.books;
     client_after := None |}.
Proof.
  split; [reflexivity|].
  apply (mixed_currency_entry_rejected Sample.encode_text Sample.uuid_in
           Sample.calm Sample.books (Sample.entry exchange) exchange).
  - reflexivity.
  - intros l Hin. simpl in Hin.
    destruct Hin as [<-|[<-|[<-|[<-|[]]]]];
      (eexists; split; [vm_compute; reflexivity|vm_compute; discriminate]).
  - exists (Sample.line Sample.cash "debit" (VString "100.00") "USD"),
           (Sample.line Sample.sales "debit" (VString "90.00") "EUR").
    do 2 eexists.
    split; [simpl; auto|]. split; [simpl; auto|].
    split; [vm_compute; reflexivity|]. split; [vm_compute; reflexivity|].
    vm_compute. discriminate.
Defined.

(** C4, the claim as stated fails: every line of the exchange entry is
    valid, its debits equal its credits in USD and in EUR, and the request
    is answered 400 instead of being posted. *)
Lemma balanced_two_currency_entry_refused :
  map alone exchange = map (@Next normalized_line) exchange_lines /\
  map movement_of_line exchange_lines
  = map (@Some movement) exchange_movements /\
  subtotal "debit" "USD" exchange_movements
  = subtotal "credit" "USD" exchange_movements /\
  subtotal "debit" "EUR" exchange_movements
  = subtotal "credit" "EUR" exchange_movements /\
  reply (Sample.post Sample.calm Sample.books (Sample.entry exchange))
  = Some same_currency_error /\
  kind_of same_currency_error = Some ValidationError.
Proof.
  repeat split; vm_compute; reflexivity.
Qed.

(* ====================================================================== *)
(** ** C5: lines against accounts that do not exist *)
(* ====================================================================== *)

(** C5 (as amended). When a request passes validation and one of its lines
    names an account that does not resolve to a row of [accounts], nothing
    of the entry becomes visible and the caller gets a generic 500: "Failed
    to create ledger entry" after a [ROLLBACK] when a client could be
    acquired, "Database connection failed" otherwise; neither is a
    not-found error. *)
Theorem unknown_account_fails_generically
    (encode_text : value -> string) (uuid_in : value -> option uuid)
    (env : environment) (d : db) (req_body : value)
    (items : list value) (line : value) (nls : list normalized_line) :
  lines_of req_body = VArray items ->
  In line items ->
  resolves uuid_in d (get (or_else line (VObject [])) "account_id") = false ->
  validation (VArray items) = Next nls ->
  let o := post_ledger_entries encode_text uuid_in env d req_body in
  committed (db_after o) = committed d /\
  (connect_ok env = false -> reply o = Some connection_failed) /\
  (connect_ok env = true ->
   reply o = Some posting_failed /\
   exists pre ok,
     trace o = (pre ++ [Query ROLLBACK ok; Respond posting_failed;
                        Release])%list).
Proof.
  intros Hl Hin Hres Hv. cbv zeta. unfold post_ledger_entries.
  fold (lines_of req_body). rewrite Hl, Hv.
  assert (Hbad : ~ Forall (fun nl => resolves uuid_in d (line_account_id nl)
                                     = true) nls).
  { revert Hv. unfold validation.
    destruct (List.length items <? 2)%nat; [discriminate|].
    destruct (validate_lines items loop_start) as [st| |] eqn:Hloop;
      cbn [bind]; try discriminate.
    destruct (balance_check st); cbn [bind]; try discriminate.
    intros [= <-].
    destruct (validate_lines_next _ _ _ Hloop) as (nls & Hall & Hn & _).
    cbn [loop_start normalizedLines app] in Hn. rewrite Hn.
    clear - Hall Hin Hres. intros HF.
    induction Hall as [|l nl ls ns Hal _ IH].
    - destruct Hin.
    - inversion HF as [|? ? Hnl Hrest]; subst.
      destruct Hin as [<-|Hin]; [|auto].
      destruct (alone_fields _ _ Hal) as (Hacc & _).
      rewrite Hacc in Hnl. congruence. }
  destruct (storage_cases encode_text uuid_in env d
              (get (or_else req_body (VObject [])) "description")
              (get (or_else req_body (VObject [])) "reference_type")
              (get (or_else req_body (VObject [])) "reference_id")
              (get (or_else req_body (VObject [])) "metadata") nls)
    as [Hc Ho|entry rows pre s _ _ _ _ _ Hall|pre ok s Hc Ho Htr Hdb _ _
        |entry rows pre s _ _ _ _ (_ & _ & Hall & _) _ _].
  - rewrite Ho. cbn. split; [reflexivity|]. split; [reflexivity|].
    intros Hc'. congruence.
  - contradiction.
  - split; [exact Hdb|]. split; [congruence|].
    intros _. split; [exact Ho|]. exists pre, ok. exact Htr.
  - contradiction.
Qed.

Lemma unknown_account_fails_generically_witness :
  let o := Sample.post Sample.calm Sample.books (Sample.entry to_nobody) in
  resolves Sample.uuid_in Sample.books (VString Sample.nobody) = false /\
  validation (VArray to_nobody) = Next to_nobody_lines /\
  committed (db_after o) = committed Sample.books /\
  (connect_ok Sample.calm = false -> reply o = Some connection_failed) /\
  (connect_ok Sample.calm = true ->
   reply o = Some posting_failed /\
   exists pre ok,
     trace o = (pre ++ [Query ROLLBACK ok; Respond posting_failed;
                        Release])%list).
Proof.
  cbv zeta. split; [vm_compute; reflexivity|].
  split; [vm_compute; reflexivity|].
  apply (unknown_account_fails_generically Sample.encode_text Sample.uuid_in
           Sample.calm Sample.books (Sample.entry to_nobody) to_nobody
           (Sample.line Sample.nobody "credit" (VString "25.00") "USD")
           to_nobody_lines).
  - reflexivity.
  - simpl. right. left. reflexivity.
  - vm_compute. reflexivity.
  - vm_compute. reflexivity.
Defined.

(** C5, the claim as stated fails: the entry with a line to a missing
    account is answered with the generic storage error, which is not a
    not-found error. *)
Lemma unknown_account_is_not_reported_as_not_found :
  resolves Sample.uuid_in Sample.books (VString Sample.nobody) = false /\
  reply (Sample.post Sample.calm Sample.books (Sample.entry to_nobody))
  = Some posting_failed /\
  kind_of posting_failed = Some StorageError /\
  kind_of posting_failed <> Some NotFoundError.
Proof.
  split; [vm_compute; reflexivity|]. split; [vm_compute; reflexivity|].
  split; [reflexivity|]. vm_compute. discriminate.
Qed.

(* ====================================================================== *)
(** ** C6: what the balance error carries *)
(* ====================================================================== *)

(** What JSON makes of a number: the same number when it is finite, [null]
    otherwise. *)
Lemma JSON_number_cases (x : Num.number) :
  if Num.isFinite x
  then exists y, JSON_number x = VNumber y /\ Num.eqb y x = true
  else JSON_number x = VNull.
Proof.
  destruct x as [s|s| |s m e]; cbn [Num.isFinite JSON_number];
    try reflexivity.
  - exists Num.pos_zero. split; [reflexivity|]. destruct s; reflexivity.
  - exists (S754_finite s m e). split; [reflexivity|].
    unfold Num.eqb, SFeqb, SFcompare.
    rewrite Z.compare_refl.
    destruct s; cbn; rewrite ?Pos.compare_cont_refl; try reflexivity;
      rewrite Pos.compare_refl; reflexivity.
Qed.

(** C6 (as amended). A request rejected because debits and credits do not
    balance is answered with [details: { total_debits, total_credits }]:
    two totals for the entry as a whole, each the floating-point sum of
    the amounts of its side, printed with 18 decimals and read back.  In
    the body the caller reads, a total is a JSON number when it is finite
    and [null] when it is not (a sum that overflowed to [Infinity]).  The
    totals are not keyed by currency and are not strings. *)
Theorem unbalanced_reply_carries_float_totals
    (encode_text : value -> string) (uuid_in : value -> option uuid)
    (env : environment) (d : db) (req_body : value) (r : response) :
  reply (post_ledger_entries encode_text uuid_in env d req_body) = Some r ->
  get (json_of r) "error" = balance_message ->
  exists items nls,
    lines_of req_body = VArray items /\
    Forall2 (fun l nl => alone l = Next nl) items nls /\
    let debits := rounded (float_total "debit" nls Num.pos_zero) in
    let credits := rounded (float_total "credit" nls Num.pos_zero) in
    Num.eqb debits credits = false /\
    r = unbalanced debits credits /\
    received r
    = Some (VObject
              [("error", balance_message);
               ("details", VObject [("total_debits", JSON_number debits);
                                    ("total_credits", JSON_number credits)])])
    /\
    Forall (fun total =>
              if Num.isFinite total
              then exists x, JSON_number total = VNumber x /\
                             Num.eqb x total = true
              else JSON_number total = VNull)
           [debits; credits].
Proof.
  unfold post_ledger_entries. fold (lines_of req_body).
  destruct (validation (lines_of req_body)) as [ls|r'|e] eqn:Hv;
    cbn [reply]; [| |discriminate].
  - intros Hr Hmsg. exfalso.
    destruct (storage_cases encode_text uuid_in env d
                (get (or_else req_body (VObject [])) "description")
                (get (or_else req_body (VObject [])) "reference_type")
                (get (or_else req_body (VObject [])) "reference_id")
                (get (or_else req_body (VObject [])) "metadata") ls)
      as [_ Ho|? ? ? ? _ Ho|? ? ? _ Ho|? ? ? ? _ _ Ho];
      rewrite Ho in Hr; injection Hr as <-; discriminate Hmsg.
  - intros [= <-] Hmsg. revert Hv. unfold validation.
    destruct (lines_of req_body) as [| | | | |items|];
      try (intros [= <-]; discriminate Hmsg).
    destruct (List.length items <? 2)%nat;
      [intros [= <-]; discriminate Hmsg|].
    destruct (validate_lines items loop_start) as [st|r0|] eqn:Hloop;
      cbn [bind]; [| |discriminate].
    + destruct (validate_lines_next _ _ _ Hloop) as (nls & Hall & _ & Hd & Hc).
      unfold balance_check. cbn [loop_start totalDebits totalCredits] in Hd, Hc.
      rewrite Hd, Hc.
      destruct (Num.eqb _ _) eqn:Heq; cbn [negb bind]; [discriminate|].
      intros [= <-]. exists items, nls. split; [reflexivity|].
      split; [exact Hall|]. cbv zeta. split; [exact Heq|].
      split; [reflexivity|]. split; [reflexivity|].
      constructor; [|constructor; [|constructor]]; apply JSON_number_cases.
    + intros [= <-]. apply validate_lines_return in Hloop.
      unfold line_errors in Hloop. cbn [In] in Hloop.
      destruct Hloop as [<-|[<-|[<-|[<-|[]]]]]; discriminate Hmsg.
Qed.

Lemma unbalanced_reply_carries_float_totals_witness :
  reply (Sample.post Sample.calm Sample.books short_by_a_cent)
  = Some short_by_a_cent_reply /\
  get (json_of short_by_a_cent_reply) "error" = balance_message /\
  exists items nls,
    lines_of short_by_a_cent = VArray items /\
    Forall2 (fun l nl => alone l = Next nl) items nls /\
    let debits := rounded (float_total "debit" nls Num.pos_zero) in
    let credits := rounded (float_total "credit" nls Num.pos_zero) in
    Num.eqb debits credits = false /\
    short_by_a_cent_reply = unbalanced debits credits /\
    received short_by_a_cent_reply
    = Some (VObject
              [("error", balance_message);
               ("details", VObject [("total_debits", JSON_number debits);
                                    ("total_credits", JSON_number credits)])])
    /\
    Forall (fun total =>
              if Num.isFinite total
              then exists x, JSON_number total = VNumber x /\
                             Num.eqb x total = true
              else JSON_number total = VNull)
           [debits; credits].
Proof.
  assert (H1 : reply (Sample.post Sample.calm Sample.books short_by_a_cent)
               = Some short_by_a_cent_reply).
  { vm_compute. reflexivity. }
  assert (H2 : get (json_of short_by_a_cent_reply) "error" = balance_message).
  { reflexivity. }
  split; [exact H1|]. split; [exact H2|].
  exact (unbalanced_reply_carries_float_totals Sample.encode_text
           Sample.uuid_in Sample.calm Sample.books _ _ H1 H2).
Defined.

(** What the caller reads in scenario 2. *)
Example short_by_a_cent_as_received :
  received short_by_a_cent_reply
  = Some (VObject
            [("error", balance_message);
             ("details",
              VObject
                [("total_debits", VNumber (Num.of_decimal false 10000 (-2)));
                 ("total_credits",
                  VNumber (Num.of_decimal false 9999 (-2)))])]).
Proof. vm_compute. reflexivity. Qed.

(** A debit total that overflowed reaches the caller as [null]. *)
Example overflowing_total_is_sent_as_null :
  exists r,
    reply (Sample.post Sample.calm Sample.books overflowing_debits) = Some r /\
    status r = 400 /\
    json_of r
    = VObject
        [("error", balance_message);
         ("details",
          VObject [("total_debits", VNumber (S754_infinity false));
                   ("total_credits",
                    VNumber (Num.of_decimal false 1 308))])] /\
    received r
    = Some (VObject
              [("error", balance_message);
               ("details",
                VObject [("total_debits", VNull);
                         ("total_credits",
                          VNumber (Num.of_decimal false 1 308))])]).
Proof.
  eexists. split; [vm_compute; reflexivity|].
  split; [reflexivity|]. split; vm_compute; reflexivity.
Qed.

(** C6, the claim as stated fails: the balance error of scenario 2 has no
    [totals_by_currency] property, and the totals it does carry are
    numbers, not decimal strings. *)
Lemma balance_error_has_no_totals_by_currency :
  reply (Sample.post Sample.calm Sample.books short_by_a_cent)
  = Some short_by_a_cent_reply /\
  get (json_of short_by_a_cent_reply) "error" = balance_message /\
  get (json_of short_by_a_cent_reply) "totals_by_currency" = VUndefined /\
  get (json_of short_by_a_cent_reply) "details"
  = VObject [("total_debits", VNumber (Num.of_decimal false 10000 (-2)));
             ("total_credits", VNumber (Num.of_decimal false 9999 (-2)))] /\
  is_string (get (get (json_of short_by_a_cent_reply) "details")
                 "total_debits") = false.
Proof.
  repeat split; vm_compute; reflexivity.
Qed.

(* ====================================================================== *)
(** ** C7: at least two lines *)
(* ====================================================================== *)

(** C7. A request whose [lines] is absent, is not an array, or is an array
    of fewer than two elements is answered 400 "At least two ledger lines
    are required", whatever the lines contain; the store is not contacted
    and holds what it held. *)
Theorem fewer_than_two_lines_rejected
    (encode_text : value -> string) (uuid_in : value -> option uuid)
    (env : environment) (d : db) (req_body : value) :
  (forall items, lines_of req_body = VArray items ->
                 (List.length items < 2)%nat) ->
  post_ledger_entries encode_text uuid_in env d req_body =
  {| reply := Some (error_json 400 "At least two ledger lines are required");
     trace := [Respond
                 (error_json 400 "At least two ledger lines are required")];
     db_after := d;
     client_after := None |}.
Proof.
  intros Hfew. unfold post_ledger_entries, validation.
  fold (lines_of req_body).
  destruct (lines_of req_body) as [| | | | |items|] eqn:Hl; try reflexivity.
  specialize (Hfew items eq_refl).
  apply Nat.ltb_lt in Hfew. rewrite Hfew. reflexivity.
Qed.

(** A single debit line of 50.00 USD is turned away. *)
Lemma fewer_than_two_lines_rejected_witness :
  let req := Sample.entry
               [Sample.line Sample.cash "debit" (VString "50.00") "USD"] in
  (forall items, lines_of req = VArray items -> (List.length items < 2)%nat)
  /\ Sample.post Sample.calm Sample.books req =
     {| reply :=
          Some (error_json 400 "At least two ledger lines are required");
        trace := [Respond
                    (error_json 400 "At least two ledger lines are required")];
        db_after := Sample.books;
        client_after := None |}.
Proof.
  cbv zeta.
  assert (H : forall items,
             lines_of (Sample.entry
               [Sample.line Sample.cash "debit" (VString "50.00") "USD"])
             = VArray items -> (List.length items < 2)%nat).
  { intros items H. vm_compute in H. injection H as <-. simpl. lia. }
  split; [exact H|].
  exact (fewer_than_two_lines_rejected Sample.encode_text Sample.uuid_in
           Sample.calm Sample.books _ H).
Defined.

(* ====================================================================== *)
(** ** C8: amounts that are not positive numbers *)
(* ====================================================================== *)




(* ====================================================================== *)
(** ** C9: account creation with a code already in use *)
(* ====================================================================== *)

(** C9 (as amended). When the [code] of an account-creation request is
    already the code of an account, the request is answered with the
    generic 500 "Failed to create account", the same response as for any
    other failure of the [INSERT]; no account is added. *)
Theorem duplicate_code_fails_generically
    (encode_text : value -> string) (uuid_in : value -> option uuid)
    (env : environment) (d : db) (req_body : value) :
  let fields := or_else req_body (VObject []) in
  isNonEmptyString (get fields "name") = true ->
  truthy (get fields "code") = true ->
  has_code (committed d) (encode_text (get fields "code")) = true ->
  let o := post_accounts encode_text uuid_in env d req_body in
  reply o = Some account_failed /\
  db_after o = d /\
  exists stmt, trace o = [Query stmt false; Respond account_failed].
Proof.
  cbv zeta. intros Hname Hcode Hdup. unfold post_accounts.
  rewrite Hname. cbn [negb].
  rewrite (or_else_truthy _ VNull Hcode).
  destruct (insert_account_duplicate encode_text uuid_in (verdict_of env 0)
              (gen_random_uuid env) (now env) d
              (get (or_else req_body (VObject [])) "name")
              (get (or_else req_body (VObject [])) "code")
              (or_else (get (or_else req_body (VObject [])) "description")
                       VNull)
              (or_else (get (or_else req_body (VObject [])) "currency") VNull)
              (or_else (get (or_else req_body (VObject [])) "owner_group_id")
                       VNull)
              (or_else (get (or_else req_body (VObject [])) "owner_user_id")
                       VNull)
              (or_else (get (or_else req_body (VObject [])) "metadata")
                       (VObject []))
              Hcode Hdup) as [s ->].
  cbn. repeat split. eexists. reflexivity.
Qed.

Lemma duplicate_code_fails_generically_witness :
  let o := post_accounts Sample.encode_text Sample.uuid_in Sample.calm
             Sample.books second_cash in
  isNonEmptyString (get second_cash "name") = true /\
  truthy (get second_cash "code") = true /\
  has_code (committed Sample.books)
           (Sample.encode_text (get second_cash "code")) = true /\
  reply o = Some account_failed /\
  db_after o = Sample.books /\
  exists stmt, trace o = [Query stmt false; Respond account_failed].
Proof.
  cbv zeta.
  split; [vm_compute; reflexivity|]. split; [vm_compute; reflexivity|].
  split; [vm_compute; reflexivity|].
  apply (duplicate_code_fails_generically Sample.encode_text Sample.uuid_in
           Sample.calm Sample.books second_cash); vm_compute; reflexivity.
Defined.

(** C9, the claim as stated fails: the colliding code is answered with the
    generic storage error, which is not a conflict error. *)
Lemma duplicate_code_is_not_reported_as_conflict :
  has_code (committed Sample.books)
           (Sample.encode_text (get second_cash "code")) = true /\
  reply (post_accounts Sample.encode_text Sample.uuid_in Sample.calm
           Sample.books second_cash)
  = Some account_failed /\
  kind_of account_failed = Some StorageError /\
  kind_of account_failed <> Some ConflictError.
Proof.
  split; [vm_compute; reflexivity|]. split; [vm_compute; reflexivity|].
  split; [reflexivity|]. vm_compute. discriminate.
Qed.

(* ====================================================================== *)
(** ** C10: amounts are what Number makes of them *)
(* ====================================================================== *)

(** C10 (as amended). The posting handler validates an amount through
    [Number]: a line that reaches the amount check and whose amount
    coerces to a finite number above zero is normalized with that number
    as its amount, whatever kind of value the amount was ([true] coerces
    to 1, the array [[5]] to 5).  For a posted request the amount sent to
    the store with each line [INSERT] is that coerced number, not the text
    the caller wrote; the amount readers then find in the row is the
    [NUMERIC(36,18)] reading of the number, which is the number rounded to
    18 decimals and not always the number itself. *)
Theorem amount_is_number_coercion_stored_as_numeric :
  (forall (line : value) (x : Num.number) (text : string),
     reaches_amount_check line ->
     to_number (get (or_else line (VObject [])) "amount") = Normal x ->
     Num.isFinite x = true ->
     Num.ltb Num.pos_zero x = true ->
     to_str (get (or_else line (VObject [])) "currency") = Normal text ->
     exists nl, alone line = Next nl /\ line_amount nl = x) /\
  to_number (VBool true) = Normal (Num.of_Z 1) /\
  to_number (VArray [VNumber (Num.of_Z 5)]) = Normal (Num.of_Z 5) /\
  (forall (encode_text : value -> string) (uuid_in : value -> option uuid)
          (env : environment) (d : db) (req_body : value)
          (entry : entry_row) (rows : list line_row),
     let o := post_ledger_entries encode_text uuid_in env d req_body in
     reply o = Some (created entry rows) ->
     exists items nls,
       lines_of req_body = VArray items /\
       Forall2 (fun l nl =>
                  to_number (get (or_else l (VObject [])) "amount")
                  = Normal (line_amount nl)) items nls /\
       trace o
       = (Connect true
          :: sent_ok BEGIN :: sent_ok (entry_statement req_body)
          :: map (fun nl =>
                    sent_ok (INSERT_INTO_ledger_lines
                               (gen_random_uuid env) (line_account_id nl)
                               (line_direction nl) (line_amount nl)
                               (line_currency nl) (line_metadata nl))) nls
          ++ [sent_ok COMMIT; Respond (created entry rows); Release])%list /\
       ledger_lines (committed (db_after o))
       = (ledger_lines (committed d) ++ rows)%list /\
       Forall2 (fun nl row =>
                  numeric_36_18 (line_amount nl) = Some (row_amount row))
               nls rows).
Proof.
  split; [|split; [|split]].
  - intros line x text Hreach Hx Hfin Hpos Hcur.
    destruct (alone_accepts line x text Hreach Hx Hfin Hpos Hcur)
      as (nl & Hnl & Hamt & _).
    exists nl. auto.
  - reflexivity.
  - vm_compute. reflexivity.
  - intros encode_text uuid_in env d req_body entry rows o Hr. subst o.
    destruct (posted_lines _ _ _ _ _ _ _ Hr)
      as (items & nls & Hl & Hv & Hal & Hst & Hdb).
    exists items, nls. split; [exact Hl|]. split.
    { clear - Hal. induction Hal as [|l nl ls ns H _ IH];
        constructor; [|exact IH].
      destruct (alone_fields _ _ H) as (_ & _ & Hn & _). exact Hn. }
    split.
    { rewrite <- Hl in Hv.
      rewrite (posted_trace _ _ _ _ _ _ _ _ Hr Hv).
      unfold script, line_statement. cbn [map app].
      rewrite map_app, map_map, <- app_assoc. reflexivity. }
    split; [rewrite Hdb; reflexivity|].
    clear - Hst. induction Hst as [|nl row ns rs H _ IH];
      constructor; [|exact IH].
    destruct H as (Hn & _). exact Hn.
Qed.

(** The amount written 0.12345678901234567890 is sent as the number
    nearest to it and found in the rows as 0.123456789012345680. *)
Lemma amount_is_number_coercion_stored_as_numeric_witness :
  let o := Sample.post Sample.calm Sample.books twenty_decimals in
  let stored := [row 1 Sample.cash "debit" 123456789012345680;
                 row 2 Sample.sales "credit" 123456789012345680] in
  reply o = Some (created header stored) /\
  exists items nls,
    lines_of twenty_decimals = VArray items /\
    Forall2 (fun l nl =>
               to_number (get (or_else l (VObject [])) "amount")
               = Normal (line_amount nl)) items nls /\
    trace o
    = (Connect true
       :: sent_ok BEGIN :: sent_ok (entry_statement twenty_decimals)
       :: map (fun nl =>
                 sent_ok (INSERT_INTO_ledger_lines
                            (gen_random_uuid Sample.calm) (line_account_id nl)
                            (line_direction nl) (line_amount nl)
                            (line_currency nl) (line_metadata nl))) nls
       ++ [sent_ok COMMIT; Respond (created header stored); Release])%list /\
    ledger_lines (committed (db_after o))
    = (ledger_lines (committed Sample.books) ++ stored)%list /\
    Forall2 (fun nl r => numeric_36_18 (line_amount nl) = Some (row_amount r))
            nls stored.
Proof.
  cbv zeta.
  assert (H : reply (Sample.post Sample.calm Sample.books twenty_decimals)
              = Some (created header
                        [row 1 Sample.cash "debit" 123456789012345680;
                         row 2 Sample.sales "credit" 123456789012345680])).
  { vm_compute. reflexivity. }
  split; [exact H|].
  exact (proj2 (proj2 (proj2 amount_is_number_coercion_stored_as_numeric))
           Sample.encode_text Sample.uuid_in Sample.calm Sample.books
           twenty_decimals _ _ H).
Defined.

(** [true] and [[1]] are posted as 1.000000000000000000. *)
Example odd_amounts_are_posted :
  reply (Sample.post Sample.calm Sample.books odd_amounts)
  = Some (created header [row 1 Sample.cash "debit" (10 ^ 18);
                          row 2 Sample.sales "credit" (10 ^ 18)]).
Proof. vm_compute. reflexivity. Qed.

(** C10, the claim as stated fails: the amount "1e-30" coerces to a finite
    number above zero and is accepted, and the amount readers find in the
    rows of the posted entry is 0, not that number. *)
Lemma stored_amount_is_not_the_coerced_number :
  let tiny := Num.of_string "1e-30" in
  let o := Sample.post Sample.calm Sample.books
             (Sample.entry
                [Sample.line Sample.cash "debit" (VString "1e-30") "USD";
                 Sample.line Sample.sales "credit" (VString "1e-30") "USD"]) in
  to_number (VString "1e-30") = Normal tiny /\
  Num.isFinite tiny = true /\
  Num.ltb Num.pos_zero tiny = true /\
  reply o = Some (created header [row 1 Sample.cash "debit" 0;
                                  row 2 Sample.sales "credit" 0]) /\
  lines_of_entry (db_after o) Sample.new_entry
  = [row 1 Sample.cash "debit" 0; row 2 Sample.sales "credit" 0] /\
  numeric_36_18 tiny = Some 0 /\
  Num.eqb tiny (Num.of_Z 0) = false.
Proof.
  cbv zeta. repeat split; vm_compute; reflexivity.
Qed.

(* ====================================================================== *)
(** ** Further properties of the posting route *)
(* ====================================================================== *)

(** X1. The statement protocol of a posting.  For a request that passes
    validation, once a client is acquired the handler sends [BEGIN], the
    header [INSERT], one line [INSERT] per normalized line in order, and
    [COMMIT]; it stops at the first statement that fails, sends [ROLLBACK]
    and answers 500.  It answers 201 only after [COMMIT] succeeded, and it
    releases the client once, after the response. *)
Theorem posting_protocol
    (encode_text : value -> string) (uuid_in : value -> option uuid)
    (env : environment) (d : db) (req_body : value)
    (nls : list normalized_line) :
  validation (lines_of req_body) = Next nls ->
  connect_ok env = true ->
  let o := post_ledger_entries encode_text uuid_in env d req_body in
  let sc := script (gen_random_uuid env) req_body nls in
  (exists entry rows,
     reply o = Some (created entry rows) /\
     List.length rows = List.length nls /\
     trace o = (Connect true :: map sent_ok sc
                ++ [Respond (created entry rows); Release])%list)
  \/
  (exists done failed rest ok,
     sc = (done ++ failed :: rest)%list /\
     reply o = Some posting_failed /\
     trace o = (Connect true :: map sent_ok done
                ++ [Query failed false; Query ROLLBACK ok;
                    Respond posting_failed; Release])%list).
Proof.
  intros Hv Hc. cbv zeta. unfold post_ledger_entries.
  fold (lines_of req_body). rewrite Hv. unfold storage. rewrite Hc.
  cbn [negb].
  destruct (transaction _ _ _ _ _ _ _ _ _) as [r c] eqn:Hrun.
  apply transaction_trace in Hrun. cbv zeta in Hrun.
  destruct r as [[entry rows]|].
  - left. destruct Hrun as (_ & Hlog & Hlen & _).
    exists entry, rows. unfold finish. cbn [reply trace].
    split; [reflexivity|]. split; [exact Hlen|].
    rewrite Hlog. unfold script, entry_statement. cbn [log app map].
    reflexivity.
  - right. destruct Hrun as (done & failed & rest & Hsc & Hlog).
    pose proof (query_event encode_text uuid_in env ROLLBACK c) as Hrb.
    destruct (query _ _ _ ROLLBACK c) as [ok c'].
    specialize (Hrb _ _ eq_refl).
    exists done, failed, rest, (succeeded ok). unfold finish.
    cbn [reply trace]. split; [exact Hsc|]. split; [reflexivity|].
    rewrite Hrb, Hlog. cbn [log app]. rewrite <- !app_assoc. reflexivity.
Qed.

Lemma posting_protocol_witness :
  validation (lines_of balanced_sale) = Next balanced_sale_lines /\
  connect_ok (Sample.drops_at 3) = true /\
  let o := Sample.post (Sample.drops_at 3) Sample.books balanced_sale in
  let sc := script Sample.new_entry balanced_sale balanced_sale_lines in
  (exists entry rows,
     reply o = Some (created entry rows) /\
     List.length rows = List.length balanced_sale_lines /\
     trace o = (Connect true :: map sent_ok sc
                ++ [Respond (created entry rows); Release])%list)
  \/
  (exists done failed rest ok,
     sc = (done ++ failed :: rest)%list /\
     reply o = Some posting_failed /\
     trace o = (Connect true :: map sent_ok done
                ++ [Query failed false; Query ROLLBACK ok;
                    Respond posting_failed; Release])%list).
Proof.
  assert (H : validation (lines_of balanced_sale) = Next balanced_sale_lines).
  { vm_compute. reflexivity. }
  split; [exact H|]. split; [reflexivity|].
  exact (posting_protocol Sample.encode_text Sample.uuid_in
           (Sample.drops_at 3) Sample.books balanced_sale
           balanced_sale_lines H eq_refl).
Defined.

(** Everything a 201 of the posting handler implies, gathered once. *)
Lemma posted_facts (encode_text : value -> string)
    (uuid_in : value -> option uuid) (env : environment) (d : db)
    (req_body : value) (entry : entry_row) (rows : list line_row) :
  reply (post_ledger_entries encode_text uuid_in env d req_body)
  = Some (created entry rows) ->
  exists items nls,
    lines_of req_body = VArray items /\
    (2 <= List.length items)%nat /\
    validate_lines items loop_start <> Return same_currency_error /\
    Forall2 (fun l nl => alone l = Next nl) items nls /\
    Forall2 (line_stored uuid_in) nls rows /\
    Forall (fun nl => resolves uuid_in d (line_account_id nl) = true) nls /\
    Forall (row_ok (entry_id entry)) rows /\
    entry_id entry = gen_random_uuid env /\
    has_entry (committed d) (entry_id entry) = false /\
    committed (db_after (post_ledger_entries encode_text uuid_in env d
                           req_body))
    = add_lines (add_entry (committed d) entry) rows.
Proof.
  intros Hr.
  destruct (posted_lines _ _ _ _ _ _ _ Hr)
    as (items & nls & Hl & Hv & Hal & Hst & Hdb).
  exists items, nls. split; [exact Hl|].
  assert (Hlen : (2 <= List.length items)%nat /\
                 validate_lines items loop_start <> Return same_currency_error).
  { revert Hv. unfold validation.
    destruct (List.length items <? 2)%nat eqn:Hlt; [discriminate|].
    apply Nat.ltb_ge in Hlt. intros Hv. split; [exact Hlt|].
    intros Hret. rewrite Hret in Hv. discriminate Hv. }
  destruct Hlen as [Hlen Hcur].
  split; [exact Hlen|]. split; [exact Hcur|]. split; [exact Hal|].
  split; [exact Hst|].
  revert Hr. unfold post_ledger_entries. fold (lines_of req_body).
  rewrite Hl, Hv. intros Hr.
  assert (Hrows : Forall (row_ok (entry_id entry)) rows).
  { revert Hr. unfold storage.
    destruct (negb (connect_ok env)); [discriminate|].
    destruct (transaction _ _ _ _ _ _ _ _ _) as [r c] eqn:Hrun.
    apply transaction_trace in Hrun. cbv zeta in Hrun.
    destruct r as [[e rs]|].
    - unfold finish. cbn [reply]. intros [= <- <-]. apply Hrun.
    - destruct (query _ _ _ ROLLBACK c). unfold finish. cbn [reply].
      discriminate. }
  destruct (storage_cases encode_text uuid_in env d
              (get (or_else req_body (VObject [])) "description")
              (get (or_else req_body (VObject [])) "reference_type")
              (get (or_else req_body (VObject [])) "reference_id")
              (get (or_else req_body (VObject [])) "metadata") nls)
    as [_ Ho|entry' rows' pre s _ Ho _ Hid Hnew Hres _ _ _ _ _|? ? ? _ Ho
        |? ? ? ? _ _ Ho].
  - rewrite Ho in Hr. discriminate Hr.
  - rewrite Ho in Hr. injection Hr as <- <-.
    unfold post_ledger_entries in Hdb. fold (lines_of req_body) in Hdb.
    rewrite Hl, Hv in Hdb. auto 10.
  - rewrite Ho in Hr. discriminate Hr.
  - rewrite Ho in Hr. discriminate Hr.
Qed.

Lemma filter_rows_of_entry (id : uuid) (rows : list line_row) :
  Forall (row_ok id) rows ->
  filter (fun l => String.eqb (row_entry_id l) id) rows = rows.
Proof.
  induction 1 as [|r rs (Hid & _) _ IH]; cbn; [reflexivity|].
  rewrite Hid, String.eqb_refl, IH. reflexivity.
Qed.

(** Under the foreign key of [ledger_lines], an id that no entry has is
    the id of no line. *)
Lemma no_lines_without_entry (t : tables) (id : uuid) :
  Forall (line_ok t) (ledger_lines t) ->
  has_entry t id = false ->
  filter (fun l => String.eqb (row_entry_id l) id) (ledger_lines t) = [].
Proof.
  intros Hl Hnew.
  induction Hl as [|r rs (He & _) _ IH]; cbn; [reflexivity|].
  destruct (String.eqb (row_entry_id r) id) eqn:E; [|exact IH].
  apply String.eqb_eq in E. congruence.
Qed.

(** X2. A posted entry can be read back.  After a 201 on a store that
    satisfied the constraints of the schema, the header is found under its
    id (and was not there before), the lines found under that id are
    exactly the rows of the response, one row per line of the request and
    at least two; the tables only grew at their end and the accounts are
    untouched. *)
Theorem posted_entry_is_readable
    (encode_text : value -> string) (uuid_in : value -> option uuid)
    (env : environment) (d : db) (req_body : value)
    (entry : entry_row) (rows : list line_row) :
  let o := post_ledger_entries encode_text uuid_in env d req_body in
  schema_ok (committed d) ->
  reply o = Some (created entry rows) ->
  find_entry (db_after o) (entry_id entry) = Some entry /\
  find_entry d (entry_id entry) = None /\
  lines_of_entry d (entry_id entry) = [] /\
  lines_of_entry (db_after o) (entry_id entry) = rows /\
  (exists items, lines_of req_body = VArray items /\
                 List.length rows = List.length items /\
                 (2 <= List.length rows)%nat) /\
  accounts (committed (db_after o)) = accounts (committed d) /\
  ledger_entries (committed (db_after o))
  = (ledger_entries (committed d) ++ [entry])%list /\
  ledger_lines (committed (db_after o))
  = (ledger_lines (committed d) ++ rows)%list.
Proof.
  cbv zeta. intros (_ & _ & _ & Hfk) Hr.
  destruct (posted_facts _ _ _ _ _ _ _ Hr)
    as (items & nls & Hl & Hlen & _ & Hal & Hst & _ & Hrows & _ & Hnew & Hdb).
  pose proof (no_lines_without_entry _ _ Hfk Hnew) as Hnone.
  unfold find_entry, lines_of_entry. rewrite Hdb.
  cbn [add_lines add_entry accounts ledger_entries ledger_lines].
  split; [apply find_entry_added; exact Hnew|].
  split.
  { revert Hnew. unfold has_entry.
    induction (ledger_entries (committed d)) as [|x l IH]; cbn;
      [reflexivity|].
    destruct (String.eqb (entry_id x) (entry_id entry)); cbn;
      [discriminate|exact IH]. }
  split; [exact Hnone|].
  split.
  { rewrite filter_app, Hnone, (filter_rows_of_entry _ _ Hrows).
    reflexivity. }
  split; [|auto].
  exists items. split; [exact Hl|].
  assert (Hn : List.length rows = List.length items).
  { rewrite <- (Forall2_length Hst). symmetry. exact (Forall2_length Hal). }
  split; [exact Hn|]. rewrite Hn. exact Hlen.
Qed.

Lemma posted_entry_is_readable_witness :
  let o := Sample.post Sample.calm Sample.books balanced_sale in
  schema_ok (committed Sample.books) /\
  reply o = Some (created header balanced_sale_rows) /\
  find_entry (db_after o) (entry_id header) = Some header /\
  find_entry Sample.books (entry_id header) = None /\
  lines_of_entry Sample.books (entry_id header) = [] /\
  lines_of_entry (db_after o) (entry_id header) = balanced_sale_rows /\
  (exists items, lines_of balanced_sale = VArray items /\
                 List.length balanced_sale_rows = List.length items /\
                 (2 <= List.length balanced_sale_rows)%nat) /\
  accounts (committed (db_after o)) = accounts (committed Sample.books) /\
  ledger_entries (committed (db_after o))
  = (ledger_entries (committed Sample.books) ++ [header])%list /\
  ledger_lines (committed (db_after o))
  = (ledger_lines (committed Sample.books) ++ balanced_sale_rows)%list.
Proof.
  cbv zeta.
  assert (H : reply (Sample.post Sample.calm Sample.books balanced_sale)
              = Some (created header balanced_sale_rows)).
  { vm_compute. reflexivity. }
  split; [exact schema_ok_books|]. split; [exact H|].
  exact (posted_entry_is_readable Sample.encode_text Sample.uuid_in
           Sample.calm Sample.books balanced_sale header balanced_sale_rows
           schema_ok_books H).
Defined.

(** X3. Posting is all or nothing on the store, for every request, store,
    driver and fault schedule: readers see either the tables exactly as
    before, or the old tables plus the header and every row of the entry.
    A 201 is answered only in the second case, with those rows.  The
    second case comes without a 201 only when the server applied the
    [COMMIT] and its acknowledgement was lost: the answer is then the 500
    of the [catch] block. *)
Theorem posting_is_all_or_nothing
    (encode_text : value -> string) (uuid_in : value -> option uuid)
    (env : environment) (d : db) (req_body : value) :
  let o := post_ledger_entries encode_text uuid_in env d req_body in
  (exists entry rows,
     reply o = Some (created entry rows) /\
     committed (db_after o) = add_lines (add_entry (committed d) entry) rows)
  \/
  ((forall r, reply o = Some r -> status r <> 201) /\
   committed (db_after o) = committed d)
  \/
  (exists nls entry rows,
     validation (lines_of req_body) = Next nls /\
     verdict_of env (2 + List.length nls) = Lost true /\
     reply o = Some posting_failed /\
     List.length rows = List.length nls /\
     Forall (row_ok (entry_id entry)) rows /\
     committed (db_after o) = add_lines (add_entry (committed d) entry) rows).
Proof.
  cbv zeta. unfold post_ledger_entries. fold (lines_of req_body).
  destruct (validation _) as [ls|r'|e] eqn:Hv;
    cbn [reply trace db_after client_after].
  - destruct (storage_cases encode_text uuid_in env d
                (get (or_else req_body (VObject [])) "description")
                (get (or_else req_body (VObject [])) "reference_type")
                (get (or_else req_body (VObject [])) "reference_id")
                (get (or_else req_body (VObject [])) "metadata") ls)
      as [_ Ho|entry rows pre s _ Ho _ _ _ _ _ _ Hdb _ _|? ? ? _ Ho _ Hdb _ _
          |entry rows pre s _ Hlost Ho _ (_ & _ & _ & Hst & Hrows & Hdb) _ _].
    + right. left. rewrite Ho. cbn. split; [|reflexivity].
      intros r [= <-]. discriminate.
    + left. exists entry, rows. auto.
    + right. left. split; [|exact Hdb]. rewrite Ho. intros r [= <-].
      discriminate.
    + right. right. exists ls, entry, rows.
      split; [reflexivity|]. split; [exact Hlost|]. split; [exact Ho|].
      split; [symmetry; exact (Forall2_length Hst)|]. auto.
  - right. left. split; [|reflexivity]. intros r [= <-].
    rewrite (validation_return_400 _ _ Hv). discriminate.
  - right. left. split; [discriminate|reflexivity].
Qed.

Lemma alone_text (line : value) (nl : normalized_line) :
  alone line = Next nl ->
  (exists text, to_str (get (or_else line (VObject [])) "direction")
                = Normal text /\
                line_direction nl = toLowerCase text) /\
  (exists text, to_str (get (or_else line (VObject [])) "currency")
                = Normal text /\
                line_currency nl = toUpperCase text) /\
  line_metadata nl
  = or_else (get (or_else line (VObject [])) "metadata") (VObject []).
Proof.
  unfold alone, validate_line.
  cbn [currency loop_start currency_unset normalizedLines app bind].
  destruct (negb (truthy (get (or_else line (VObject [])) "account_id"))
            || negb (truthy (get (or_else line (VObject [])) "direction"))
            || is_nullish (get (or_else line (VObject [])) "amount")
            || negb (truthy (get (or_else line (VObject [])) "currency")));
    [discriminate|].
  destruct (to_str (get (or_else line (VObject [])) "direction"));
    cbn [coerce bind]; [|discriminate].
  destruct (negb (toLowerCase a =? "debit")%string
            && negb (toLowerCase a =? "credit")%string); [discriminate|].
  destruct (to_number (get (or_else line (VObject [])) "amount"));
    cbn [coerce bind]; [|discriminate].
  destruct (negb (Num.isFinite a0) || Num.leb a0 Num.pos_zero);
    [discriminate|].
  destruct (to_str (get (or_else line (VObject [])) "currency"));
    cbn [coerce bind normalizedLines]; [|discriminate].
  intros [= <-]. cbn. eauto 10.
Qed.

Lemma above_zero (x : Num.number) :
  Num.isFinite x = true -> Num.leb x Num.pos_zero = false ->
  Num.ltb Num.pos_zero x = true /\ exists m e, x = S754_finite false m e.
Proof.
  unfold Num.ltb, Num.leb, SFltb, SFleb, Num.pos_zero.
  destruct x as [s|s| |s m e]; cbn; try discriminate.
  destruct s; cbn; try discriminate. eauto.
Qed.

Lemma numeric_36_18_bound (m : positive) (e : Z) (u : Z) :
  numeric_36_18 (S754_finite false m e) = Some u -> u < 10 ^ 36.
Proof.
  unfold numeric_36_18. destruct (Num.shortest m e) as [s n].
  cbv zeta.
  match goal with
  | |- context [if ?b then Some (cond_Zopp false ?v) else None] =>
      destruct b eqn:Hb; [|discriminate]
  end.
  intros [= <-]. cbn [cond_Zopp]. apply Z.ltb_lt. exact Hb.
Qed.

(** X4. What is stored for each line of a posted request, in request
    order: the direction text in lower case, the currency text in upper
    case, the id of an account that existed before the request, and the
    [NUMERIC(36,18)] reading of a finite number above zero, which is at
    least 0 and below [10^36] units of [10^-18] (it can be 0: a positive
    amount below half a unit is stored as zero). *)
Theorem posted_rows_follow_the_request
    (encode_text : value -> string) (uuid_in : value -> option uuid)
    (env : environment) (d : db) (req_body : value)
    (entry : entry_row) (rows : list line_row) :
  reply (post_ledger_entries encode_text uuid_in env d req_body)
  = Some (created entry rows) ->
  exists items,
    lines_of req_body = VArray items /\
    Forall2 (stored_as uuid_in d) items rows.
Proof.
  intros Hr.
  destruct (posted_facts _ _ _ _ _ _ _ Hr)
    as (items & nls & Hl & _ & _ & Hal & Hst & Hres & Hrows & _).
  exists items. split; [exact Hl|].
  clear Hr Hl. revert rows Hst Hres Hrows.
  induction Hal as [|l nl ls ns Ha _ IH]; intros rows Hst Hres Hrows.
  - inversion Hst. constructor.
  - inversion Hst as [|? r ? rs Hone Hrest]; subst.
    inversion Hres as [|? ? Hacc Hres']; subst.
    inversion Hrows as [|? ? Hrow Hrows']; subst.
    constructor; [|apply IH; assumption].
    destruct (alone_fields _ _ Ha) as (Hid & _ & Hn & Hfin & Hle & _).
    destruct (alone_text _ _ Ha) as ((dt & Hdt & Hdir) & (ct & Hct & Hccy) & _).
    destruct Hone as (Hnum & Hu & Hrd & Hrc).
    destruct (above_zero _ Hfin Hle) as (Hpos & m & e & Hx).
    destruct Hrow as (_ & _ & Hnonneg).
    unfold stored_as. cbv zeta.
    split; [exists dt; split; [exact Hdt|congruence]|].
    split; [exists ct; split; [exact Hct|congruence]|].
    split; [congruence|].
    split.
    { unfold resolves in Hacc. rewrite Hu in Hacc. exact Hacc. }
    split; [exists (line_amount nl); auto|].
    split; [exact Hnonneg|].
    rewrite Hx in Hnum. eapply numeric_36_18_bound. exact Hnum.
Qed.

Lemma posted_rows_follow_the_request_witness :
  reply (Sample.post Sample.calm Sample.books balanced_sale)
  = Some (created header balanced_sale_rows) /\
  exists items,
    lines_of balanced_sale = VArray items /\
    Forall2 (stored_as Sample.uuid_in Sample.books) items balanced_sale_rows.
Proof.
  assert (H : reply (Sample.post Sample.calm Sample.books balanced_sale)
              = Some (created header balanced_sale_rows)).
  { vm_compute. reflexivity. }
  split; [exact H|].
  exact (posted_rows_follow_the_request Sample.encode_text Sample.uuid_in
           Sample.calm Sample.books balanced_sale header balanced_sale_rows
           H).
Defined.

(** A positive amount too small for 18 decimals is accepted and stored as
    zero. *)
Example tiny_amount_is_stored_as_zero :
  reply (Sample.post Sample.calm Sample.books
           (Sample.entry
              [Sample.line Sample.cash "debit" (VString "1e-30") "USD";
               Sample.line Sample.sales "credit" (VString "1e-30") "USD"]))
  = Some (created header [row 1 Sample.cash "debit" 0;
                          row 2 Sample.sales "credit" 0]).
Proof. vm_compute. reflexivity. Qed.

Lemma same_currency_throughout (c : string) :
  c <> "" ->
  forall (items : list value) (nls : list normalized_line) (st : loop_state),
    currency st = Some c ->
    Forall2 (fun l nl => alone l = Next nl) items nls ->
    validate_lines items st <> Return same_currency_error ->
    Forall (fun nl => line_currency nl = c) nls.
Proof.
  intros Hne items nls st Hc Hal Hok.
  apply Forall_forall. intros nl Hin.
  destruct (string_dec (line_currency nl) c) as [E|E]; [exact E|].
  exfalso. apply Hok.
  apply (validate_lines_second_currency items st c Hc Hne).
  - intros l Hl. clear - Hal Hl.
    induction Hal as [|x y xs ys H _ IH]; [destruct Hl|].
    destruct Hl as [<-|Hl]; eauto.
  - clear - Hal Hin E.
    induction Hal as [|x y xs ys H _ IH]; [destruct Hin|].
    destruct Hin as [<-|Hin].
    + exists x, y. split; [left; reflexivity|auto].
    + destruct (IH Hin) as (l & n & Hl & Hn). exists l, n.
      split; [right; exact Hl|exact Hn].
Qed.

(** X5. A posted entry has one currency: every row carries the currency of
    the first row, provided that first currency is not the empty string. *)
Theorem posted_entry_has_one_currency
    (encode_text : value -> string) (uuid_in : value -> option uuid)
    (env : environment) (d : db) (req_body : value)
    (entry : entry_row) (first : line_row) (others : list line_row) :
  reply (post_ledger_entries encode_text uuid_in env d req_body)
  = Some (created entry (first :: others)) ->
  row_currency first <> "" ->
  Forall (fun r => row_currency r = row_currency first) (first :: others).
Proof.
  intros Hr Hne.
  destruct (posted_facts _ _ _ _ _ _ _ Hr)
    as (items & nls & _ & _ & Hcur & Hal & Hst & _).
  destruct Hal as [|l0 nl0 ls ns Ha0 Hal]; [inversion Hst|].
  inversion Hst as [|? ? ? ? H0 Hrest]; subst.
  destruct H0 as (_ & _ & _ & Hc0).
  constructor; [reflexivity|].
  assert (Hall : Forall (fun nl => line_currency nl = line_currency nl0) ns).
  { assert (Hne' : line_currency nl0 <> "") by congruence.
    apply (same_currency_throughout _ Hne' ls ns
             (push loop_start nl0 (Some (line_currency nl0))));
      [reflexivity|exact Hal|].
    revert Hcur. cbn [validate_lines]. rewrite validate_line_alone, Ha0.
    cbn [loop_start currency currency_unset bind]. auto. }
  clear - Hall Hrest Hc0. revert others Hrest.
  induction Hall as [|n ns' Hn _ IH]; intros others Hrest;
    inversion Hrest as [|? r ? rs Hone Hmore]; subst; constructor.
  - destruct Hone as (_ & _ & _ & Hc). congruence.
  - apply IH. exact Hmore.
Qed.

Lemma posted_entry_has_one_currency_witness :
  reply (Sample.post Sample.calm Sample.books balanced_sale)
  = Some (created header
            (row 1 Sample.cash "debit" (100 * 10 ^ 18)
             :: [row 2 Sample.sales "credit" (100 * 10 ^ 18)])) /\
  row_currency (row 1 Sample.cash "debit" (100 * 10 ^ 18)) <> "" /\
  Forall (fun r => row_currency r
                   = row_currency (row 1 Sample.cash "debit" (100 * 10 ^ 18)))
         (row 1 Sample.cash "debit" (100 * 10 ^ 18)
          :: [row 2 Sample.sales "credit" (100 * 10 ^ 18)]).
Proof.
  assert (H : reply (Sample.post Sample.calm Sample.books balanced_sale)
              = Some (created header
                        (row 1 Sample.cash "debit" (100 * 10 ^ 18)
                         :: [row 2 Sample.sales "credit" (100 * 10 ^ 18)]))).
  { vm_compute. reflexivity. }
  assert (Hne : row_currency (row 1 Sample.cash "debit" (100 * 10 ^ 18))
                <> "").
  { simpl. discriminate. }
  split; [exact H|]. split; [exact Hne|].
  exact (posted_entry_has_one_currency Sample.encode_text Sample.uuid_in
           Sample.calm Sample.books balanced_sale header _ _ H Hne).
Defined.

(** X6. The same-currency check is switched off by an empty currency.
    When the first line of a two-line request normalizes to the empty
    currency (its [currency] is a truthy value whose string is empty, such
    as the empty array), the second line may carry any currency: if the
    two amounts balance, validation passes with both lines. *)
Theorem empty_currency_disables_the_check
    (l1 l2 : value) (nl1 nl2 : normalized_line) :
  alone l1 = Next nl1 ->
  alone l2 = Next nl2 ->
  line_currency nl1 = "" ->
  Num.eqb (rounded (float_total "debit" [nl1; nl2] Num.pos_zero))
          (rounded (float_total "credit" [nl1; nl2] Num.pos_zero)) = true ->
  validation (VArray [l1; l2]) = Next [nl1; nl2].
Proof.
  intros H1 H2 Hc Hbal. unfold validation. cbn [List.length Nat.ltb Nat.leb].
  cbn [validate_lines]. rewrite validate_line_alone, H1.
  cbn [loop_start currency currency_unset bind].
  rewrite validate_line_alone, H2.
  cbn [push currency]. rewrite Hc. cbn [currency_unset String.eqb bind].
  unfold balance_check.
  cbn [push totalDebits totalCredits normalizedLines loop_start app].
  destruct (alone_fields _ _ H1) as (_ & [D1|D1] & _);
    destruct (alone_fields _ _ H2) as (_ & [D2|D2] & _);
    revert Hbal; unfold float_total; cbn [filter map fold_left];
    rewrite D1, D2; cbn [String.eqb Ascii.eqb Bool.eqb filter map fold_left];
    intros ->; reflexivity.
Qed.

Lemma empty_currency_disables_the_check_witness :
  alone no_currency_line = Next no_currency_normal /\
  alone euro_line = Next euro_normal /\
  line_currency no_currency_normal = "" /\
  validation (VArray [no_currency_line; euro_line])
  = Next [no_currency_normal; euro_normal].
Proof.
  assert (H1 : alone no_currency_line = Next no_currency_normal).
  { vm_compute. reflexivity. }
  assert (H2 : alone euro_line = Next euro_normal).
  { vm_compute. reflexivity. }
  split; [exact H1|]. split; [exact H2|]. split; [reflexivity|].
  apply (empty_currency_disables_the_check _ _ _ _ H1 H2 eq_refl).
  vm_compute. reflexivity.
Defined.

Lemma has_entry_In (t : tables) (id : uuid) :
  has_entry t id = true <-> In id (map entry_id (ledger_entries t)).
Proof.
  unfold has_entry. rewrite existsb_exists, in_map_iff. split.
  - intros (e & He & Heq). apply String.eqb_eq in Heq. eauto.
  - intros (e & Heq & He). exists e. split; [exact He|].
    apply String.eqb_eq. exact Heq.
Qed.

Lemma has_account_In (t : tables) (id : uuid) :
  has_account t id = true <-> In id (map acct_id (accounts t)).
Proof.
  unfold has_account. rewrite existsb_exists, in_map_iff. split.
  - intros (e & He & Heq). apply String.eqb_eq in Heq. eauto.
  - intros (e & Heq & He). exists e. split; [exact He|].
    apply String.eqb_eq. exact Heq.
Qed.

Lemma NoDup_snoc {A} (l : list A) (x : A) :
  NoDup l -> ~ In x l -> NoDup (l ++ [x]).
Proof.
  induction 1 as [|y l Hy Hl IH]; intros Hx; cbn.
  - constructor; [intros []|constructor].
  - constructor.
    + rewrite in_app_iff. intros [H|[H|[]]]; [auto|].
      apply Hx. left. symmetry. exact H.
    + apply IH. intros H. apply Hx. right. exact H.
Qed.

Lemma line_ok_grows (t t' : tables) (r : line_row) :
  accounts t' = accounts t ->
  (forall id, has_entry t id = true -> has_entry t' id = true) ->
  line_ok t r -> line_ok t' r.
Proof.
  intros Ha He (H1 & H2 & H3 & H4). unfold line_ok.
  rewrite (has_account_accounts t' t _ Ha). auto.
Qed.

(** The rows of a committed posting name accounts the store already
    had. *)
Lemma posted_rows_accounts (uuid_in : value -> option uuid)
    (env : environment) (d : db) (nls : list normalized_line)
    (entry : entry_row) (rows : list line_row) (seen : tables) :
  posted uuid_in env d nls entry rows seen ->
  Forall (fun r => has_account (committed d) (row_account_id r) = true) rows.
Proof.
  intros (_ & _ & Hres & Hst & _).
  revert Hres.
  induction Hst as [|nl r ns rs Hone _ IH]; intros Hres; constructor.
  - inversion Hres as [|? ? Hacc _]; subst.
    destruct Hone as (_ & Hu & _). unfold resolves in Hacc.
    rewrite Hu in Hacc. exact Hacc.
  - apply IH. inversion Hres; assumption.
Qed.

(** What readers see after a posting request, whatever its outcome. *)
Lemma committed_after_posting (encode_text : value -> string)
    (uuid_in : value -> option uuid) (env : environment) (d : db)
    (req_body : value) :
  let o := post_ledger_entries encode_text uuid_in env d req_body in
  committed (db_after o) = committed d \/
  exists nls entry rows,
    posted uuid_in env d nls entry rows (committed (db_after o)).
Proof.
  cbv zeta. unfold post_ledger_entries.
  destruct (validation _) as [ls|r'|e] eqn:Hv; cbn [reply db_after]; auto.
  destruct (storage_cases encode_text uuid_in env d
              (get (or_else req_body (VObject [])) "description")
              (get (or_else req_body (VObject [])) "reference_type")
              (get (or_else req_body (VObject [])) "reference_id")
              (get (or_else req_body (VObject [])) "metadata") ls)
    as [_ Ho|entry rows pre s _ Ho Htr Hid Hnew Hres Hst Hent Hdb _ _
        |? ? ? _ Ho _ Hdb _ _|entry rows pre s _ _ _ _ Hp _ _].
  - left. rewrite Ho. reflexivity.
  - right. exists ls, entry, rows. unfold posted.
    split; [exact Hid|]. split; [exact Hnew|]. split; [exact Hres|].
    split; [exact Hst|]. split; [|exact Hdb].
    (* the rows of a 201 are rows the line INSERTs returned *)
    revert Ho. unfold storage.
    destruct (negb (connect_ok env)); [discriminate|].
    destruct (transaction _ _ _ _ _ _ _ _ _) as [r c] eqn:Hrun.
    apply transaction_trace in Hrun. cbv zeta in Hrun.
    destruct r as [[e rs]|].
    + unfold finish. cbn [reply]. intros [= <- <-]. apply Hrun.
    + destruct (query _ _ _ ROLLBACK c). unfold finish. cbn [reply].
      discriminate.
  - left. exact Hdb.
  - right. exists ls, entry, rows. exact Hp.
Qed.

(** X7. Posting keeps the constraints of the schema.  If the tables
    readers see satisfy them (entry ids, account ids and account codes
    without duplicates; every line on an existing entry and an existing
    account, with a direction of the enum and a non-negative amount), they
    still do after any posting request, whatever its outcome. *)
Theorem posting_keeps_the_schema
    (encode_text : value -> string) (uuid_in : value -> option uuid)
    (env : environment) (d : db) (req_body : value) :
  schema_ok (committed d) ->
  schema_ok (committed (db_after (post_ledger_entries encode_text uuid_in
                                    env d req_body))).
Proof.
  intros Hok.
  destruct (committed_after_posting encode_text uuid_in env d req_body)
    as [->|(nls & entry & rows & Hp)]; [exact Hok|].
  pose proof (posted_rows_accounts _ _ _ _ _ _ _ Hp) as Hacc.
  destruct Hp as (_ & Hnew & _ & _ & Hrows & ->).
  destruct Hok as (He & Ha & Hc & Hl).
  unfold schema_ok.
  cbn [add_lines add_entry accounts ledger_entries ledger_lines].
  split; [|split; [exact Ha|split; [exact Hc|]]].
  - rewrite map_app. cbn [map]. apply NoDup_snoc; [exact He|].
    intros Hin. apply has_entry_In in Hin. congruence.
  - assert (Hgrow : forall id,
               has_entry (committed d) id = true ->
               has_entry (add_lines (add_entry (committed d) entry) rows) id
               = true).
    { intros id H. apply has_entry_In.
      cbn [add_lines add_entry ledger_entries]. rewrite map_app, in_app_iff.
      left. apply has_entry_In. exact H. }
    apply Forall_app. split.
    + eapply Forall_impl; [|exact Hl]. intros r Hr0.
      eapply line_ok_grows; [| |exact Hr0]; [reflexivity|exact Hgrow].
    + clear - Hrows Hacc. induction Hrows as [|r rs (Hid & Hdir & Hamt) _ IH];
        [constructor|].
      inversion Hacc as [|? ? Hacc1 Hacc']; subst.
      constructor; [|apply IH; exact Hacc'].
      unfold line_ok. split; [|split; [|split; assumption]].
      * apply has_entry_In. cbn [add_lines add_entry ledger_entries].
        rewrite map_app, in_app_iff. right. left. symmetry. exact Hid.
      * exact Hacc1.
Qed.

Lemma posting_keeps_the_schema_witness :
  schema_ok (committed Sample.books) /\
  schema_ok (committed (db_after (Sample.post Sample.calm Sample.books
                                    balanced_sale))).
Proof.
  split; [exact schema_ok_books|].
  exact (posting_keeps_the_schema Sample.encode_text Sample.uuid_in
           Sample.calm Sample.books balanced_sale schema_ok_books).
Defined.

(* ====================================================================== *)
(** ** The account route *)
(* ====================================================================== *)

Lemma skip_space_nil (l : list ascii) :
  Num.skip_space l = [] <-> Forall (fun c => Num.is_space c = true) l.
Proof.
  induction l as [|c l IH]; cbn.
  - split; [constructor|reflexivity].
  - destruct (Num.is_space c) eqn:Hc.
    + rewrite IH. split; [intros H; constructor; assumption|].
      intros H. inversion H; assumption.
    + split; [discriminate|]. intros H. inversion H; congruence.
Qed.

Lemma skip_space_visible (l : list ascii) :
  Exists (fun c => Num.is_space c = false) (Num.skip_space l)
  <-> Exists (fun c => Num.is_space c = false) l.
Proof.
  induction l as [|c l IH]; cbn; [reflexivity|].
  destruct (Num.is_space c) eqn:Hc; [|reflexivity].
  rewrite IH. split; [intros H; right; exact H|].
  intros H. inversion H; [congruence|assumption].
Qed.

Lemma trim_nil (l : list ascii) :
  Num.trim l = [] <-> Forall (fun c => Num.is_space c = true) l.
Proof.
  unfold Num.trim.
  assert (Hall : forall k : list ascii,
             Forall (fun c => Num.is_space c = true) k
             <-> ~ Exists (fun c => Num.is_space c = false) k).
  { intros k. rewrite <- Forall_Exists_neg. split; apply Forall_impl;
      intros a; destruct (Num.is_space a); congruence. }
  split.
  - intros H. apply (f_equal (@rev ascii)) in H. rewrite rev_involutive in H.
    cbn in H. apply skip_space_nil in H. apply Hall. intros Hex.
    apply skip_space_visible in Hex.
    apply Hall in H. apply H. apply Exists_exists in Hex.
    destruct Hex as (c & Hin & Hc). apply Exists_exists. exists c.
    split; [apply in_rev in Hin; exact Hin|exact Hc].
  - intros H.
    assert (Hs : Forall (fun c => Num.is_space c = true)
                        (rev (Num.skip_space l))).
    { apply Hall. intros Hex. apply Exists_exists in Hex.
      destruct Hex as (c & Hin & Hc). apply in_rev in Hin.
      apply Hall in H. apply H. apply skip_space_visible.
      apply Exists_exists. eauto. }
    apply skip_space_nil in Hs. rewrite Hs. reflexivity.
Qed.

Lemma length_string_of_list (l : list ascii) :
  String.length (string_of_list_ascii l) = List.length l.
Proof. induction l; cbn; congruence. Qed.

(** After trimming, something is left exactly when the string has a
    character that is not white space. *)
Lemma trim_visible (s : string) :
  (0 <? String.length (trim s))%nat = true <-> has_visible_char s.
Proof.
  unfold has_visible_char, trim. rewrite length_string_of_list.
  rewrite Nat.ltb_lt. rewrite <- Exists_exists.
  pose proof (trim_nil (list_ascii_of_string s)) as Ht.
  split.
  - intros Hlen.
    assert (Hnot : ~ Forall (fun c => Num.is_space c = true)
                            (list_ascii_of_string s)).
    { intros Hall. apply Ht in Hall. rewrite Hall in Hlen. cbn in Hlen.
      lia. }
    apply neg_Forall_Exists_neg in Hnot.
    + eapply Exists_impl; [|exact Hnot]. intros a Ha.
      cbv beta in Ha. destruct (Num.is_space a) eqn:E;
        [exfalso; apply Ha; reflexivity|reflexivity].
    + intros c. destruct (Num.is_space c); [left|right]; congruence.
  - intros Hex.
    assert (Hne : Num.trim (list_ascii_of_string s) <> []).
    { intros E. apply Ht in E. apply Exists_exists in Hex.
      destruct Hex as (c & Hin & Hc). rewrite Forall_forall in E.
      rewrite (E c Hin) in Hc. discriminate. }
    destruct (Num.trim (list_ascii_of_string s));
      [congruence|cbn; lia].
Qed.

(** X8. [isNonEmptyString] accepts exactly the strings that have a
    character other than white space: every other value, the empty string
    and a string of blanks, tabs or line breaks are refused. *)
Theorem isNonEmptyString_iff (v : value) :
  isNonEmptyString v = true <->
  exists s, v = VString s /\ has_visible_char s.
Proof.
  unfold isNonEmptyString.
  destruct v; try (split; [discriminate|intros (s0 & H & _); discriminate]).
  rewrite trim_visible. split.
  - intros H. exists s. auto.
  - intros (s0 & [= <-] & H). exact H.
Qed.

Lemma text_or_null_param (encode_text : value -> string) (v : value) :
  text_or_null encode_text (or_else v VNull)
  = if truthy v then Some (encode_text v) else None.
Proof.
  unfold text_or_null, or_else. destruct (truthy v) eqn:Ht; [|reflexivity].
  rewrite (truthy_not_nullish v Ht). reflexivity.
Qed.

(** What the server makes of the [INSERT] of the account handler when it
    reaches it: the constraints of the table refuse it, or it adds the row
    the request describes. *)
Lemma serve_insert_account (encode_text : value -> string)
    (uuid_in : value -> option uuid) (env : environment) (d : db)
    (fields : value) :
  let stmt := INSERT_INTO_accounts
                (get fields "name")
                (or_else (get fields "code") VNull)
                (or_else (get fields "description") VNull)
                (or_else (get fields "currency") VNull)
                (or_else (get fields "owner_group_id") VNull)
                (or_else (get fields "owner_user_id") VNull)
                (or_else (get fields "metadata") (VObject [])) in
  let out := serve encode_text uuid_in false (gen_random_uuid env) (now env)
               stmt d fresh_session in
  out = (None, d, fresh_session)
  \/
  exists row,
    out = (Some (AccountRows row), add_account d row, fresh_session) /\
    acct_id row = gen_random_uuid env /\
    has_account (committed d) (acct_id row) = false /\
    acct_name row = encode_text (get fields "name") /\
    acct_code row = (if truthy (get fields "code")
                     then Some (encode_text (get fields "code"))
                     else None) /\
    (forall c, acct_code row = Some c -> has_code (committed d) c = false) /\
    acct_currency row = (if truthy (get fields "currency")
                         then encode_text (get fields "currency")
                         else "USD") /\
    acct_is_active row = true /\
    acct_created_at row = now env.
Proof.
  cbv zeta. unfold serve, fresh_session. cbn [tx_failed].
  unfold run_insert, with_rows, insert_account, view, write. cbn [tx].
  rewrite !text_or_null_param.
  destruct (is_nullish (get fields "name")
            || has_account (committed d) (gen_random_uuid env)
            || negb match (if truthy (get fields "code")
                           then Some (encode_text (get fields "code"))
                           else None) with
                    | Some c => negb (has_code (committed d) c)
                    | None => true
                    end) eqn:Hchk.
  - left. unfold fail_statement. cbn. destruct d. reflexivity.
  - right.
    apply orb_false_iff in Hchk. destruct Hchk as [Hchk Hcode].
    apply orb_false_iff in Hchk. destruct Hchk as [_ Hid].
    eexists. cbn. split; [reflexivity|].
    split; [reflexivity|]. split; [exact Hid|].
    split; [reflexivity|]. split; [reflexivity|].
    split.
    { intros c Hc. cbn [acct_code] in Hc. rewrite Hc in Hcode.
      apply negb_false_iff in Hcode. apply negb_true_iff in Hcode.
      exact Hcode. }
    split; [|split; reflexivity].
    destruct (truthy (get fields "currency")); reflexivity.
Qed.

(** The ways the account handler can end: without a valid name; with a
    500 and the store as it was; with a 201 and one more account; with a
    500 and one more account, when the server applied the [INSERT] and its
    acknowledgement was lost. *)
Lemma post_accounts_cases (encode_text : value -> string)
    (uuid_in : value -> option uuid) (env : environment) (d : db)
    (req_body : value) :
  let o := post_accounts encode_text uuid_in env d req_body in
  let fields := or_else req_body (VObject []) in
  (isNonEmptyString (get fields "name") = false /\
   o = {| reply := Some name_required; trace := [Respond name_required];
          db_after := d; client_after := None |})
  \/
  (isNonEmptyString (get fields "name") = true /\
   reply o = Some account_failed /\ db_after o = d /\
   exists stmt, trace o = [Query stmt false; Respond account_failed])
  \/
  (isNonEmptyString (get fields "name") = true /\
   exists row,
     reply o = Some (account_created row) /\
     (exists stmt, trace o = [Query stmt true;
                              Respond (account_created row)]) /\
     db_after o = add_account d row /\
     verdict_of env O = Healthy /\
     acct_id row = gen_random_uuid env /\
     has_account (committed d) (acct_id row) = false /\
     acct_name row = encode_text (get fields "name") /\
     acct_code row = (if truthy (get fields "code")
                      then Some (encode_text (get fields "code"))
                      else None) /\
     (forall c, acct_code row = Some c -> has_code (committed d) c = false) /\
     acct_currency row = (if truthy (get fields "currency")
                          then encode_text (get fields "currency")
                          else "USD") /\
     acct_is_active row = true /\
     acct_created_at row = now env)
  \/
  (isNonEmptyString (get fields "name") = true /\
   exists row,
     reply o = Some account_failed /\
     (exists stmt, trace o = [Query stmt false; Respond account_failed]) /\
     db_after o = add_account d row /\
     verdict_of env O = Lost true /\
     acct_id row = gen_random_uuid env /\
     has_account (committed d) (acct_id row) = false /\
     acct_name row = encode_text (get fields "name") /\
     acct_code row = (if truthy (get fields "code")
                      then Some (encode_text (get fields "code"))
                      else None) /\
     (forall c, acct_code row = Some c -> has_code (committed d) c = false) /\
     acct_currency row = (if truthy (get fields "currency")
                          then encode_text (get fields "currency")
                          else "USD") /\
     acct_is_active row = true /\
     acct_created_at row = now env).
Proof.
  cbv zeta. unfold post_accounts.
  destruct (isNonEmptyString _) eqn:Hname; cbn [negb]; [|left; auto].
  right.
  pose proof (serve_insert_account encode_text uuid_in env d
                (or_else req_body (VObject []))) as Hs.
  cbv zeta in Hs.
  unfold exec. cbn [fresh_session connected negb]. fold fresh_session.
  destruct (verdict_of env 0) as [| |[|]] eqn:Hv.
  - destruct Hs as [->|(row & -> & Hrow)]; cbn [reply db_after trace].
    + left. split; [reflexivity|]. split; [reflexivity|].
      split; [reflexivity|]. eexists. reflexivity.
    + right. left. split; [reflexivity|]. exists row.
      split; [reflexivity|]. split; [eexists; reflexivity|].
      split; [reflexivity|]. split; [reflexivity|]. exact Hrow.
  - left. unfold serve, fail_statement. cbn. split; [reflexivity|].
    split; [reflexivity|]. split; [reflexivity|]. eexists. reflexivity.
  - destruct Hs as [->|(row & -> & Hrow)]; cbn [reply db_after trace fst snd].
    + left. split; [reflexivity|]. split; [reflexivity|].
      split; [reflexivity|]. eexists. reflexivity.
    + right. right. split; [reflexivity|]. exists row.
      split; [reflexivity|]. split; [eexists; reflexivity|].
      split; [reflexivity|]. split; [reflexivity|]. exact Hrow.
  - left. split; [reflexivity|]. split; [reflexivity|].
    split; [reflexivity|]. eexists. reflexivity.
Qed.

Lemma isNonEmptyString_false (v : value) :
  (~ exists s, v = VString s /\ has_visible_char s) ->
  isNonEmptyString v = false.
Proof.
  intros Hno. unfold isNonEmptyString. destruct v; try reflexivity.
  destruct (0 <? String.length (trim s))%nat eqn:Hlen; [|reflexivity].
  exfalso. apply Hno. exists s. split; [reflexivity|].
  apply trim_visible. exact Hlen.
Qed.

(** X9. An account request whose [name] is absent, not a string, empty or
    made of white space only is answered 400 "name is required"; nothing is
    sent to the store, which stays as it was. *)
Theorem account_without_name_is_refused
    (encode_text : value -> string) (uuid_in : value -> option uuid)
    (env : environment) (d : db) (req_body : value) :
  (~ exists s, get (or_else req_body (VObject [])) "name" = VString s
               /\ has_visible_char s) ->
  post_accounts encode_text uuid_in env d req_body
  = {| reply := Some name_required; trace := [Respond name_required];
       db_after := d; client_after := None |}.
Proof.
  intros Hno. apply isNonEmptyString_false in Hno.
  destruct (post_accounts_cases encode_text uuid_in env d req_body)
    as [[_ H]|[[H _]|[[H _]|[H _]]]];
    [exact H|congruence|congruence|congruence].
Qed.

Lemma account_without_name_is_refused_witness :
  post_accounts Sample.encode_text Sample.uuid_in Sample.calm Sample.books
    (VObject [("name", VString "  "); ("code", VString "1010")])
  = {| reply := Some name_required; trace := [Respond name_required];
       db_after := Sample.books; client_after := None |}.
Proof.
  apply (account_without_name_is_refused Sample.encode_text Sample.uuid_in
           Sample.calm Sample.books
           (VObject [("name", VString "  "); ("code", VString "1010")])).
  intros (s & Hs & c & Hin & Hc). cbn in Hs. injection Hs as <-.
  cbn in Hin. destruct Hin as [<-|[<-|[]]]; discriminate Hc.
Defined.

(** X10. What a 201 of the account route says about the row and the
    store: the row is the one account added to the store, it is active,
    its id is new, its name is the text of a [name] with a visible
    character, its code is the text of [code] or NULL when [code] is falsy,
    and then no other account has that code, and its currency is the text
    of [currency] or USD when [currency] is falsy. *)
Theorem created_account_follows_the_request
    (encode_text : value -> string) (uuid_in : value -> option uuid)
    (env : environment) (d : db) (req_body : value) (row : account_row) :
  let fields := or_else req_body (VObject []) in
  let o := post_accounts encode_text uuid_in env d req_body in
  reply o = Some (account_created row) ->
  db_after o = add_account d row /\
  acct_is_active row = true /\
  has_account (committed d) (acct_id row) = false /\
  (exists s, get fields "name" = VString s /\ has_visible_char s /\
             acct_name row = encode_text (VString s)) /\
  acct_code row = (if truthy (get fields "code")
                   then Some (encode_text (get fields "code"))
                   else None) /\
  (forall c, acct_code row = Some c -> has_code (committed d) c = false) /\
  acct_currency row = (if truthy (get fields "currency")
                       then encode_text (get fields "currency")
                       else "USD").
Proof.
  cbv zeta. intros Hr.
  destruct (post_accounts_cases encode_text uuid_in env d req_body)
    as [[_ H]|[(_ & H & _)|[(Hname & row' & H & _ & Hdb & _ & _ & Hid & Hn
                             & Hcode & Hfree & Hcur & Hact & _)
                           |(_ & row' & H & _)]]].
  4: { rewrite H in Hr. discriminate Hr. }
  - rewrite H in Hr. discriminate Hr.
  - rewrite H in Hr. discriminate Hr.
  - rewrite H in Hr. injection Hr as <-.
    split; [exact Hdb|]. split; [exact Hact|]. split; [exact Hid|].
    split.
    { unfold isNonEmptyString in Hname.
      destruct (get (or_else req_body (VObject [])) "name")
        as [| | | |s| |] eqn:E; try discriminate Hname.
      exists s. split; [reflexivity|]. split; [|exact Hn].
      apply trim_visible. exact Hname. }
    split; [exact Hcode|]. split; [exact Hfree|exact Hcur].
Qed.

Lemma created_account_follows_the_request_witness :
  reply (post_accounts Sample.encode_text Sample.uuid_in Sample.calm
           Sample.books new_bank_account)
  = Some (account_created bank_row) /\
  db_after (post_accounts Sample.encode_text Sample.uuid_in Sample.calm
              Sample.books new_bank_account)
  = add_account Sample.books bank_row.
Proof.
  assert (H : reply (post_accounts Sample.encode_text Sample.uuid_in
                       Sample.calm Sample.books new_bank_account)
              = Some (account_created bank_row)) by (vm_compute; reflexivity).
  split; [exact H|].
  exact (proj1 (created_account_follows_the_request Sample.encode_text
                  Sample.uuid_in Sample.calm Sample.books new_bank_account
                  bank_row H)).
Defined.

Lemma add_account_changes (d : db) (row : account_row) :
  add_account d row <> d.
Proof.
  intros Heq.
  apply (f_equal (fun x => List.length (accounts (committed x)))) in Heq.
  cbn in Heq. rewrite length_app in Heq. cbn in Heq. lia.
Qed.

(** X11. The account route answers every request, once, with 201, 400 or
    500.  A 201 carries the one account that was added to the store, and a
    400 leaves every table as it was.  A 500 leaves every table as it was
    too, unless the server applied the [INSERT] and its acknowledgement
    was lost: the store then holds one more account although the caller
    was told that the creation failed.  So the store has changed exactly
    when the answer is 201 or such an acknowledgement was lost. *)
Theorem account_store_changes_on_201_or_lost_acknowledgement
    (encode_text : value -> string) (uuid_in : value -> option uuid)
    (env : environment) (d : db) (req_body : value) :
  let o := post_accounts encode_text uuid_in env d req_body in
  exists r,
    reply o = Some r /\
    filter (fun e => match e with Respond _ => true | _ => false end)
           (trace o) = [Respond r] /\
    In (status r) [201; 400; 500] /\
    (status r = 201 ->
     exists row, r = account_created row /\ db_after o = add_account d row) /\
    (status r = 400 -> db_after o = d) /\
    (status r = 500 ->
     db_after o = d \/
     (verdict_of env O = Lost true /\
      exists row, db_after o = add_account d row /\
                  acct_id row = gen_random_uuid env)) /\
    (db_after o <> d <->
     status r = 201 \/
     (status r = 500 /\ verdict_of env O = Lost true /\
      exists row, db_after o = add_account d row)).
Proof.
  cbv zeta.
  destruct (post_accounts_cases encode_text uuid_in env d req_body)
    as [[_ H]|[(_ & H & Hdb & stmt & Ht)
              |[(_ & row & H & (stmt & Ht) & Hdb & _)
               |(_ & row & H & (stmt & Ht) & Hdb & Hv & Hid & _)]]].
  - rewrite H. exists name_required. cbn.
    split; [reflexivity|]. split; [reflexivity|]. split; [auto|].
    split; [discriminate|]. split; [reflexivity|]. split; [discriminate|].
    split; [intros Hne; exfalso; apply Hne; reflexivity|].
    intros [Hs|(Hs & _)]; discriminate Hs.
  - exists account_failed. rewrite H, Ht, Hdb. cbn.
    split; [reflexivity|]. split; [reflexivity|]. split; [auto|].
    split; [discriminate|]. split; [discriminate|]. split; [auto|].
    split; [intros Hne; exfalso; apply Hne; reflexivity|].
    intros [Hs|(_ & _ & row & Hrow)]; [discriminate Hs|].
    exfalso. exact (add_account_changes d row (eq_sym Hrow)).
  - exists (account_created row). rewrite H, Ht, Hdb. cbn.
    split; [reflexivity|]. split; [reflexivity|]. split; [auto|].
    split; [eauto|]. split; [discriminate|]. split; [discriminate|].
    split; [auto|]. intros _. apply add_account_changes.
  - exists account_failed. rewrite H, Ht, Hdb. cbn.
    split; [reflexivity|]. split; [reflexivity|]. split; [auto|].
    split; [discriminate|]. split; [discriminate|].
    split; [intros _; right; eauto|].
    split; [intros _; right; eauto|]. intros _. apply add_account_changes.
Qed.

(** The request for a third account, applied by the server and answered
    as a failure because the acknowledgement of the [INSERT] was lost. *)
Example account_created_but_reported_failed :
  let o := post_accounts Sample.encode_text Sample.uuid_in
             (Sample.unacknowledged_at 0) Sample.books new_bank_account in
  reply o = Some account_failed /\
  db_after o = add_account Sample.books bank_row.
Proof. cbv zeta. split; vm_compute; reflexivity. Qed.

Lemma codes_of_app (l k : list account_row) :
  codes_of (l ++ k) = (codes_of l ++ codes_of k)%list.
Proof.
  induction l as [|a l IH]; cbn; [reflexivity|].
  destruct (acct_code a); cbn; congruence.
Qed.

Lemma has_code_In (t : tables) (c : string) :
  has_code t c = true <-> In c (codes_of (accounts t)).
Proof.
  unfold has_code. induction (accounts t) as [|a l IH]; cbn.
  - split; [discriminate|intros []].
  - destruct (acct_code a) as [c'|]; cbn.
    + rewrite orb_true_iff, IH, String.eqb_eq. reflexivity.
    + exact IH.
Qed.

Lemma schema_ok_add_account (d : db) (row : account_row) :
  schema_ok (committed d) ->
  has_account (committed d) (acct_id row) = false ->
  (forall c, acct_code row = Some c -> has_code (committed d) c = false) ->
  schema_ok (committed (add_account d row)).
Proof.
  intros Hok Hid Hfree.
  destruct Hok as (He & Ha & Hc & Hl). unfold schema_ok, add_account.
  cbn [committed accounts ledger_entries ledger_lines].
  split; [exact He|]. split; [|split].
  - rewrite map_app. cbn [map]. apply NoDup_snoc; [exact Ha|].
    intros Hin. apply has_account_In in Hin. congruence.
  - rewrite codes_of_app. cbn [codes_of].
    destruct (acct_code row) as [c|] eqn:Hcode.
    + apply NoDup_snoc; [exact Hc|]. intros Hin. apply has_code_In in Hin.
      rewrite (Hfree c eq_refl) in Hin. discriminate Hin.
    + rewrite app_nil_r. exact Hc.
  - eapply Forall_impl; [|exact Hl]. intros r (H1 & H2 & H3).
    unfold line_ok. split; [exact H1|]. split; [|exact H3].
    apply has_account_In. cbn [accounts]. rewrite map_app, in_app_iff.
    left. apply has_account_In. exact H2.
Qed.

(** X12. Creating an account keeps the constraints of the schema: after
    any account request, whatever its outcome, account ids and account
    codes are still without duplicates and every ledger line is still on an
    existing entry and an existing account. *)
Theorem account_creation_keeps_the_schema
    (encode_text : value -> string) (uuid_in : value -> option uuid)
    (env : environment) (d : db) (req_body : value) :
  schema_ok (committed d) ->
  schema_ok (committed (db_after (post_accounts encode_text uuid_in env d
                                    req_body))).
Proof.
  intros Hok.
  destruct (post_accounts_cases encode_text uuid_in env d req_body)
    as [[_ ->]|[(_ & _ & -> & _)
              |[(_ & row & _ & _ & -> & _ & _ & Hid & _ & _ & Hfree & _)
               |(_ & row & _ & _ & -> & _ & _ & Hid & _ & _ & Hfree & _)]]];
    [exact Hok|exact Hok| |];
    apply schema_ok_add_account; assumption.
Qed.

Lemma account_creation_keeps_the_schema_witness :
  schema_ok (committed Sample.books) /\
  schema_ok (committed (db_after (post_accounts Sample.encode_text
                                    Sample.uuid_in Sample.calm Sample.books
                                    new_bank_account))).
Proof.
  split; [exact schema_ok_books|].
  apply (account_creation_keeps_the_schema Sample.encode_text Sample.uuid_in
           Sample.calm Sample.books new_bank_account).
  exact schema_ok_books.
Defined.



(* ====================================================================== *)
(** ** Rounding an integer to a number *)
(* ====================================================================== *)

(** A right shift never lowers the exponent, and reaches the target. *)
Lemma shr_exponent (mrs : shr_record) (e n : Z) :
  e <= snd (shr mrs e n) /\ e + n <= snd (shr mrs e n).
Proof. unfold shr. destruct n; cbn [snd]; lia. Qed.

(** The shape of a rounded value: the sign is kept and the exponent is at
    least the one the format gives to a value of that size. *)
Lemma binary_round_aux_shape (sx : bool) (mx ex : Z) (lx : location) :
  match binary_round_aux Num.prec Num.emax sx mx ex lx with
  | S754_finite s _ e =>
      s = sx /\ fexp Num.prec Num.emax (Zdigits2 mx + ex) <= e
  | S754_zero s | S754_infinity s => s = sx
  | S754_nan => True
  end.
Proof.
  unfold binary_round_aux, shr_fexp.
  pose proof (shr_exponent (shr_record_of_loc mx lx) ex
                (fexp Num.prec Num.emax (Zdigits2 mx + ex) - ex)) as [_ H1].
  destruct (shr (shr_record_of_loc mx lx) ex
              (fexp Num.prec Num.emax (Zdigits2 mx + ex) - ex))
    as [mrs' e'] eqn:E1.
  cbn [snd] in H1.
  set (m1 := round_nearest_even (shr_m mrs') (loc_of_shr_record mrs')).
  pose proof (shr_exponent (shr_record_of_loc m1 loc_Exact) e'
                (fexp Num.prec Num.emax (Zdigits2 m1 + e') - e')) as [H2 _].
  destruct (shr (shr_record_of_loc m1 loc_Exact) e'
              (fexp Num.prec Num.emax (Zdigits2 m1 + e') - e'))
    as [mrs'' e''] eqn:E2.
  cbn [snd] in H2.
  destruct (shr_m mrs''); [reflexivity| |exact I].
  destruct (e'' <=? Num.emax - Num.prec); [|reflexivity].
  split; [reflexivity|lia].
Qed.

Lemma digits2_pos_iter (d m : positive) :
  digits2_pos (Pos.iter xO m d) = (digits2_pos m + d)%positive.
Proof.
  induction d as [|d IH] using Pos.peano_ind.
  - cbn. lia.
  - rewrite Pos.iter_succ. cbn [digits2_pos]. rewrite IH. lia.
Qed.

Lemma binary_round_shape (sx : bool) (mx : positive) (ex : Z) :
  match binary_round Num.prec Num.emax sx mx ex with
  | S754_finite s _ e =>
      s = sx /\ Zpos (digits2_pos mx) + ex - Num.prec <= e
  | S754_zero s | S754_infinity s => s = sx
  | S754_nan => True
  end.
Proof.
  unfold binary_round, shl_align.
  set (ex' := fexp Num.prec Num.emax (Zpos (digits2_pos mx) + ex)).
  assert (Hfexp : Zpos (digits2_pos mx) + ex - Num.prec <= ex')
    by (unfold ex', fexp; lia).
  destruct (ex' - ex) as [|d|d] eqn:Hd.
  - pose proof (binary_round_aux_shape sx (Zpos mx) ex loc_Exact) as H.
    destruct (binary_round_aux _ _ sx (Zpos mx) ex loc_Exact); try exact H.
    cbn [Zdigits2] in H. fold ex' in H. split; [apply H|]. lia.
  - pose proof (binary_round_aux_shape sx (Zpos mx) ex loc_Exact) as H.
    destruct (binary_round_aux _ _ sx (Zpos mx) ex loc_Exact); try exact H.
    cbn [Zdigits2] in H. fold ex' in H. split; [apply H|]. lia.
  - pose proof (binary_round_aux_shape sx (Zpos (Pos.iter xO mx d)) ex'
                  loc_Exact) as H.
    destruct (binary_round_aux _ _ sx (Zpos (Pos.iter xO mx d)) ex'
                loc_Exact); try exact H.
    cbn [Zdigits2] in H. rewrite digits2_pos_iter in H.
    split; [apply H|].
    assert (Hsame : Zpos (digits2_pos mx + d) + ex'
                    = Zpos (digits2_pos mx) + ex) by lia.
    rewrite Hsame in H. fold ex' in H. lia.
Qed.

Lemma digits2_pos_bound (n : positive) : Zpos n < 2 ^ Zpos (digits2_pos n).
Proof.
  induction n as [n IH|n IH|]; cbn [digits2_pos].
  - rewrite Pos2Z.inj_succ, Z.pow_succ_r by lia. lia.
  - rewrite Pos2Z.inj_succ, Z.pow_succ_r by lia. lia.
  - cbn. lia.
Qed.

Lemma digits2_pos_lower (n : positive) :
  2 ^ (Zpos (digits2_pos n) - 1) <= Zpos n.
Proof.
  induction n as [n IH|n IH|]; cbn [digits2_pos].
  - rewrite Pos2Z.inj_succ.
    replace (Z.succ (Zpos (digits2_pos n)) - 1)
      with (Z.succ (Zpos (digits2_pos n) - 1)) by lia.
    rewrite Z.pow_succ_r by lia. lia.
  - rewrite Pos2Z.inj_succ.
    replace (Z.succ (Zpos (digits2_pos n)) - 1)
      with (Z.succ (Zpos (digits2_pos n) - 1)) by lia.
    rewrite Z.pow_succ_r by lia. lia.
  - cbn. lia.
Qed.

(** Shifting right by [p] divides the mantissa by [2^p]. *)
Lemma shr_1_m (mrs : shr_record) :
  0 <= shr_m mrs -> shr_m (shr_1 mrs) = shr_m mrs / 2.
Proof.
  destruct mrs as [m r s]. cbn [shr_m]. intros Hm. unfold shr_1.
  destruct m as [|[q|q|]|q]; cbn [shr_m]; try lia.
  - reflexivity.
  - apply Z.div_unique with (r := 1); lia.
  - apply Z.div_unique with (r := 0); lia.
  - reflexivity.
Qed.

Lemma iter_shr_1_m (p : positive) (mrs : shr_record) :
  0 <= shr_m mrs ->
  shr_m (iter_pos shr_1 p mrs) = shr_m mrs / 2 ^ Zpos p.
Proof.
  revert mrs. induction p as [p IH|p IH|]; intros mrs Hm; cbn [iter_pos].
  - assert (H1 : 0 <= shr_m (shr_1 mrs)).
    { rewrite shr_1_m by exact Hm. apply Z.div_pos; lia. }
    assert (H2 : 0 <= shr_m (iter_pos shr_1 p (shr_1 mrs))).
    { rewrite IH by exact H1. apply Z.div_pos; lia. }
    rewrite IH by exact H2. rewrite IH by exact H1.
    rewrite shr_1_m by exact Hm.
    rewrite !Z.div_div by lia. f_equal.
    replace (Zpos p~1) with (1 + Zpos p + Zpos p) by lia.
    rewrite !Z.pow_add_r by lia. lia.
  - assert (H2 : 0 <= shr_m (iter_pos shr_1 p mrs)).
    { rewrite IH by exact Hm. apply Z.div_pos; lia. }
    rewrite IH by exact H2. rewrite IH by exact Hm.
    rewrite !Z.div_div by lia. f_equal.
    replace (Zpos p~0) with (Zpos p + Zpos p) by lia.
    rewrite !Z.pow_add_r by lia. lia.
  - rewrite shr_1_m by exact Hm. reflexivity.
Qed.

Lemma shr_record_of_loc_m (m : Z) (l : location) :
  shr_m (shr_record_of_loc m l) = m.
Proof. destruct l as [|[ | | ]]; reflexivity. Qed.

(** After [shr_fexp], a mantissa of [d] bits at exponent [e] keeps its
    leading bits when the format leaves room for at least one. *)
Lemma shr_fexp_positive (m : positive) (e : Z) (l : location) :
  fexp Num.prec Num.emax (Zpos (digits2_pos m) + e) - e
  < Zpos (digits2_pos m) ->
  0 < shr_m (fst (shr_fexp Num.prec Num.emax (Zpos m) e l)).
Proof.
  intros Hroom. unfold shr_fexp, shr. cbn [Zdigits2].
  destruct (fexp Num.prec Num.emax (Zpos (digits2_pos m) + e) - e)
    as [|k|k] eqn:Hk; cbn [fst].
  - rewrite shr_record_of_loc_m. lia.
  - rewrite iter_shr_1_m by (rewrite shr_record_of_loc_m; lia).
    rewrite shr_record_of_loc_m.
    pose proof (digits2_pos_lower m) as Hlow.
    assert (Hpow : 2 ^ Zpos k <= 2 ^ (Zpos (digits2_pos m) - 1))
      by (apply Z.pow_le_mono_r; lia).
    apply Z.div_str_pos. split; [apply Z.pow_pos_nonneg; lia|lia].
  - rewrite shr_record_of_loc_m. lia.
Qed.

Lemma round_nearest_even_positive (m : Z) (l : location) :
  0 < m -> 0 < round_nearest_even m l.
Proof.
  intros Hm. unfold round_nearest_even.
  destruct l as [|[ | | ]]; try lia. destruct (Z.even m); lia.
Qed.

(** Rounding a positive integer never gives a zero or a [NaN]. *)
Lemma binary_round_aux_positive (sx : bool) (m : positive) (e : Z)
    (l : location) :
  Num.prec + (3 - Num.emax - Num.prec) <= Zpos (digits2_pos m) + e ->
  match binary_round_aux Num.prec Num.emax sx (Zpos m) e l with
  | S754_finite _ _ _ | S754_infinity _ => True
  | S754_zero _ | S754_nan => False
  end.
Proof.
  intros Hbig. unfold binary_round_aux.
  assert (Hroom : forall (q : positive) (x : Z),
             Num.prec + (3 - Num.emax - Num.prec) <= Zpos (digits2_pos q) + x
             -> fexp Num.prec Num.emax (Zpos (digits2_pos q) + x) - x
                < Zpos (digits2_pos q)).
  { intros q x Hq. unfold fexp, emin, Num.prec, Num.emax in *. lia. }
  pose proof (shr_fexp_positive m e l (Hroom m e Hbig)) as H1.
  pose proof (shr_exponent (shr_record_of_loc (Zpos m) l) e
                (fexp Num.prec Num.emax (Zdigits2 (Zpos m) + e) - e))
    as [He1 _].
  unfold shr_fexp in *.
  destruct (shr (shr_record_of_loc (Zpos m) l) e
              (fexp Num.prec Num.emax (Zdigits2 (Zpos m) + e) - e))
    as [mrs' e'] eqn:E1.
  cbn [fst snd] in H1, He1.
  pose proof (round_nearest_even_positive (shr_m mrs')
                (loc_of_shr_record mrs') H1) as Hr.
  destruct (round_nearest_even (shr_m mrs') (loc_of_shr_record mrs'))
    as [|m1|m1] eqn:Em1; try lia.
  assert (Hm1 : Zpos (digits2_pos m) + e <= Zpos (digits2_pos m1) + e').
  { (* the rounded mantissa is worth at least half the value *)
    assert (Hval : Zpos m <= (Zpos m1 + 1) * 2 ^ (e' - e) - 1 \/ e' = e /\
                   Zpos m <= Zpos m1).
    { revert E1 Em1. unfold shr. cbn [Zdigits2].
      destruct (fexp Num.prec Num.emax (Zpos (digits2_pos m) + e) - e)
        as [|k|k] eqn:Hk; intros [= <- <-]; intros Em1.
      - right. split; [reflexivity|].
        rewrite shr_record_of_loc_m in Em1.
        revert Em1. unfold round_nearest_even.
        destruct (loc_of_shr_record _) as [|[ | | ]];
          try destruct (Z.even _); lia.
      - left. replace (e + Zpos k - e) with (Zpos k) by lia.
        assert (Hdiv : shr_m (iter_pos shr_1 k
                                (shr_record_of_loc (Zpos m) l))
                       = Zpos m / 2 ^ Zpos k).
        { rewrite iter_shr_1_m by (rewrite shr_record_of_loc_m; lia).
          rewrite shr_record_of_loc_m. reflexivity. }
        rewrite Hdiv in Em1.
        assert (Hq : Zpos m / 2 ^ Zpos k <= Zpos m1).
        { revert Em1. unfold round_nearest_even.
          destruct (loc_of_shr_record _) as [|[ | | ]];
            try destruct (Z.even _); lia. }
        pose proof (Z.pow_pos_nonneg 2 (Zpos k)) as Hp.
        pose proof (Z.div_mod (Zpos m) (2 ^ Zpos k)) as Hdm.
        pose proof (Z.mod_pos_bound (Zpos m) (2 ^ Zpos k)) as Hmb.
        nia.
      - right. split; [reflexivity|].
        rewrite shr_record_of_loc_m in Em1.
        revert Em1. unfold round_nearest_even.
        destruct (loc_of_shr_record _) as [|[ | | ]];
          try destruct (Z.even _); lia. }
    pose proof (digits2_pos_lower m) as Hlow.
    pose proof (digits2_pos_bound m1) as Hup.
    assert (Hlt : 2 ^ (Zpos (digits2_pos m) - 1)
                  < 2 ^ (Zpos (digits2_pos m1) + (e' - e))).
    { rewrite Z.pow_add_r by lia.
      pose proof (Z.pow_pos_nonneg 2 (e' - e)) as Hp.
      destruct Hval as [Hval|[-> Hval]].
      - nia.
      - rewrite Z.sub_diag, Z.pow_0_r. lia. }
    apply Z.pow_lt_mono_r_iff in Hlt; lia. }
  pose proof (shr_fexp_positive m1 e' loc_Exact
                (Hroom m1 e' ltac:(lia))) as H2.
  unfold shr_fexp in H2. cbn [Zdigits2] in *.
  destruct (shr (shr_record_of_loc (Zpos m1) loc_Exact) e'
              (fexp Num.prec Num.emax (Zpos (digits2_pos m1) + e') - e'))
    as [mrs'' e''] eqn:E2.
  cbn [fst] in H2.
  destruct (shr_m mrs''); try lia.
  destruct (e'' <=? Num.emax - Num.prec); exact I.
Qed.

(** An integer above 255 rounds to plus infinity or to a number above
    200. *)
Lemma of_Z_large (n : positive) :
  256 <= Zpos n ->
  Num.of_Z (Zpos n) = S754_infinity false \/
  (Num.isFinite (Num.of_Z (Zpos n)) = true /\
   Num.leb (Num.of_Z (Zpos n)) (Num.of_Z 0) = false /\
   Num.ltb (Num.of_Z 200) (Num.of_Z (Zpos n)) = true).
Proof.
  intros Hn. unfold Num.of_Z. cbn [binary_normalize].
  pose proof (binary_round_shape false n 0) as H.
  pose proof (digits2_pos_bound n) as Hd.
  assert (Hdig : 8 < Zpos (digits2_pos n)).
  { apply (Z.pow_lt_mono_r_iff 2); lia. }
  assert (Hpos : match binary_round Num.prec Num.emax false n 0 with
                 | S754_finite _ _ _ | S754_infinity _ => True
                 | S754_zero _ | S754_nan => False
                 end).
  { unfold binary_round, shl_align.
    destruct (fexp Num.prec Num.emax (Zpos (digits2_pos n) + 0) - 0)
      as [|d|d] eqn:Hd0.
    - apply binary_round_aux_positive. unfold Num.prec, Num.emax. lia.
    - apply binary_round_aux_positive. unfold Num.prec, Num.emax. lia.
    - apply binary_round_aux_positive. rewrite digits2_pos_iter.
      unfold fexp, emin, Num.prec, Num.emax in *. lia. }
  destruct (binary_round Num.prec Num.emax false n 0) as [s|s| |s m e];
    try contradiction.
  - left. subst s. reflexivity.
  - right. destruct H as [-> He]. unfold Num.prec in He.
    split; [reflexivity|]. split; [reflexivity|].
    assert (H200 : binary_round Num.prec Num.emax false 200 0
                   = S754_finite false 7036874417766400 (-45))
      by (vm_compute; reflexivity).
    assert (Hc : (-45 ?= e) = Lt) by (apply Z.compare_lt_iff; lia).
    unfold Num.ltb, SFltb. rewrite H200. unfold SFcompare. rewrite Hc.
    reflexivity.
Qed.

(** The integers up to 255, one by one: each is a number of its own, is
    positive, compares with 200 as the integer does, and is sent to the
    store as its decimal digits. *)
Lemma of_Z_small (n : Z) :
  1 <= n <= 255 ->
  Num.isFinite (Num.of_Z n) = true /\
  Num.leb (Num.of_Z n) (Num.of_Z 0) = false /\
  Num.ltb (Num.of_Z 200) (Num.of_Z n) = (200 <? n) /\
  bigint_in (Num.of_Z n) = Some n.
Proof.
  intros Hn.
  pose (ok := fun k : nat =>
          let n := Z.of_nat k in
          Num.isFinite (Num.of_Z n)
          && negb (Num.leb (Num.of_Z n) (Num.of_Z 0))
          && Bool.eqb (Num.ltb (Num.of_Z 200) (Num.of_Z n)) (200 <? n)
          && match bigint_in (Num.of_Z n) with
             | Some v => v =? n
             | None => false
             end).
  assert (Hall : forallb ok (seq 1 255) = true) by (vm_compute; reflexivity).
  rewrite forallb_forall in Hall.
  specialize (Hall (Z.to_nat n)).
  assert (Hin : In (Z.to_nat n) (seq 1 255)) by (apply in_seq; lia).
  specialize (Hall Hin). unfold ok in Hall. cbv zeta in Hall.
  rewrite Z2Nat.id in Hall by lia.
  apply andb_true_iff in Hall. destruct Hall as [Hall H4].
  apply andb_true_iff in Hall. destruct Hall as [Hall H3].
  apply andb_true_iff in Hall. destruct Hall as [H1 H2].
  split; [exact H1|]. split; [apply negb_true_iff; exact H2|].
  split; [apply Bool.eqb_prop; exact H3|].
  destruct (bigint_in (Num.of_Z n)) as [v|]; [|discriminate H4].
  apply Z.eqb_eq in H4. congruence.
Qed.

(* ====================================================================== *)
(** ** The limit of the entry listing *)
(* ====================================================================== *)

Lemma digit_of_range (c : ascii) (d : Z) :
  Num.digit_of 10 c = Some d -> 0 <= d < 10.
Proof.
  unfold Num.digit_of.
  destruct ((48 <=? Z.of_nat (nat_of_ascii c))
            && (Z.of_nat (nat_of_ascii c) <=? 57)) eqn:E1.
  - destruct (Z.of_nat (nat_of_ascii c) - 48 <? 10) eqn:E2;
      [|discriminate]. intros [= <-].
    apply andb_true_iff in E1. lia.
  - destruct ((97 <=? Z.of_nat (nat_of_ascii c))
              && (Z.of_nat (nat_of_ascii c) <=? 102)) eqn:E3.
    + destruct (Z.of_nat (nat_of_ascii c) - 87 <? 10) eqn:E2;
        [|discriminate]. intros [= <-].
      apply andb_true_iff in E3. lia.
    + destruct ((65 <=? Z.of_nat (nat_of_ascii c))
                && (Z.of_nat (nat_of_ascii c) <=? 70)) eqn:E4;
        [|discriminate].
      destruct (Z.of_nat (nat_of_ascii c) - 55 <? 10) eqn:E2;
        [|discriminate]. intros [= <-].
      apply andb_true_iff in E4. lia.
Qed.

(** What [read_digits] returns is not negative, nor is its count. *)
Lemma read_digits_nonneg (l : list ascii) (acc cnt : Z) :
  0 <= acc -> 0 <= cnt ->
  0 <= fst (fst (Num.read_digits 10 l acc cnt)) /\
  cnt <= snd (fst (Num.read_digits 10 l acc cnt)).
Proof.
  revert acc cnt. induction l as [|c r IH]; intros acc cnt Ha Hc;
    cbn [Num.read_digits fst snd]; [lia|].
  destruct (Num.digit_of 10 c) as [d|] eqn:Hd; cbn [fst snd]; [|lia].
  apply digit_of_range in Hd.
  destruct (IH (acc * 10 + d) (cnt + 1)) as [H1 H2]; lia.
Qed.

(** The shape of what [parseInt] returns. *)
Lemma parseInt_cases (s : string) :
  parseInt s = Num.nan \/
  (exists sg, parseInt s = S754_zero sg) \/
  (exists n, parseInt s
             = binary_round Num.prec Num.emax true n 0) \/
  (exists n, parseInt s = Num.of_Z (Zpos n)).
Proof.
  unfold parseInt.
  destruct (match Num.skip_space (list_ascii_of_string s) with
            | [] => (false, Num.skip_space (list_ascii_of_string s))
            | c :: r =>
                if Num.is_char c "-" then (true, r)
                else if Num.is_char c "+" then (false, r)
                     else (false, Num.skip_space (list_ascii_of_string s))
            end) as [sign str].
  pose proof (read_digits_nonneg str 0 0 ltac:(lia) ltac:(lia)) as [Hv _].
  destruct (Num.read_digits 10 str 0 0) as [[mathInt cnt] rest].
  cbn [fst snd] in Hv.
  destruct (cnt =? 0); [left; reflexivity|right].
  destruct mathInt as [|n|n];
    [left; exists sign; destruct sign; reflexivity| |lia].
  destruct sign; cbn [cond_Zopp Z.opp binary_normalize].
  - right. left. exists n. reflexivity.
  - right. right. exists n. reflexivity.
Qed.

Lemma clamp_default (x : Num.number) :
  negb (Num.isFinite x) || Num.leb x (Num.of_Z 0) = true ->
  (let limit := if negb (Num.isFinite x) || Num.leb x (Num.of_Z 0)
                then Num.of_Z 50 else x in
   if Num.ltb (Num.of_Z 200) limit then Num.of_Z 200 else limit)
  = Num.of_Z 50.
Proof. intros ->. vm_compute. reflexivity. Qed.

Lemma clamp_positive (n : positive) :
  (let x := Num.of_Z (Zpos n) in
   let limit := if negb (Num.isFinite x) || Num.leb x (Num.of_Z 0)
                then Num.of_Z 50 else x in
   if Num.ltb (Num.of_Z 200) limit then Num.of_Z 200 else limit)
  = Num.of_Z (if Num.isFinite (Num.of_Z (Zpos n))
              then Z.min (Zpos n) 200 else 50).
Proof.
  cbv zeta. destruct (Z.le_gt_cases (Zpos n) 255) as [Hs|Hl].
  - destruct (of_Z_small (Zpos n) ltac:(lia)) as (H1 & H2 & H3 & _).
    rewrite H1, H2. cbn [negb orb]. rewrite H3.
    destruct (200 <? Zpos n) eqn:E.
    + apply Z.ltb_lt in E. rewrite Z.min_r by lia. reflexivity.
    + apply Z.ltb_ge in E. rewrite Z.min_l by lia. reflexivity.
  - destruct (of_Z_large n ltac:(lia)) as [Hinf|(H1 & H2 & H3)].
    + rewrite Hinf. vm_compute. reflexivity.
    + rewrite H1, H2. cbn [negb orb]. rewrite H3.
      rewrite Z.min_r by lia. reflexivity.
Qed.

(** The limit sent to the store, for any [req.query.limit]. *)
Lemma limit_of_range (query_limit : value) (limit : Num.number) :
  limit_of query_limit = Normal limit ->
  exists k, 1 <= k <= 200 /\ limit = Num.of_Z k /\
            bigint_in limit = Some k /\
            (truthy query_limit = false -> k = 50).
Proof.
  assert (H50 : forall P : Prop, P ->
             exists k, 1 <= k <= 200 /\ Num.of_Z 50 = Num.of_Z k /\
                       bigint_in (Num.of_Z 50) = Some k /\
                       (truthy query_limit = false -> k = 50)).
  { intros _ _. exists 50. split; [lia|]. split; [reflexivity|].
    split; [apply of_Z_small; lia|reflexivity]. }
  specialize (H50 True I).
  unfold limit_of, or_else.
  destruct (truthy query_limit) eqn:Ht.
  - destruct (to_str query_limit) as [s|e]; [|discriminate].
    intros [= <-].
    destruct (parseInt_cases s) as [->|[[sg ->]|[[n ->]|[n ->]]]].
    + exact H50.
    + rewrite clamp_default; [exact H50|]. destruct sg; reflexivity.
    + rewrite clamp_default; [exact H50|].
      pose proof (binary_round_shape true n 0) as H.
      destruct (binary_round Num.prec Num.emax true n 0)
        as [sg|sg| |sg m e]; try reflexivity.
      destruct H as [-> _]. reflexivity.
    + rewrite clamp_positive.
      destruct (Num.isFinite (Num.of_Z (Zpos n))); [|exact H50].
      exists (Z.min (Zpos n) 200). split; [lia|]. split; [reflexivity|].
      split; [apply of_Z_small; lia|discriminate].
  - intros [= <-]. exact H50.
Qed.

(** X14. The limit of the entry listing is always a whole number from 1
    to 200, whatever [req.query.limit] is, and the store reads it as that
    count. *)
Theorem limit_is_between_1_and_200 (query_limit : value)
    (limit : Num.number) :
  limit_of query_limit = Normal limit ->
  exists k, 1 <= k <= 200 /\ limit = Num.of_Z k /\ bigint_in limit = Some k.
Proof.
  intros H. destruct (limit_of_range query_limit limit H)
    as (k & H1 & H2 & H3 & _).
  exists k. auto.
Qed.

Lemma limit_is_between_1_and_200_witness :
  exists k, 1 <= k <= 200 /\ Num.of_Z 75 = Num.of_Z k /\
            bigint_in (Num.of_Z 75) = Some k.
Proof.
  apply (limit_is_between_1_and_200 (VString " 75 per page") (Num.of_Z 75)).
  vm_compute. reflexivity.
Defined.

Lemma digit_char (d : Z) :
  0 <= d < 10 ->
  let c := ascii_of_nat (48 + Z.to_nat d) in
  Num.digit_of 10 c = Some d /\ Num.is_space c = false /\
  Num.is_char c "-" = false /\ Num.is_char c "+" = false.
Proof.
  intros Hd.
  assert (H : d = 0 \/ d = 1 \/ d = 2 \/ d = 3 \/ d = 4 \/ d = 5 \/ d = 6
              \/ d = 7 \/ d = 8 \/ d = 9) by lia.
  repeat (destruct H as [->|H]; [vm_compute; auto|]).
  subst d. vm_compute. auto.
Qed.

(** Reading the digits written for an integer gives the integer back. *)
Lemma digits_fuel_read (f : nat) (n : Z) (acc : string) (cnt : Z) :
  0 <= n < 2 ^ Z.of_nat (S f) ->
  (exists k,
     0 < k /\
     Num.read_digits 10 (list_ascii_of_string (Num.digits_fuel (S f) n acc))
       0 cnt
     = Num.read_digits 10 (list_ascii_of_string acc) n (cnt + k)) /\
  (exists d rest,
     0 <= d < 10 /\
     Num.digits_fuel (S f) n acc
     = String (ascii_of_nat (48 + Z.to_nat d)) rest).
Proof.
  revert n acc cnt. induction f as [|f IH]; intros n acc cnt Hn.
  - assert (Hdiv : n / 10 = 0) by (apply Z.div_small; cbn in Hn; lia).
    assert (Hmod : n mod 10 = n) by (apply Z.mod_small; cbn in Hn; lia).
    cbn [Num.digits_fuel]. rewrite Hdiv, Hmod. cbn [Z.eqb].
    destruct (digit_char n ltac:(cbn in Hn; lia)) as (Hd & _).
    split.
    + exists 1. split; [lia|]. cbn [list_ascii_of_string Num.read_digits].
      rewrite Hd. reflexivity.
    + exists n, acc. split; [cbn in Hn; lia|reflexivity].
  - pose proof (Z.mod_pos_bound n 10 ltac:(lia)) as Hm.
    pose proof (Z.div_mod n 10 ltac:(lia)) as Hdm.
    destruct (digit_char (n mod 10) Hm) as (Hd & _).
    change (Num.digits_fuel (S (S f)) n acc)
      with (let acc' := String (ascii_of_nat (48 + Z.to_nat (n mod 10))) acc
            in if n / 10 =? 0 then acc'
               else Num.digits_fuel (S f) (n / 10) acc').
    cbv zeta. destruct (n / 10 =? 0) eqn:Hq.
    + apply Z.eqb_eq in Hq. split.
      * exists 1. split; [lia|].
        cbn [list_ascii_of_string Num.read_digits]. rewrite Hd.
        f_equal. lia.
      * exists (n mod 10), acc. split; [exact Hm|reflexivity].
    + apply Z.eqb_neq in Hq.
      assert (Hn' : 0 <= n / 10 < 2 ^ Z.of_nat (S f)).
      { split; [apply Z.div_pos; lia|].
        apply Z.div_lt_upper_bound; [lia|].
        rewrite (Nat2Z.inj_succ (S f)), Z.pow_succ_r in Hn by lia. lia. }
      destruct (IH (n / 10)
                  (String (ascii_of_nat (48 + Z.to_nat (n mod 10))) acc)
                  cnt Hn') as [(k & Hk & Hread) Hhead].
      split; [|exact Hhead].
      exists (k + 1). split; [lia|]. rewrite Hread.
      cbn [list_ascii_of_string Num.read_digits]. rewrite Hd.
      f_equal; lia.
Qed.

Lemma digits_read (n : Z) :
  0 <= n ->
  (exists k, 0 < k /\
     Num.read_digits 10 (list_ascii_of_string (Num.digits n)) 0 0
     = (n, k, [])) /\
  (exists d rest, 0 <= d < 10 /\
     Num.digits n = String (ascii_of_nat (48 + Z.to_nat d)) rest).
Proof.
  intros Hn. unfold Num.digits.
  assert (Hfuel : 0 <= n < 2 ^ Z.of_nat (S (Z.to_nat (Z.log2 n)))).
  { split; [exact Hn|]. rewrite Nat2Z.inj_succ, Z2Nat.id
      by apply Z.log2_nonneg.
    destruct (Z.eq_dec n 0) as [->|Hnz]; [cbn; lia|].
    apply Z.log2_spec. lia. }
  destruct (digits_fuel_read (Z.to_nat (Z.log2 n)) n "" 0 Hfuel)
    as [(k & Hk & Hread) Hhead].
  split; [|exact Hhead]. exists k. split; [exact Hk|].
  rewrite Hread. reflexivity.
Qed.

(** On the digits of an integer [parseInt] gives the number nearest to
    it. *)
Lemma parseInt_digits (n : Z) :
  0 <= n -> parseInt (Num.digits n) = Num.of_Z n.
Proof.
  intros Hn. destruct (digits_read n Hn)
    as [(k & Hk & Hread) (d & rest & Hd & Hhead)].
  unfold parseInt. rewrite Hhead in *.
  destruct (digit_char d Hd) as (_ & Hsp & Hminus & Hplus).
  cbn [list_ascii_of_string Num.skip_space] in *.
  rewrite Hsp, Hminus, Hplus, Hread.
  assert (Hk0 : (k =? 0) = false) by (apply Z.eqb_neq; lia).
  rewrite Hk0. reflexivity.
Qed.

(** X15. A [limit] written as a plain decimal integer [n] is taken as it
    is from 1 to 200 and as 200 above, but an integer so large that it
    rounds to infinity gives 50, as does 0. *)
Theorem limit_of_decimal_text (n : Z) :
  0 <= n ->
  limit_of (VString (Num.digits n))
  = Normal (Num.of_Z (if (0 <? n) && Num.isFinite (Num.of_Z n)
                      then Z.min n 200 else 50)).
Proof.
  intros Hn. unfold limit_of.
  assert (Htext : or_else (VString (Num.digits n)) (VString "50")
                  = VString (Num.digits n)).
  { destruct (digits_read n Hn) as [_ (d & rest & _ & ->)]. reflexivity. }
  rewrite Htext. cbn [to_str]. rewrite (parseInt_digits n Hn).
  f_equal. destruct n as [|p|p]; [reflexivity| |lia].
  cbn [Z.ltb Z.compare andb]. exact (clamp_positive p).
Qed.

Lemma limit_of_decimal_text_witness :
  limit_of (VString (Num.digits 1000))
  = Normal (Num.of_Z (if (0 <? 1000) && Num.isFinite (Num.of_Z 1000)
                      then Z.min 1000 200 else 50)).
Proof. apply (limit_of_decimal_text 1000). lia. Defined.

(** The integer [10^309] is beyond the largest number: as a [limit] it
    falls back to the default. *)
Example limit_beyond_the_largest_number :
  limit_of (VString (Num.digits (10 ^ 309))) = Normal (Num.of_Z 50).
Proof. vm_compute. reflexivity. Qed.

(* ====================================================================== *)
(** ** The listings *)
(* ====================================================================== *)

Lemma In_firstn {A} (n : nat) (l : list A) (x : A) :
  In x (firstn n l) -> In x l.
Proof.
  intros H. rewrite <- (firstn_skipn n l). apply in_or_app. left. exact H.
Qed.

Lemma In_skipn {A} (n : nat) (l : list A) (x : A) :
  In x (skipn n l) -> In x l.
Proof.
  intros H. rewrite <- (firstn_skipn n l). apply in_or_app. right. exact H.
Qed.

Lemma firstn_sorted {A} (R : A -> A -> Prop) (n : nat) (l : list A) :
  StronglySorted R l -> StronglySorted R (firstn n l).
Proof.
  intros H. revert n. induction H as [|a l Hl IH Ha]; intros [|n]; cbn;
    try constructor.
  - apply IH.
  - rewrite Forall_forall in *. intros x Hx. apply Ha.
    eapply In_firstn; exact Hx.
Qed.

(** In a sorted list every row of a prefix is related to every row after
    it. *)
Lemma firstn_before_skipn {A} (R : A -> A -> Prop) (n : nat) (l : list A)
    (a b : A) :
  StronglySorted R l -> In a (firstn n l) -> In b (skipn n l) -> R a b.
Proof.
  intros H. revert n. induction H as [|x l Hl IH Hx]; intros n Ha Hb.
  - rewrite firstn_nil in Ha. destruct Ha.
  - destruct n as [|n]; [destruct Ha|]. cbn in Ha, Hb.
    destruct Ha as [<-|Ha].
    + rewrite Forall_forall in Hx. apply Hx.
      eapply In_skipn; exact Hb.
    + exact (IH n Ha Hb).
Qed.

(** X16. The entry listing answers 500, or 200 with the newest entries of
    the table: as many as the limit allows (a count from 1 to 200, 50 when
    [limit] is absent or empty), newest first, each one an entry of the
    table, and no entry that was left out is newer than one that was
    returned. *)
Theorem entry_listing_is_the_newest_page (t : tables)
    (db_query : select -> option listing) (req_query : value) (p : page) :
  reads_from t db_query ->
  get_ledger_entries db_query req_query = Normal p ->
  p = Failed (error_json 500 "Failed to list ledger entries") \/
  exists rows k,
    p = Page 200 (EntryList rows) /\
    1 <= k <= 200 /\
    (truthy (get req_query "limit") = false -> k = 50) /\
    Z.of_nat (List.length rows)
    = Z.min k (Z.of_nat (List.length (ledger_entries t))) /\
    newest_first entry_occurred_at rows /\
    (forall e, In e rows -> In e (ledger_entries t)) /\
    (forall e r, In e (ledger_entries t) -> ~ In e rows -> In r rows ->
                 entry_occurred_at e <= entry_occurred_at r).
Proof.
  intros Hdb. unfold get_ledger_entries.
  destruct (limit_of (get req_query "limit")) as [limit|e] eqn:Hl;
    [|discriminate].
  intros [= <-].
  destruct (limit_of_range _ _ Hl) as (k & Hk & _ & Hin & Hdef).
  destruct (db_query (SELECT_ledger_entries_LIMIT limit)) as [rows|] eqn:Hq;
    [|left; reflexivity].
  right. apply Hdb in Hq. cbn in Hq.
  destruct rows as [l|l]; [|destruct Hq].
  destruct Hq as (n & all & Hn & Hperm & Hsorted & ->).
  assert (n = k) by congruence. subst n.
  exists (firstn (Z.to_nat k) all), k.
  split; [reflexivity|]. split; [exact Hk|]. split; [exact Hdef|].
  split; [|split; [|split]].
  - rewrite length_firstn, <- (Permutation_length Hperm). lia.
  - apply firstn_sorted. exact Hsorted.
  - intros e He. eapply Permutation_in; [exact Hperm|].
    eapply In_firstn; exact He.
  - intros e r He Hout Hr.
    assert (Hall : In e all)
      by (eapply Permutation_in; [apply Permutation_sym; exact Hperm|
                                  exact He]).
    rewrite <- (firstn_skipn (Z.to_nat k) all) in Hall.
    apply in_app_iff in Hall. destruct Hall as [Hfirst|Hrest];
      [contradiction|].
    exact (firstn_before_skipn _ _ _ _ _ Hsorted Hr Hrest).
Qed.

(** X17. The account listing answers 500, or 200 with accounts of the
    table, newest first: all of them when [active_only] is exactly the
    string [false], and otherwise (absent, [0], [no], [FALSE], a list)
    exactly the active ones. *)
Theorem account_listing_hides_inactive_accounts (t : tables)
    (db_query : select -> option listing) (req_query : value) :
  reads_from t db_query ->
  get_accounts db_query req_query
  = Failed (error_json 500 "Failed to list accounts") \/
  exists rows,
    get_accounts db_query req_query = Page 200 (AccountList rows) /\
    newest_first acct_created_at rows /\
    List.length rows
    = List.length (filter (fun a => acct_is_active a
                                    || negb (activeOnly req_query))
                          (accounts t)) /\
    (forall a, In a rows <->
               In a (accounts t) /\
               (acct_is_active a = true \/
                get req_query "active_only" = VString "false")).
Proof.
  intros Hdb. unfold get_accounts.
  assert (Hact : activeOnly req_query = false <->
                 get req_query "active_only" = VString "false").
  { unfold activeOnly. destruct (get req_query "active_only");
      try (split; [discriminate|discriminate]).
    rewrite negb_false_iff, String.eqb_eq.
    split; [intros ->; reflexivity|intros [= ->]; reflexivity]. }
  destruct (activeOnly req_query) eqn:Ha.
  - destruct (db_query SELECT_accounts_WHERE_is_active) as [rows|] eqn:Hq;
      [|left; reflexivity].
    right. apply Hdb in Hq. cbn in Hq.
    destruct rows as [l|l]; [destruct Hq|]. destruct Hq as [Hperm Hsorted].
    exists l. split; [reflexivity|]. split; [exact Hsorted|].
    cbn [negb]. split.
    + rewrite (Permutation_length Hperm). f_equal.
      apply filter_ext. intros a. rewrite orb_false_r. reflexivity.
    + intros a. split.
      * intros Hin. apply (Permutation_in _ Hperm) in Hin.
        apply filter_In in Hin. destruct Hin as [Hin Hactive]. auto.
      * intros [Hin [Hactive|Hfalse]].
        -- apply (Permutation_in _ (Permutation_sym Hperm)).
           apply filter_In. auto.
        -- apply Hact in Hfalse. discriminate Hfalse.
  - destruct (db_query SELECT_accounts) as [rows|] eqn:Hq;
      [|left; reflexivity].
    right. apply Hdb in Hq. cbn in Hq.
    destruct rows as [l|l]; [destruct Hq|]. destruct Hq as [Hperm Hsorted].
    exists l. split; [reflexivity|]. split; [exact Hsorted|].
    cbn [negb]. split.
    + rewrite (Permutation_length Hperm).
      rewrite (filter_ext _ (fun _ => true))
        by (intros a; apply orb_true_r).
      clear. induction (accounts t); cbn; congruence.
    + intros a. split.
      * intros Hin. apply (Permutation_in _ Hperm) in Hin.
        split; [exact Hin|]. right. apply Hact. reflexivity.
      * intros [Hin _].
        exact (Permutation_in _ (Permutation_sym Hperm) Hin).
Qed.

Lemma insert_desc_perm {A} (key : A -> Z) (x : A) (l : list A) :
  Permutation (insert_desc key x l) (x :: l).
Proof.
  induction l as [|y r IH]; cbn; [reflexivity|].
  destruct (key y <=? key x); [reflexivity|].
  rewrite IH. apply perm_swap.
Qed.

Lemma order_by_desc_perm {A} (key : A -> Z) (l : list A) :
  Permutation (order_by_desc key l) l.
Proof.
  induction l as [|x l IH]; cbn; [constructor|].
  rewrite insert_desc_perm. constructor. exact IH.
Qed.

Lemma insert_desc_sorted {A} (key : A -> Z) (x : A) (l : list A) :
  newest_first key l -> newest_first key (insert_desc key x l).
Proof.
  unfold newest_first. induction 1 as [|y r Hr IH Hy]; cbn.
  - constructor; constructor.
  - destruct (key y <=? key x) eqn:E.
    + apply Z.leb_le in E. constructor; [constructor; assumption|].
      constructor; [exact E|].
      rewrite Forall_forall in *. intros z Hz. specialize (Hy z Hz). lia.
    + apply Z.leb_gt in E. constructor; [exact IH|].
      rewrite Forall_forall in *. intros z Hz.
      apply (Permutation_in _ (insert_desc_perm key x r)) in Hz.
      destruct Hz as [<-|Hz]; [lia|exact (Hy z Hz)].
Qed.

Lemma order_by_desc_sorted {A} (key : A -> Z) (l : list A) :
  newest_first key (order_by_desc key l).
Proof.
  induction l as [|x l IH]; cbn; [constructor|].
  apply insert_desc_sorted. exact IH.
Qed.

(** The sorting store answers from its tables. *)
Lemma answer_reads_from (t : tables) : reads_from t (answer t).
Proof.
  intros q rows. destruct q as [limit| |]; cbn.
  - destruct (bigint_in limit) as [n|] eqn:Hn; [|discriminate].
    intros [= <-]. exists n, (order_by_desc entry_occurred_at
                                (ledger_entries t)).
    split; [reflexivity|]. split; [apply order_by_desc_perm|].
    split; [apply order_by_desc_sorted|reflexivity].
  - intros [= <-]. split; [apply order_by_desc_perm|].
    apply order_by_desc_sorted.
  - intros [= <-]. split; [apply order_by_desc_perm|].
    apply order_by_desc_sorted.
Qed.

Lemma entry_listing_is_the_newest_page_witness :
  get_ledger_entries (answer journal) (VObject [("limit", VString "2")])
  = Normal (Page 200 (EntryList [entry_at "e2" 30; entry_at "e3" 20])) /\
  (Page 200 (EntryList [entry_at "e2" 30; entry_at "e3" 20])
   = Failed (error_json 500 "Failed to list ledger entries") \/
   exists rows k,
     Page 200 (EntryList [entry_at "e2" 30; entry_at "e3" 20])
     = Page 200 (EntryList rows) /\
     1 <= k <= 200 /\
     (truthy (get (VObject [("limit", VString "2")]) "limit") = false ->
      k = 50) /\
     Z.of_nat (List.length rows)
     = Z.min k (Z.of_nat (List.length (ledger_entries journal))) /\
     newest_first entry_occurred_at rows /\
     (forall e, In e rows -> In e (ledger_entries journal)) /\
     (forall e r, In e (ledger_entries journal) -> ~ In e rows ->
                  In r rows ->
                  entry_occurred_at e <= entry_occurred_at r)).
Proof.
  assert (H : get_ledger_entries (answer journal)
                (VObject [("limit", VString "2")])
              = Normal (Page 200 (EntryList [entry_at "e2" 30;
                                             entry_at "e3" 20])))
    by (vm_compute; reflexivity).
  split; [exact H|].
  exact (entry_listing_is_the_newest_page journal (answer journal)
           (VObject [("limit", VString "2")]) _
           (answer_reads_from journal) H).
Defined.

Lemma account_listing_hides_inactive_accounts_witness :
  get_accounts (answer journal) (VObject [("active_only", VString "no")])
  = Failed (error_json 500 "Failed to list accounts") \/
  exists rows,
    get_accounts (answer journal) (VObject [("active_only", VString "no")])
    = Page 200 (AccountList rows) /\
    newest_first acct_created_at rows /\
    List.length rows
    = List.length
        (filter (fun a => acct_is_active a
                          || negb (activeOnly
                                     (VObject [("active_only",
                                                VString "no")])))
           (accounts journal)) /\
    (forall a, In a rows <->
               In a (accounts journal) /\
               (acct_is_active a = true \/
                get (VObject [("active_only", VString "no")]) "active_only"
                = VString "false")).
Proof.
  exact (account_listing_hides_inactive_accounts journal (answer journal)
           (VObject [("active_only", VString "no")])
           (answer_reads_from journal)).
Defined.

(* ====================================================================== *)
(** ** The asset registry *)
(* ====================================================================== *)

Lemma member_In (id : uuid) (ids : list uuid) :
  member id ids = true <-> In id ids.
Proof.
  unfold member. rewrite existsb_exists. split.
  - intros (x & Hx & Heq). apply String.eqb_eq in Heq. subst. exact Hx.
  - intros H. exists id. split; [exact H|apply String.eqb_refl].
Qed.

Lemma has_asset_In (g : registry) (id : uuid) :
  has_asset g id = true <-> In id (map asset_id (assets g)).
Proof.
  unfold has_asset. rewrite existsb_exists, in_map_iff. split.
  - intros (a & Ha & Heq). apply String.eqb_eq in Heq. eauto.
  - intros (a & Heq & Ha). exists a. split; [exact Ha|].
    apply String.eqb_eq. exact Heq.
Qed.

Lemma is_nullish_default (v : value) :
  is_nullish (or_else v (VObject [])) = false.
Proof.
  unfold or_else. destruct (truthy v) eqn:Ht; [|reflexivity].
  exact (truthy_not_nullish v Ht).
Qed.

Lemma is_nullish_param (v : value) :
  is_nullish (or_else v VNull) = negb (truthy v).
Proof.
  unfold or_else. destruct (truthy v) eqn:Ht; [|reflexivity].
  exact (truthy_not_nullish v Ht).
Qed.

Lemma reference_in_param (uuid_in : value -> option uuid) (v : value) :
  reference_in uuid_in (or_else v VNull)
  = if truthy v
    then match uuid_in v with
         | Some id => Some (Some id)
         | None => None
         end
    else Some None.
Proof.
  unfold reference_in, or_else. destruct (truthy v) eqn:Ht; [|reflexivity].
  rewrite (truthy_not_nullish v Ht). reflexivity.
Qed.

(** The ways the creation handler can end: without type or title; with a
    500 and the registry as it was; with a 201 and one more asset; and,
    when the acknowledgement of the [INSERT] is lost, with a 400 or 500
    and the registry an acknowledged run would have left. *)
Lemma post_asset_cases (encode_text : value -> string)
    (uuid_in : value -> option uuid) (jsonb_in : value -> option value)
    (env : environment) (g : registry) (req_body : value) :
  let o := post_asset encode_text uuid_in jsonb_in env g req_body in
  let fields := or_else req_body (VObject []) in
  ((truthy (get fields "type") = false \/
    truthy (get fields "title") = false) /\
   o = {| answer_sent := asset_required; statements := [];
          registry_after := g |})
  \/
  (truthy (get fields "type") = true /\
   truthy (get fields "title") = true /\
   answer_sent o = asset_failed /\ registry_after o = g /\
   exists stmt, statements o = [(stmt, false)])
  \/
  (truthy (get fields "type") = true /\
   truthy (get fields "title") = true /\
   exists row owner_user owner_group project,
     answer_sent o = Sent 201 row /\
     registry_after o = add_asset g row /\
     (exists stmt, statements o = [(stmt, true)]) /\
     reference_in uuid_in (or_else (get fields "owner_user_id") VNull)
     = Some owner_user /\
     reference_in uuid_in (or_else (get fields "owner_group_id") VNull)
     = Some owner_group /\
     reference_in uuid_in (or_else (get fields "project_id") VNull)
     = Some project /\
     row = {| asset_id := gen_random_uuid env;
              asset_type := encode_text (get fields "type");
              asset_status := "draft";
              asset_title := encode_text (get fields "title");
              asset_description :=
                text_or_null encode_text
                  (or_else (get fields "description") VNull);
              asset_source :=
                text_or_null encode_text (or_else (get fields "source") VNull);
              asset_owner_user_id := owner_user;
              asset_owner_group_id := owner_group;
              asset_project_id := project;
              asset_storage_uri :=
                text_or_null encode_text
                  (or_else (get fields "storage_uri") VNull);
              asset_thumbnail_uri :=
                text_or_null encode_text
                  (or_else (get fields "thumbnail_uri") VNull);
              asset_metadata := asset_metadata row;
              asset_external_ref :=
                text_or_null encode_text
                  (or_else (get fields "external_ref") VNull);
              asset_created_at := now env;
              asset_updated_at := now env |} /\
     jsonb_in (or_else (get fields "metadata") (VObject []))
     = Some (asset_metadata row) /\
     member (asset_type row) asset_type_enum = true /\
     has_asset g (asset_id row) = false /\
     refers_to (users g) owner_user = true /\
     refers_to (groups g) owner_group = true /\
     refers_to (projects g) project = true /\
     has_owner row = true)
  \/
  (verdict_of env O = Lost true /\
   (answer_sent o = asset_required \/ answer_sent o = asset_failed) /\
   registry_after o
   = registry_after (post_asset encode_text uuid_in jsonb_in
                       (acknowledged env) g req_body)).
Proof.
  cbv zeta. unfold post_asset.
  destruct (truthy (get (or_else req_body (VObject [])) "type")) eqn:Hty;
    cbn [negb orb]; [|left; split; [left|]; reflexivity].
  destruct (truthy (get (or_else req_body (VObject [])) "title")) eqn:Hti;
    cbn [negb]; [|left; split; [right|]; reflexivity].
  right. unfold db_query, run_statement. cbn [acknowledged verdict_of].
  destruct (verdict_of env 0) as [| |[|]];
    [|left; repeat (split; [reflexivity|]); eexists; reflexivity
     |right; right; split; [reflexivity|]; split; [right; reflexivity|];
      destruct (serve_statement _ _ _ _ _ _ _) as [[rows|] g']; reflexivity
     |left; repeat (split; [reflexivity|]); eexists; reflexivity].
  unfold serve_statement, insert_asset.
  destruct (reference_in uuid_in
              (or_else (get (or_else req_body (VObject [])) "owner_user_id")
                       VNull)) as [ou|];
    [|left; repeat (split; [reflexivity|]); eexists; reflexivity].
  destruct (reference_in uuid_in
              (or_else (get (or_else req_body (VObject [])) "owner_group_id")
                       VNull)) as [og|];
    [|left; repeat (split; [reflexivity|]); eexists; reflexivity].
  destruct (reference_in uuid_in
              (or_else (get (or_else req_body (VObject [])) "project_id")
                       VNull)) as [pr|];
    [|left; repeat (split; [reflexivity|]); eexists; reflexivity].
  rewrite is_nullish_default.
  destruct (jsonb_in (or_else (get (or_else req_body (VObject []))
                                   "metadata") (VObject [])))
    as [stored|] eqn:Hjson;
    [|left; repeat (split; [reflexivity|]); eexists; reflexivity].
  match goal with
  | |- context [if ?c then Some _ else None] => destruct c eqn:Hchk
  end; [|left; repeat (split; [reflexivity|]); eexists; reflexivity].
  right. left. split; [reflexivity|]. split; [reflexivity|].
  repeat (apply andb_true_iff in Hchk; destruct Hchk as [Hchk ?]).
  eexists _, ou, og, pr. cbn [answer_sent registry_after statements first_row].
  split; [reflexivity|]. split; [reflexivity|].
  split; [eexists; reflexivity|].
  split; [reflexivity|]. split; [reflexivity|]. split; [reflexivity|].
  split; [reflexivity|]. cbn [asset_type asset_id asset_metadata].
  split; [reflexivity|].
  split; [assumption|]. split; [apply negb_true_iff; assumption|].
  repeat (split; [assumption|]). assumption.
Qed.

(** X18. What a 201 of the asset route says about the row and the
    registry: the row is the one asset added, under an id no asset had; it
    is a draft whose two timestamps agree; its type is the text of a truthy
    [type] and a label of the enum, its title the text of a truthy
    [title]; it has an owner, and every reference it holds is the id read
    from the request and the key of an existing user, group or project. *)
Theorem created_asset_follows_the_request
    (encode_text : value -> string) (uuid_in : value -> option uuid)
    (jsonb_in : value -> option value) (env : environment)
    (g : registry) (req_body : value)
    (row : asset_row) :
  let fields := or_else req_body (VObject []) in
  let o := post_asset encode_text uuid_in jsonb_in env g req_body in
  answer_sent o = Sent 201 row ->
  registry_after o = add_asset g row /\
  has_asset g (asset_id row) = false /\
  asset_status row = "draft" /\
  asset_created_at row = asset_updated_at row /\
  truthy (get fields "type") = true /\
  asset_type row = encode_text (get fields "type") /\
  In (asset_type row) asset_type_enum /\
  truthy (get fields "title") = true /\
  asset_title row = encode_text (get fields "title") /\
  (asset_owner_user_id row <> None \/ asset_owner_group_id row <> None) /\
  (forall id, asset_owner_user_id row = Some id ->
              In id (users g) /\
              uuid_in (get fields "owner_user_id") = Some id) /\
  (forall id, asset_owner_group_id row = Some id ->
              In id (groups g) /\
              uuid_in (get fields "owner_group_id") = Some id) /\
  (forall id, asset_project_id row = Some id ->
              In id (projects g) /\
              uuid_in (get fields "project_id") = Some id).
Proof.
  cbv zeta. intros Hr.
  destruct (post_asset_cases encode_text uuid_in jsonb_in env g req_body)
    as [[_ H]|[(_ & _ & H & _)
              |[(Hty & Hti & row' & ou & og & pr & H & Hg & _ & Hou & Hog
                 & Hpr & Hrow & _ & Hlabel & Hfresh & Hu & Hgr & Hp
                 & Hown)
               |(_ & [H|H] & _)]]].
  4, 5: rewrite H in Hr; discriminate Hr.
  - rewrite H in Hr. discriminate Hr.
  - rewrite H in Hr. discriminate Hr.
  - rewrite H in Hr. injection Hr as <-.
    assert (Href : forall v ids r id,
               reference_in uuid_in (or_else v VNull) = Some r ->
               refers_to ids r = true -> r = Some id ->
               In id ids /\ uuid_in v = Some id).
    { intros v ids r id Hin Hrefers ->. rewrite reference_in_param in Hin.
      split; [apply member_In; exact Hrefers|].
      destruct (truthy v); [|discriminate Hin].
      destruct (uuid_in v); [|discriminate Hin]. congruence. }
    split; [exact Hg|]. split; [exact Hfresh|].
    rewrite Hrow in *. cbn [asset_id asset_status asset_created_at
                              asset_updated_at asset_type asset_title
                              asset_owner_user_id asset_owner_group_id
                              asset_project_id] in *.
    split; [reflexivity|]. split; [reflexivity|]. split; [exact Hty|].
    split; [reflexivity|]. split; [apply member_In; exact Hlabel|].
    split; [exact Hti|]. split; [reflexivity|].
    split.
    { unfold has_owner in Hown.
      cbn [asset_owner_user_id asset_owner_group_id] in Hown.
      destruct ou; [left; discriminate|].
      destruct og; [right; discriminate|discriminate Hown]. }
    split; [intros id; apply (Href _ _ _ _ Hou Hu)|].
    split; [intros id; apply (Href _ _ _ _ Hog Hgr)|].
    intros id; apply (Href _ _ _ _ Hpr Hp).
Qed.

Lemma created_asset_follows_the_request_witness :
  answer_sent (create studio new_painting) = Sent 201 painting /\
  registry_after (create studio new_painting) = add_asset studio painting.
Proof.
  assert (H : answer_sent (create studio new_painting) = Sent 201 painting)
    by (vm_compute; reflexivity).
  split; [exact H|].
  exact (proj1 (created_asset_follows_the_request Sample.encode_text
                  Sample.uuid_in jsonb_object Sample.calm studio
                  new_painting painting H)).
Defined.

(** X19. An asset cannot be created without an owner.  The handler asks
    for a type and a title only, but the table requires an owner: a request
    whose [owner_user_id] and [owner_group_id] are both falsy is answered
    400 (no type or title) or 500 "Failed to create asset", never 201, and
    the registry stays as it was. *)
Theorem asset_without_owner_is_never_created
    (encode_text : value -> string) (uuid_in : value -> option uuid)
    (jsonb_in : value -> option value) (env : environment)
    (g : registry) (req_body : value) :
  let fields := or_else req_body (VObject []) in
  let o := post_asset encode_text uuid_in jsonb_in env g req_body in
  truthy (get fields "owner_user_id") = false ->
  truthy (get fields "owner_group_id") = false ->
  (answer_sent o = asset_required \/ answer_sent o = asset_failed) /\
  registry_after o = g.
Proof.
  cbv zeta. intros Hu Hg.
  assert (Hsteady : forall env',
            registry_after (post_asset encode_text uuid_in jsonb_in env' g
                              req_body) = g \/
            verdict_of env' O = Lost true).
  { intros env'.
    destruct (post_asset_cases encode_text uuid_in jsonb_in env' g req_body)
      as [[_ H]|[(_ & _ & _ & Hsame & _)
                |[(_ & _ & row & ou & og & pr & _ & _ & _ & Hou & Hog & _
                   & Hrow & _ & _ & _ & _ & _ & _ & Hown)
                 |(Hv & _)]]].
    - left. rewrite H. reflexivity.
    - left. exact Hsame.
    - exfalso. rewrite reference_in_param, Hu in Hou.
      rewrite reference_in_param, Hg in Hog.
      injection Hou as <-. injection Hog as <-.
      rewrite Hrow in Hown. discriminate Hown.
    - right. exact Hv. }
  destruct (post_asset_cases encode_text uuid_in jsonb_in env g req_body)
    as [[_ H]|[(_ & _ & H & Hsame & _)
              |[(_ & _ & row & ou & og & pr & _ & _ & _ & Hou & Hog & _
                 & Hrow & _ & _ & _ & _ & _ & _ & Hown)
               |(_ & H & Hsame)]]].
  - rewrite H. split; [left; reflexivity|reflexivity].
  - split; [right; exact H|exact Hsame].
  - exfalso. rewrite reference_in_param, Hu in Hou.
    rewrite reference_in_param, Hg in Hog.
    injection Hou as <-. injection Hog as <-.
    rewrite Hrow in Hown. discriminate Hown.
  - split; [exact H|]. rewrite Hsame.
    destruct (Hsteady (acknowledged env)) as [Hs|Hv];
      [exact Hs|discriminate Hv].
Qed.

Lemma asset_without_owner_is_never_created_witness :
  (answer_sent (create studio ownerless_painting) = asset_required \/
   answer_sent (create studio ownerless_painting) = asset_failed) /\
  registry_after (create studio ownerless_painting) = studio.
Proof.
  apply (asset_without_owner_is_never_created Sample.encode_text
           Sample.uuid_in jsonb_object Sample.calm studio
           ownerless_painting); reflexivity.
Defined.

Lemma map_no_hit {A} (p : A -> bool) (f : A -> A) (l : list A) :
  filter p l = [] -> map (fun a => if p a then f a else a) l = l.
Proof.
  induction l as [|a l IH]; cbn; [reflexivity|].
  destruct (p a); [discriminate|]. intros H. rewrite (IH H). reflexivity.
Qed.

Lemma filter_nil_existsb {A} (p : A -> bool) (l : list A) :
  filter p l = [] <-> existsb p l = false.
Proof.
  induction l as [|a l IH]; cbn; [split; reflexivity|].
  destruct (p a); cbn; [split; discriminate|exact IH].
Qed.

(** Under a key at most one row is found. *)
Lemma filter_key_unique (key : uuid) (l : list asset_row) (a : asset_row)
    (rest : list asset_row) :
  NoDup (map asset_id l) ->
  filter (fun x => String.eqb (asset_id x) key) l = a :: rest ->
  rest = [].
Proof.
  induction l as [|x l IH]; cbn; [discriminate|].
  intros Hnd Hf. inversion Hnd as [|? ? Hx Hl]; subst.
  destruct (String.eqb (asset_id x) key) eqn:E.
  - apply String.eqb_eq in E. injection Hf as <- Hrest.
    destruct rest as [|b rest]; [reflexivity|]. exfalso.
    assert (Hb : In b (filter (fun x => String.eqb (asset_id x) key) l))
      by (rewrite Hrest; left; reflexivity).
    apply filter_In in Hb. destruct Hb as [Hb Hkey].
    apply String.eqb_eq in Hkey. apply Hx. rewrite E, <- Hkey.
    apply in_map. exact Hb.
  - exact (IH Hl Hf).
Qed.

(** The ways the update handler can end: with a 500 and the registry as
    it was; with a 404; with a 200 and one asset updated; and, when the
    acknowledgement of the [UPDATE] is lost, with a 500 and the registry
    an acknowledged run would have left. *)
Lemma patch_asset_cases (encode_text : value -> string)
    (uuid_in : value -> option uuid) (jsonb_in : value -> option value)
    (env : environment) (g : registry) (id : string) (req_body : value) :
  let o := patch_asset encode_text uuid_in jsonb_in env g id req_body in
  let fields := or_else req_body (VObject []) in
  let label := if truthy (get fields "status")
               then Some (encode_text (get fields "status")) else None in
  (answer_sent o = update_failed /\ registry_after o = g)
  \/
  (exists key,
     uuid_in (VString id) = Some key /\ has_asset g key = false /\
     answer_sent o = asset_not_found /\ registry_after o = g)
  \/
  (exists key old rest stored,
     uuid_in (VString id) = Some key /\
     filter (fun a => String.eqb (asset_id a) key) (assets g)
     = old :: rest /\
     match label with
     | Some s => member s asset_status_enum = true
     | None => True
     end /\
     match stored with
     | Some m => truthy (get fields "metadata") = true /\
                 jsonb_in (get fields "metadata") = Some m
     | None => truthy (get fields "metadata") = false
     end /\
     answer_sent o = Sent 200 (updated (now env) label stored old) /\
     registry_after o
     = {| users := users g; groups := groups g; projects := projects g;
          assets :=
            map (fun a => if String.eqb (asset_id a) key
                          then updated (now env) label stored a
                          else a) (assets g) |})
  \/
  (verdict_of env O = Lost true /\
   answer_sent o = update_failed /\
   registry_after o
   = registry_after (patch_asset encode_text uuid_in jsonb_in
                       (acknowledged env) g id req_body)).
Proof.
  cbv zeta. unfold patch_asset, db_query, run_statement.
  cbn [acknowledged verdict_of].
  destruct (verdict_of env 0) as [| |[|]];
    [|left; split; reflexivity
     |right; right; right; split; [reflexivity|]; split; [reflexivity|];
      destruct (serve_statement _ _ _ _ _ _ _) as [[rows|] g']; reflexivity
     |left; split; reflexivity].
  unfold serve_statement, update_asset.
  rewrite text_or_null_param, is_nullish_param.
  destruct (uuid_in (VString id)) as [key|]; [|left; split; reflexivity].
  assert (Hstored :
            forall stored,
              (if negb (truthy (get (or_else req_body (VObject []))
                                    "metadata"))
               then Some None
               else match jsonb_in (or_else (get (or_else req_body
                                                    (VObject []))
                                                 "metadata") VNull) with
                    | Some m => Some (Some m)
                    | None => None
                    end) = Some stored ->
              match stored with
              | Some m =>
                  truthy (get (or_else req_body (VObject [])) "metadata")
                  = true /\
                  jsonb_in (get (or_else req_body (VObject [])) "metadata")
                  = Some m
              | None =>
                  truthy (get (or_else req_body (VObject [])) "metadata")
                  = false
              end).
  { intros stored.
    destruct (truthy (get (or_else req_body (VObject [])) "metadata"))
      eqn:Ht; cbn [negb].
    - rewrite (or_else_truthy _ VNull Ht).
      destruct (jsonb_in (get (or_else req_body (VObject [])) "metadata"));
        [|discriminate]. intros [= <-]. auto.
    - intros [= <-]. reflexivity. }
  destruct (if negb (truthy (get (or_else req_body (VObject []))
                                 "metadata"))
            then Some None
            else match jsonb_in (or_else (get (or_else req_body
                                                 (VObject []))
                                              "metadata") VNull) with
                 | Some m => Some (Some m)
                 | None => None
                 end) as [stored|]; [|left; split; reflexivity].
  specialize (Hstored stored eq_refl).
  match goal with
  | |- context [if ?c then Some _ else None] => destruct c eqn:Hchk
  end; [|left; split; reflexivity].
  apply andb_true_iff in Hchk. destruct Hchk as [Hlabel _].
  right.
  destruct (filter (fun a => String.eqb (asset_id a) key) (assets g))
    as [|old rest] eqn:Hf.
  - left. exists key. split; [reflexivity|].
    split; [apply filter_nil_existsb; exact Hf|].
    cbn [map List.length Nat.eqb answer_sent registry_after].
    split; [reflexivity|]. rewrite (map_no_hit _ _ _ Hf).
    destruct g; reflexivity.
  - right. left. exists key, old, rest, stored. split; [reflexivity|].
    split; [exact Hf|].
    split.
    { destruct (truthy (get (or_else req_body (VObject [])) "status"));
        [exact Hlabel|exact I]. }
    split; [exact Hstored|].
    cbn [map List.length Nat.eqb answer_sent registry_after first_row].
    split; reflexivity.
Qed.

Lemma updated_status (now : Z) (label : option string)
    (metadata : option value) (a : asset_row) :
  asset_status (updated now label metadata a)
  = match label with Some s => s | None => asset_status a end.
Proof. reflexivity. Qed.

(** X20. An update changes the status, the metadata and [updated_at] of
    one asset and nothing else.  After a 200 the row sent is the asset of
    that id with every other column as before; its status is the text of
    [status] (a label of the enum) when [status] is truthy and the old one
    otherwise, its metadata is what the store reads from [metadata] when
    truthy and the old one otherwise, so neither can be cleared, and
    [updated_at] is stamped even when the body is empty.  The registry is
    the old one with that one row replaced. *)
Theorem patch_changes_status_and_metadata_only
    (encode_text : value -> string) (uuid_in : value -> option uuid)
    (jsonb_in : value -> option value) (env : environment) (g : registry)
    (id : string) (req_body : value)
    (row : asset_row) :
  let fields := or_else req_body (VObject []) in
  let o := patch_asset encode_text uuid_in jsonb_in env g id req_body in
  NoDup (map asset_id (assets g)) ->
  answer_sent o = Sent 200 row ->
  exists old,
    In old (assets g) /\
    uuid_in (VString id) = Some (asset_id old) /\
    registry_after o = replace_asset g (asset_id old) row /\
    asset_status row
    = (if truthy (get fields "status")
       then encode_text (get fields "status") else asset_status old) /\
    (truthy (get fields "status") = true ->
     In (asset_status row) asset_status_enum) /\
    (if truthy (get fields "metadata")
     then jsonb_in (get fields "metadata") = Some (asset_metadata row)
     else asset_metadata row = asset_metadata old) /\
    asset_updated_at row = now env /\
    asset_id row = asset_id old /\
    asset_type row = asset_type old /\
    asset_title row = asset_title old /\
    asset_description row = asset_description old /\
    asset_source row = asset_source old /\
    asset_owner_user_id row = asset_owner_user_id old /\
    asset_owner_group_id row = asset_owner_group_id old /\
    asset_project_id row = asset_project_id old /\
    asset_storage_uri row = asset_storage_uri old /\
    asset_thumbnail_uri row = asset_thumbnail_uri old /\
    asset_external_ref row = asset_external_ref old /\
    asset_created_at row = asset_created_at old.
Proof.
  cbv zeta. intros Hnd Hr.
  destruct (patch_asset_cases encode_text uuid_in jsonb_in env g id req_body)
    as [[H _]|[(key & _ & _ & H & _)
              |[(key & old & rest & stored & Hkey & Hf & Hlabel & Hstored
                 & H & Hg)
               |(_ & H & _)]]].
  4: { rewrite H in Hr. discriminate Hr. }
  - rewrite H in Hr. discriminate Hr.
  - rewrite H in Hr. discriminate Hr.
  - rewrite H in Hr. injection Hr as <-.
    pose proof (filter_key_unique key (assets g) old rest Hnd Hf) as ->.
    assert (Hold : In old (assets g) /\ asset_id old = key).
    { assert (Hin : In old (filter (fun a => String.eqb (asset_id a) key)
                              (assets g)))
        by (rewrite Hf; left; reflexivity).
      apply filter_In in Hin. destruct Hin as [Hin Heq].
      apply String.eqb_eq in Heq. auto. }
    destruct Hold as [Hin Hid]. exists old.
    split; [exact Hin|]. split; [congruence|].
    split.
    { rewrite Hg. unfold replace_asset. f_equal. rewrite Hid.
      apply map_ext_in. intros a Ha.
      destruct (String.eqb (asset_id a) key) eqn:E; [|reflexivity].
      assert (Hin' : In a (filter (fun a => String.eqb (asset_id a) key)
                             (assets g)))
        by (apply filter_In; auto).
      rewrite Hf in Hin'. destruct Hin' as [<-|[]]. reflexivity. }
    split.
    { rewrite updated_status.
      destruct (truthy (get (or_else req_body (VObject [])) "status"));
        reflexivity. }
    split.
    { intros Ht. rewrite updated_status. rewrite Ht in *.
      apply member_In. exact Hlabel. }
    split.
    { cbn [updated asset_metadata].
      destruct stored as [m|]; [destruct Hstored as [-> Hm]; exact Hm|].
      rewrite Hstored. reflexivity. }
    repeat (split; [reflexivity|]). reflexivity.
Qed.

Lemma patch_changes_status_and_metadata_only_witness :
  answer_sent (update studio first_song publish) = Sent 200 published_song /\
  exists old,
    In old (assets studio) /\
    registry_after (update studio first_song publish)
    = replace_asset studio (asset_id old) published_song.
Proof.
  assert (H : answer_sent (update studio first_song publish)
              = Sent 200 published_song) by (vm_compute; reflexivity).
  assert (Hnd : NoDup (map asset_id (assets studio))).
  { cbn. constructor; [intros []|constructor]. }
  split; [exact H|].
  destruct (patch_changes_status_and_metadata_only Sample.encode_text
              Sample.uuid_in jsonb_object Sample.calm studio first_song
              publish published_song Hnd H) as (old & Hin & _ & Hg & _).
  exists old. split; [exact Hin|exact Hg].
Defined.

(** X21. An update that is not answered 200 changes nothing, with one
    exception.  The answer is then 404 "Asset not found", when the id is a
    uuid that no asset has, or 500 "Failed to update asset".  After a 404
    the registry is as before.  After a 500 it is as before too, unless
    the server applied the [UPDATE] and its acknowledgement was lost: the
    registry is then the one an acknowledged run of the same request would
    have left, which differs from the old one when that run is answered
    200 and changes a column. *)
Theorem patch_failure_changes_nothing_unless_applied
    (encode_text : value -> string) (uuid_in : value -> option uuid)
    (jsonb_in : value -> option value) (env : environment) (g : registry)
    (id : string) (req_body : value) :
  let o := patch_asset encode_text uuid_in jsonb_in env g id req_body in
  let o' := patch_asset encode_text uuid_in jsonb_in (acknowledged env) g id
              req_body in
  (exists row, answer_sent o = Sent 200 row) \/
  (answer_sent o = asset_not_found /\ registry_after o = g /\
   exists key, uuid_in (VString id) = Some key /\
               has_asset g key = false) \/
  (answer_sent o = update_failed /\
   (registry_after o = g \/
    (verdict_of env O = Lost true /\
     registry_after o = registry_after o' /\
     (registry_after o' <> g -> exists row, answer_sent o' = Sent 200 row)))).
Proof.
  cbv zeta.
  destruct (patch_asset_cases encode_text uuid_in jsonb_in env g id req_body)
    as [[H Hg]|[(key & Hkey & Hno & H & Hg)
               |[(key & old & rest & stored & _ & _ & _ & _ & H & _)
                |(Hv & H & Hg)]]].
  - right. right. split; [exact H|left; exact Hg].
  - right. left. split; [exact H|]. split; [exact Hg|].
    exists key. auto.
  - left. eexists. exact H.
  - right. right. split; [exact H|]. right. split; [exact Hv|].
    split; [exact Hg|]. intros Hne.
    destruct (patch_asset_cases encode_text uuid_in jsonb_in
                (acknowledged env) g id req_body)
      as [[_ Hg']|[(key & _ & _ & _ & Hg')
                  |[(key & old & rest & stored & _ & _ & _ & _ & H' & _)
                   |(Hv' & _)]]].
    + contradiction.
    + contradiction.
    + eexists. exact H'.
    + discriminate Hv'.
Qed.

(** The update that publishes the song, applied by the server and
    answered as a failure because its acknowledgement was lost. *)
Example update_applied_but_reported_failed :
  let o := patch_asset Sample.encode_text Sample.uuid_in jsonb_object
             (Sample.unacknowledged_at 0) studio first_song publish in
  answer_sent o = update_failed /\
  registry_after o = replace_asset studio first_song published_song /\
  registry_after o <> studio.
Proof.
  cbv zeta. split; [vm_compute; reflexivity|].
  split; [vm_compute; reflexivity|]. vm_compute. discriminate.
Qed.

(** X22. Fetching an asset never changes the registry, and its answer
    tells what the registry holds: 200 carries an asset of the table whose
    id is the one read from the path; 404 means the path holds a uuid that
    no asset has; and a path that is not a uuid is answered 500 "Failed to
    fetch asset", like a failure of the store, not 404. *)
Theorem get_asset_finds_by_id
    (encode_text : value -> string) (uuid_in : value -> option uuid)
    (jsonb_in : value -> option value) (env : environment)
    (g : registry) (id : string) :
  let o := get_asset encode_text uuid_in jsonb_in env g id in
  registry_after o = g /\
  match answer_sent o with
  | Sent code row =>
      code = 200 /\ In row (assets g) /\
      uuid_in (VString id) = Some (asset_id row)
  | Refusal r =>
      (Refusal r = asset_not_found /\
       exists key, uuid_in (VString id) = Some key /\
                   has_asset g key = false) \/
      (Refusal r = fetch_failed /\
       (verdict_of env O <> Healthy \/ uuid_in (VString id) = None))
  end.
Proof.
  cbv zeta. unfold get_asset, db_query, run_statement, serve_statement.
  destruct (verdict_of env 0) as [| |[|]] eqn:Hv;
    [|split; [reflexivity|]; right; split; [reflexivity|];
      left; discriminate
     |split; [reflexivity|]; right; split; [reflexivity|];
      left; discriminate
     |split; [reflexivity|]; right; split; [reflexivity|];
      left; discriminate].
  unfold select_asset.
  destruct (uuid_in (VString id)) as [key|] eqn:Hkey;
    [|split; [reflexivity|]; right; split; [reflexivity|];
      right; reflexivity].
  cbn [answer_sent registry_after]. split; [reflexivity|].
  destruct (filter (fun a => String.eqb (asset_id a) key) (assets g))
    as [|a rest] eqn:Hf; cbn [List.length Nat.eqb first_row].
  - left. split; [reflexivity|]. exists key. split; [reflexivity|].
    apply filter_nil_existsb. exact Hf.
  - assert (Hin : In a (filter (fun a => String.eqb (asset_id a) key)
                          (assets g)))
      by (rewrite Hf; left; reflexivity).
    apply filter_In in Hin. destruct Hin as [Hin Heq].
    apply String.eqb_eq in Heq. split; [reflexivity|].
    split; [exact Hin|]. congruence.
Qed.

Lemma asset_ok_same_keys (g g' : registry) (a : asset_row) :
  users g' = users g -> groups g' = groups g -> projects g' = projects g ->
  asset_ok g a -> asset_ok g' a.
Proof. unfold asset_ok. intros -> -> ->. exact (fun H => H). Qed.

Lemma post_asset_keeps_the_schema (encode_text : value -> string)
    (uuid_in : value -> option uuid) (jsonb_in : value -> option value)
    (env : environment) (g : registry) (new_asset : value) :
  assets_ok g ->
  assets_ok (registry_after (post_asset encode_text uuid_in jsonb_in env g
                               new_asset)) \/
  (verdict_of env O = Lost true /\
   registry_after (post_asset encode_text uuid_in jsonb_in env g new_asset)
   = registry_after (post_asset encode_text uuid_in jsonb_in
                       (acknowledged env) g new_asset)).
Proof.
  intros [Hnd Hall].
  destruct (post_asset_cases encode_text uuid_in jsonb_in env g new_asset)
    as [[_ ->]|[(_ & _ & _ & -> & _)
              |[(_ & _ & row & ou & og & pr & _ & -> & _ & _ & _ & _
                 & Hrow & _ & Hlabel & Hfresh & Hu & Hgr & Hp & Hown)
               |(Hv & _ & Hg)]]];
    [left; split; assumption|left; split; assumption| |right; auto].
  left. unfold assets_ok, add_asset. cbn [assets]. split.
  - rewrite map_app. cbn [map]. apply NoDup_snoc; [exact Hnd|].
    intros Hin. apply has_asset_In in Hin. congruence.
  - apply Forall_app. split.
    + eapply Forall_impl; [|exact Hall]. intros a Ha.
      eapply asset_ok_same_keys; [| | |exact Ha]; reflexivity.
    + constructor; [|constructor]. unfold asset_ok.
      cbn [users groups projects].
      split; [apply member_In; exact Hlabel|].
      rewrite Hrow in *.
      cbn [asset_status asset_owner_user_id asset_owner_group_id
           asset_project_id] in *.
      split; [cbn; auto|]. split; [exact Hown|]. auto.
Qed.

Lemma patch_asset_keeps_the_schema (encode_text : value -> string)
    (uuid_in : value -> option uuid) (jsonb_in : value -> option value)
    (env : environment) (g : registry) (id : string) (req_body : value) :
  assets_ok g ->
  assets_ok (registry_after (patch_asset encode_text uuid_in jsonb_in env g id
                               req_body)) \/
  (verdict_of env O = Lost true /\
   registry_after (patch_asset encode_text uuid_in jsonb_in env g id req_body)
   = registry_after (patch_asset encode_text uuid_in jsonb_in
                       (acknowledged env) g id req_body)).
Proof.
  intros [Hnd Hall].
  destruct (patch_asset_cases encode_text uuid_in jsonb_in env g id req_body)
    as [[_ ->]|[(key & _ & _ & _ & ->)
               |[(key & old & rest & stored & _ & _ & Hlabel & _ & _
                  & ->)
                |(Hv & _ & Hg)]]];
    [left; split; assumption|left; split; assumption| |right; auto].
  left. unfold assets_ok. cbn [assets]. split.
  - rewrite map_map.
    rewrite (map_ext _ asset_id); [exact Hnd|].
    intros a. destruct (String.eqb (asset_id a) key); reflexivity.
  - rewrite Forall_forall in *. intros a' Hin.
    apply in_map_iff in Hin. destruct Hin as (a & <- & Hin).
    specialize (Hall a Hin).
    destruct (String.eqb (asset_id a) key);
      [|eapply asset_ok_same_keys; [| | |exact Hall]; reflexivity].
    destruct Hall as (H1 & H2 & H3 & H4 & H5 & H6).
    unfold asset_ok. cbn [users groups projects].
    split; [exact H1|]. split.
    { rewrite updated_status.
      destruct (truthy (get (or_else req_body (VObject [])) "status"));
        [apply member_In; exact Hlabel|exact H2]. }
    split; [exact H3|]. auto.
Qed.

(** X23. The two writing routes keep the constraints of the schema on
    the asset table: if ids are unique and every asset has a type and a
    status of the enums, an owner, and references to existing rows, this
    still holds after any creation request and after any update request,
    whatever their outcome. *)
Theorem asset_routes_keep_the_schema
    (encode_text : value -> string) (uuid_in : value -> option uuid)
    (jsonb_in : value -> option value) (env : environment)
    (g : registry) (id : string)
    (new_asset req_body : value) :
  assets_ok g ->
  assets_ok (registry_after (post_asset encode_text uuid_in jsonb_in env g
                               new_asset)) /\
  assets_ok (registry_after (patch_asset encode_text uuid_in jsonb_in env g id
                               req_body)).
Proof.
  intros Hok. split.
  - destruct (post_asset_keeps_the_schema encode_text uuid_in jsonb_in env g
                new_asset Hok) as [H|(_ & ->)]; [exact H|].
    destruct (post_asset_keeps_the_schema encode_text uuid_in jsonb_in
                (acknowledged env) g new_asset Hok) as [H|(Hv & _)];
      [exact H|discriminate Hv].
  - destruct (patch_asset_keeps_the_schema encode_text uuid_in jsonb_in env g
                id req_body Hok) as [H|(_ & ->)]; [exact H|].
    destruct (patch_asset_keeps_the_schema encode_text uuid_in jsonb_in
                (acknowledged env) g id req_body Hok) as [H|(Hv & _)];
      [exact H|discriminate Hv].
Qed.

Lemma assets_ok_studio : assets_ok studio.
Proof.
  split.
  - cbn. constructor; [intros []|constructor].
  - constructor; [|constructor]. unfold asset_ok. cbn.
    repeat split; auto.
Qed.

Lemma asset_routes_keep_the_schema_witness :
  assets_ok studio /\
  assets_ok (registry_after (create studio new_painting)) /\
  assets_ok (registry_after (update studio first_song publish)).
Proof.
  split; [exact assets_ok_studio|].
  apply (asset_routes_keep_the_schema Sample.encode_text Sample.uuid_in
           jsonb_object Sample.calm studio first_song new_painting publish).
  exact assets_ok_studio.
Defined.

(** X24. A created asset can be fetched.  After a 201, a fetch of the id
    of the row, on a store that works and reads that id as itself, answers
    200 with the same row. *)
Theorem created_asset_can_be_fetched
    (encode_text : value -> string) (uuid_in : value -> option uuid)
    (jsonb_in : value -> option value) (env env' : environment)
    (g : registry) (req_body : value)
    (row : asset_row) :
  let o := post_asset encode_text uuid_in jsonb_in env g req_body in
  answer_sent o = Sent 201 row ->
  verdict_of env' O = Healthy ->
  uuid_in (VString (asset_id row)) = Some (asset_id row) ->
  answer_sent (get_asset encode_text uuid_in jsonb_in env' (registry_after o)
                 (asset_id row))
  = Sent 200 row.
Proof.
  cbv zeta. intros Hr Hv Hid.
  destruct (post_asset_cases encode_text uuid_in jsonb_in env g req_body)
    as [[_ H]|[(_ & _ & H & _)
              |[(_ & _ & row' & ou & og & pr & H & Hg & _ & _ & _ & _ & _
                 & _ & _ & Hfresh & _)
               |(_ & [H|H] & _)]]].
  4, 5: rewrite H in Hr; discriminate Hr.
  - rewrite H in Hr. discriminate Hr.
  - rewrite H in Hr. discriminate Hr.
  - rewrite H in Hr. injection Hr as <-. rewrite Hg.
    unfold get_asset, db_query, run_statement. rewrite Hv.
    unfold serve_statement, select_asset.
    rewrite Hid. unfold add_asset. cbn [assets answer_sent].
    rewrite filter_app.
    assert (Hnone : filter (fun a => String.eqb (asset_id a) (asset_id row'))
                           (assets g) = [])
      by (apply filter_nil_existsb; exact Hfresh).
    rewrite Hnone. cbn [filter app]. rewrite String.eqb_refl.
    reflexivity.
Qed.

Lemma created_asset_can_be_fetched_witness :
  answer_sent (fetch (registry_after (create studio new_painting))
                 (asset_id painting))
  = Sent 200 painting.
Proof.
  apply (created_asset_can_be_fetched Sample.encode_text Sample.uuid_in
           jsonb_object Sample.calm Sample.calm studio new_painting
           painting); reflexivity.
Defined.

(* ====================================================================== *)
(** ** Postings of whole amounts *)
(* ====================================================================== *)

(** The bit length of a positive integer is fixed by its bounds. *)
Lemma digits2_pos_unique (n : positive) (k : Z) :
  2 ^ (k - 1) <= Zpos n < 2 ^ k -> Zpos (digits2_pos n) = k.
Proof.
  intros [Hlo Hhi].
  pose proof (digits2_pos_lower n) as Hl.
  pose proof (digits2_pos_bound n) as Hu.
  assert (0 < k).
  { destruct (Z.lt_ge_cases 0 k) as [H|H]; [exact H|].
    exfalso. destruct (Z.eq_dec k 0) as [->|Hk]; [cbn in Hhi; lia|].
    rewrite (Z.pow_neg_r 2 k) in Hhi by lia. lia. }
  assert (H1 : k - 1 < Zpos (digits2_pos n)).
  { apply (Z.pow_lt_mono_r_iff 2); lia. }
  assert (H2 : Zpos (digits2_pos n) - 1 < k).
  { apply (Z.pow_lt_mono_r_iff 2); lia. }
  lia.
Qed.

Lemma Zdigits2_shift (n : positive) (t : Z) :
  0 <= t -> Zdigits2 (Zpos n * 2 ^ t) = Zpos (digits2_pos n) + t.
Proof.
  intros Ht.
  pose proof (digits2_pos_lower n) as Hl.
  pose proof (digits2_pos_bound n) as Hu.
  pose proof (Z.pow_pos_nonneg 2 t ltac:(lia) Ht) as Hp.
  destruct (Zpos n * 2 ^ t) as [|m|m] eqn:E; try lia.
  cbn [Zdigits2]. apply digits2_pos_unique. rewrite <- E.
  replace (Zpos (digits2_pos n) + t - 1)
    with ((Zpos (digits2_pos n) - 1) + t) by lia.
  rewrite !Z.pow_add_r by lia. nia.
Qed.

(** Shifting out zero bits loses nothing. *)
Lemma shr_1_even (m : Z) :
  0 <= m ->
  shr_1 {| shr_m := 2 * m; shr_r := false; shr_s := false |}
  = {| shr_m := m; shr_r := false; shr_s := false |}.
Proof. intros Hm. destruct m as [|p|p]; [reflexivity|reflexivity|lia]. Qed.

Lemma iter_shr_1_exact (p : positive) (m : Z) :
  0 <= m ->
  iter_pos shr_1 p {| shr_m := m * 2 ^ Zpos p; shr_r := false;
                      shr_s := false |}
  = {| shr_m := m; shr_r := false; shr_s := false |}.
Proof.
  revert m. induction p as [p IH|p IH|]; intros m Hm; cbn [iter_pos].
  - replace (m * 2 ^ Zpos p~1) with (2 * ((m * 2 ^ Zpos p) * 2 ^ Zpos p)).
    + rewrite shr_1_even by (apply Z.mul_nonneg_nonneg; [|lia];
                             apply Z.mul_nonneg_nonneg; lia).
      rewrite IH by (apply Z.mul_nonneg_nonneg; lia).
      apply IH. exact Hm.
    + replace (Zpos p~1) with (1 + Zpos p + Zpos p) by lia.
      rewrite !Z.pow_add_r by lia. lia.
  - replace (m * 2 ^ Zpos p~0) with ((m * 2 ^ Zpos p) * 2 ^ Zpos p).
    + rewrite IH by (apply Z.mul_nonneg_nonneg; lia).
      apply IH. exact Hm.
    + replace (Zpos p~0) with (Zpos p + Zpos p) by lia.
      rewrite !Z.pow_add_r by lia. lia.
  - replace (m * 2 ^ 1) with (2 * m) by lia. apply shr_1_even. exact Hm.
Qed.

(** Rounding a value that fits the mantissa is exact: any way of writing
    the integer [n] below [2^53] as a mantissa with a non-positive
    exponent rounds to the number that holds [n]. *)
Lemma binary_round_aux_exact (n : positive) (t : Z) :
  Zpos n < 2 ^ 53 ->
  53 - Zpos (digits2_pos n) <= t ->
  binary_round_aux Num.prec Num.emax false (Zpos n * 2 ^ t) (- t) loc_Exact
  = whole n.
Proof.
  intros Hn Ht.
  pose proof (digits2_pos_lower n) as Hl.
  pose proof (digits2_pos_bound n) as Hu.
  assert (Hd : Zpos (digits2_pos n) <= 53).
  { assert (Zpos (digits2_pos n) - 1 < 53)
      by (apply (Z.pow_lt_mono_r_iff 2); lia). lia. }
  assert (Ht0 : 0 <= t) by lia.
  set (u := 53 - Zpos (digits2_pos n)) in *.
  assert (Hu0 : 0 <= u) by (unfold u; lia).
  pose proof (Z.pow_pos_nonneg 2 u ltac:(lia) Hu0) as Hpu.
  assert (Hfexp : forall x, x = Zpos (digits2_pos n) ->
                            fexp Num.prec Num.emax x = - u).
  { intros x ->. unfold fexp, emin, Num.prec, Num.emax, u. lia. }
  unfold binary_round_aux, shr_fexp.
  rewrite Zdigits2_shift by exact Ht0.
  rewrite (Hfexp (Zpos (digits2_pos n) + t + - t)) by lia.
  assert (Hfirst :
            shr (shr_record_of_loc (Zpos n * 2 ^ t) loc_Exact) (- t)
                (- u - - t)
            = ({| shr_m := Zpos n * 2 ^ u; shr_r := false;
                  shr_s := false |}, - u)).
  { unfold shr. cbn [shr_record_of_loc].
    destruct (- u - - t) as [|p|p] eqn:Hp; try lia.
    - replace t with u by lia. reflexivity.
    - replace (Zpos n * 2 ^ t) with ((Zpos n * 2 ^ u) * 2 ^ Zpos p).
      + rewrite iter_shr_1_exact by lia. f_equal. lia.
      + replace t with (u + Zpos p) by lia.
        rewrite Z.pow_add_r by lia. lia. }
  rewrite Hfirst. cbn [shr_m loc_of_shr_record round_nearest_even].
  assert (Hdig : Zdigits2 (Zpos n * 2 ^ u) = 53).
  { rewrite Zdigits2_shift by exact Hu0. unfold u. lia. }
  rewrite Hdig.
  rewrite (Hfexp (53 + - u)) by (unfold u; lia).
  rewrite Z.sub_diag. cbn [shr shr_record_of_loc shr_m].
  unfold whole. fold u.
  destruct (Zpos n * 2 ^ u) as [|m|m] eqn:E; try lia.
  assert (Hle : (- u <=? Num.emax - Num.prec) = true)
    by (apply Z.leb_le; unfold Num.emax, Num.prec; lia).
  rewrite Hle. cbn [Z.to_pos]. f_equal. unfold u. lia.
Qed.

Lemma iter_xO (d m : positive) : Zpos (Pos.iter xO m d) = Zpos m * 2 ^ Zpos d.
Proof.
  induction d as [|d IH] using Pos.peano_ind.
  - cbn. lia.
  - rewrite Pos.iter_succ, Pos2Z.inj_xO, IH, Pos2Z.inj_succ,
      Z.pow_succ_r by lia. lia.
Qed.

(** Below [2^53] every integer is a number of its own. *)
Lemma of_Z_whole (n : positive) :
  Zpos n < 2 ^ 53 -> Num.of_Z (Zpos n) = whole n.
Proof.
  intros Hn. unfold Num.of_Z. cbn [binary_normalize].
  pose proof (digits2_pos_lower n) as Hl.
  assert (Hd : Zpos (digits2_pos n) <= 53).
  { assert (Zpos (digits2_pos n) - 1 < 53)
      by (apply (Z.pow_lt_mono_r_iff 2); lia). lia. }
  unfold binary_round, shl_align.
  assert (Hfexp : fexp Num.prec Num.emax (Zpos (digits2_pos n) + 0)
                  = Zpos (digits2_pos n) - 53).
  { unfold fexp, emin, Num.prec, Num.emax. lia. }
  rewrite Hfexp.
  destruct (Zpos (digits2_pos n) - 53 - 0) as [|p|p] eqn:Hp; try lia.
  - replace (Zpos n) with (Zpos n * 2 ^ 0) by (cbn; lia).
    change 0 with (- 0) at 2.
    apply binary_round_aux_exact; [exact Hn|lia].
  - rewrite iter_xO.
    replace (Zpos (digits2_pos n) - 53) with (- Zpos p) by lia.
    apply binary_round_aux_exact; [exact Hn|lia].
Qed.

Lemma whole_mantissa (n : positive) :
  Zpos n < 2 ^ 53 ->
  Zpos (Z.to_pos (Zpos n * 2 ^ (53 - Zpos (digits2_pos n))))
  = Zpos n * 2 ^ (53 - Zpos (digits2_pos n)) /\
  0 <= 53 - Zpos (digits2_pos n).
Proof.
  intros Hn. pose proof (digits2_pos_lower n) as Hl.
  assert (Hd : Zpos (digits2_pos n) <= 53).
  { assert (Zpos (digits2_pos n) - 1 < 53)
      by (apply (Z.pow_lt_mono_r_iff 2); lia). lia. }
  split; [|lia].
  pose proof (Z.pow_pos_nonneg 2 (53 - Zpos (digits2_pos n))) as Hp.
  rewrite Z2Pos.id; lia.
Qed.

Lemma digits2_pos_le (a b : positive) :
  Zpos a <= Zpos b -> Zpos (digits2_pos a) <= Zpos (digits2_pos b).
Proof.
  intros Hab. pose proof (digits2_pos_lower a) as Hl.
  pose proof (digits2_pos_bound b) as Hu.
  assert (Zpos (digits2_pos a) - 1 < Zpos (digits2_pos b))
    by (apply (Z.pow_lt_mono_r_iff 2); lia).
  lia.
Qed.

Lemma shl_align_value (m : positive) (e ez : Z) :
  ez <= e -> Zpos (fst (shl_align m e ez)) = Zpos m * 2 ^ (e - ez).
Proof.
  intros Hle. unfold shl_align.
  destruct (ez - e) as [|d|d] eqn:Hd; cbn [fst]; try lia.
  - replace (e - ez) with 0 by lia. cbn. lia.
  - rewrite iter_xO. f_equal. f_equal. lia.
Qed.

(** Adding two integers is exact as long as the sum stays below
    [2^53]. *)
Lemma add_whole (a b : positive) :
  Zpos a + Zpos b < 2 ^ 53 ->
  Num.add (whole a) (whole b) = whole (a + b).
Proof.
  intros Hsum.
  destruct (whole_mantissa a ltac:(lia)) as [Ha Hua].
  destruct (whole_mantissa b ltac:(lia)) as [Hb Hub].
  pose proof (digits2_pos_le a (a + b) ltac:(lia)) as Hda.
  pose proof (digits2_pos_le b (a + b) ltac:(lia)) as Hdb.
  unfold Num.add, whole at 1 2. cbn [SFadd].
  set (ea := Zpos (digits2_pos a) - 53) in *.
  set (eb := Zpos (digits2_pos b) - 53) in *.
  set (ez := Z.min ea eb).
  rewrite !shl_align_value by (unfold ez; lia).
  rewrite Ha, Hb. cbn [cond_Zopp].
  assert (Hval : Zpos a * 2 ^ (53 - Zpos (digits2_pos a)) * 2 ^ (ea - ez)
                 + Zpos b * 2 ^ (53 - Zpos (digits2_pos b)) * 2 ^ (eb - ez)
                 = Zpos (a + b) * 2 ^ (- ez)).
  { rewrite <- !Z.mul_assoc, <- !Z.pow_add_r by (unfold ez; lia).
    replace (53 - Zpos (digits2_pos a) + (ea - ez)) with (- ez)
      by (unfold ea; lia).
    replace (53 - Zpos (digits2_pos b) + (eb - ez)) with (- ez)
      by (unfold eb; lia).
    lia. }
  rewrite Hval.
  pose proof (Z.pow_pos_nonneg 2 (- ez) ltac:(lia)
                ltac:(unfold ez, ea, eb; lia)) as Hp.
  destruct (Zpos (a + b) * 2 ^ (- ez)) as [|m|m] eqn:E; try lia.
  cbn [binary_normalize]. unfold binary_round, shl_align.
  assert (Hdig : Zpos (digits2_pos m) = Zpos (digits2_pos (a + b)) + - ez).
  { change (Zpos (digits2_pos m)) with (Zdigits2 (Zpos m)). rewrite <- E.
    apply Zdigits2_shift. unfold ez, ea, eb. lia. }
  rewrite Hdig.
  assert (Hfexp : fexp Num.prec Num.emax
                    (Zpos (digits2_pos (a + b)) + - ez + ez)
                  = Zpos (digits2_pos (a + b)) - 53).
  { unfold fexp, emin, Num.prec, Num.emax. lia. }
  rewrite Hfexp.
  destruct (Zpos (digits2_pos (a + b)) - 53 - ez) as [|d|d] eqn:Hd;
    try (unfold ez, ea, eb in Hd; lia).
  - rewrite <- E. replace ez with (- - ez) at 2 by lia.
    apply binary_round_aux_exact; [lia|unfold ez, ea, eb; lia].
  - rewrite <- E. replace ez with (- - ez) at 2 by lia.
    apply binary_round_aux_exact; [lia|unfold ez, ea, eb; lia].
Qed.

(** The number of a non-negative integer below [2^53]. *)
Lemma of_Z_cases (n : Z) :
  0 <= n < 2 ^ 53 ->
  (n = 0 /\ Num.of_Z n = S754_zero false) \/
  (exists p, n = Zpos p /\ Num.of_Z n = whole p).
Proof.
  intros Hn. destruct n as [|p|p]; [left; auto| |lia].
  right. exists p. split; [reflexivity|]. apply of_Z_whole. lia.
Qed.

Lemma add_of_Z (a b : Z) :
  0 <= a -> 0 < b -> a + b < 2 ^ 53 ->
  Num.add (Num.of_Z a) (Num.of_Z b) = Num.of_Z (a + b).
Proof.
  intros Ha Hb Hsum.
  destruct (of_Z_cases b ltac:(lia)) as [[-> _]|(q & -> & Hq)]; [lia|].
  destruct (of_Z_cases a ltac:(lia)) as [[-> Hz]|(p & -> & Hp)].
  - rewrite Z.add_0_l, Hz, Hq. reflexivity.
  - rewrite Hp, Hq. rewrite add_whole by lia.
    symmetry. apply (of_Z_whole (p + q)). lia.
Qed.

(** Two integers below [2^53] that are equal as numbers are equal. *)
Lemma eqb_of_Z (a b : Z) :
  0 <= a < 2 ^ 53 -> 0 <= b < 2 ^ 53 ->
  Num.eqb (Num.of_Z a) (Num.of_Z b) = true -> a = b.
Proof.
  intros Ha Hb.
  destruct (of_Z_cases a Ha) as [[-> Hza]|(p & -> & Hp)];
    destruct (of_Z_cases b Hb) as [[-> Hzb]|(q & -> & Hq)];
    rewrite ?Hza, ?Hzb, ?Hp, ?Hq; try reflexivity; try discriminate.
  unfold Num.eqb, SFeqb, whole, SFcompare.
  destruct (Z.compare_spec (Zpos (digits2_pos p) - 53)
              (Zpos (digits2_pos q) - 53)) as [He|He|He];
    try discriminate.
  destruct (Pos.compare_cont Eq _ _) eqn:Hc; try discriminate.
  intros _. apply Pos.compare_eq in Hc.
  apply (f_equal Zpos) in Hc.
  destruct (whole_mantissa p ltac:(lia)) as [Hmp Hup].
  destruct (whole_mantissa q ltac:(lia)) as [Hmq Huq].
  rewrite Hmp, Hmq in Hc.
  replace (53 - Zpos (digits2_pos q)) with (53 - Zpos (digits2_pos p)) in Hc
    by lia.
  pose proof (Z.pow_pos_nonneg 2 (53 - Zpos (digits2_pos p)) ltac:(lia) Hup).
  nia.
Qed.

Lemma written_bounds (ds : list Z) (acc : Z) :
  are_digits ds -> 0 <= acc ->
  acc * 10 ^ Z.of_nat (List.length ds) <= written ds acc
  < (acc + 1) * 10 ^ Z.of_nat (List.length ds).
Proof.
  intros Hds. revert acc. induction Hds as [|d ds Hd _ IH]; intros acc Ha.
  - cbn. lia.
  - cbn [written fold_left List.length]. fold (written ds (acc * 10 + d)).
    specialize (IH (acc * 10 + d) ltac:(lia)).
    rewrite Nat2Z.inj_succ, Z.pow_succ_r by lia.
    pose proof (Z.pow_pos_nonneg 10 (Z.of_nat (List.length ds)) ltac:(lia)
                  ltac:(lia)).
    nia.
Qed.

(** The digits of an integer: what [digits] writes, as a list. *)
Lemma digits_fuel_decimal (f : nat) (n : Z) (acc : string) :
  0 <= n < 2 ^ Z.of_nat (S f) ->
  exists ds,
    are_digits ds /\ written ds 0 = n /\
    (0 < n -> 10 ^ (Z.of_nat (List.length ds) - 1) <= n) /\
    (0 < List.length ds)%nat /\
    list_ascii_of_string (Num.digits_fuel (S f) n acc)
    = (decimal ds ++ list_ascii_of_string acc)%list.
Proof.
  revert n acc. induction f as [|f IH]; intros n acc Hn.
  - assert (Hdiv : n / 10 = 0) by (apply Z.div_small; cbn in Hn; lia).
    assert (Hmod : n mod 10 = n) by (apply Z.mod_small; cbn in Hn; lia).
    cbn [Num.digits_fuel]. rewrite Hdiv, Hmod. cbn [Z.eqb].
    exists [n]. split; [constructor; [cbn in Hn; lia|constructor]|].
    split; [reflexivity|]. split; [cbn; lia|]. split; [cbn; lia|].
    reflexivity.
  - pose proof (Z.mod_pos_bound n 10 ltac:(lia)) as Hm.
    pose proof (Z.div_mod n 10 ltac:(lia)) as Hdm.
    change (Num.digits_fuel (S (S f)) n acc)
      with (let acc' := String (ascii_of_nat (48 + Z.to_nat (n mod 10))) acc
            in if n / 10 =? 0 then acc'
               else Num.digits_fuel (S f) (n / 10) acc').
    cbv zeta. destruct (n / 10 =? 0) eqn:Hq.
    + apply Z.eqb_eq in Hq.
      exists [n mod 10]. split; [constructor; [lia|constructor]|].
      split; [cbn; lia|]. split; [cbn; lia|]. split; [cbn; lia|].
      reflexivity.
    + apply Z.eqb_neq in Hq.
      assert (Hn' : 0 <= n / 10 < 2 ^ Z.of_nat (S f)).
      { split; [apply Z.div_pos; lia|].
        apply Z.div_lt_upper_bound; [lia|].
        rewrite (Nat2Z.inj_succ (S f)), Z.pow_succ_r in Hn by lia. lia. }
      destruct (IH (n / 10)
                  (String (ascii_of_nat (48 + Z.to_nat (n mod 10))) acc)
                  Hn') as (ds & Hds & Hval & Hlow & Hlen & Hlist).
      exists (ds ++ [n mod 10])%list.
      split; [apply Forall_app; split;
              [exact Hds|constructor; [lia|constructor]]|].
      split.
      { unfold written. rewrite fold_left_app. fold (written ds 0).
        rewrite Hval. cbn. lia. }
      split.
      { intros _. rewrite length_app. cbn [List.length].
        replace (Z.of_nat (List.length ds + 1) - 1)
          with (Z.succ (Z.of_nat (List.length ds) - 1)) by lia.
        rewrite Z.pow_succ_r by lia.
        assert (0 < n / 10) by (assert (0 <= n / 10) by lia; lia).
        specialize (Hlow ltac:(lia)). lia. }
      split; [rewrite length_app; lia|].
      rewrite Hlist. unfold decimal. rewrite map_app, <- app_assoc.
      reflexivity.
Qed.

Lemma digits_decimal (n : Z) :
  0 <= n ->
  exists ds,
    are_digits ds /\ written ds 0 = n /\
    (0 < n -> 10 ^ (Z.of_nat (List.length ds) - 1) <= n) /\
    (0 < List.length ds)%nat /\
    list_ascii_of_string (Num.digits n) = decimal ds.
Proof.
  intros Hn. unfold Num.digits.
  assert (Hfuel : 0 <= n < 2 ^ Z.of_nat (S (Z.to_nat (Z.log2 n)))).
  { split; [exact Hn|]. rewrite Nat2Z.inj_succ, Z2Nat.id
      by apply Z.log2_nonneg.
    destruct (Z.eq_dec n 0) as [->|Hnz]; [cbn; lia|].
    apply Z.log2_spec. lia. }
  destruct (digits_fuel_decimal (Z.to_nat (Z.log2 n)) n "" Hfuel)
    as (ds & H1 & H2 & H3 & H4 & H5).
  exists ds. rewrite H5. cbn [list_ascii_of_string]. rewrite app_nil_r.
  auto.
Qed.

(** Reading a run of digits. *)
Lemma read_decimal (ds : list Z) (rest : list ascii) (acc cnt : Z) :
  are_digits ds ->
  Num.read_digits 10 (decimal ds ++ rest) acc cnt
  = Num.read_digits 10 rest (written ds acc)
      (cnt + Z.of_nat (List.length ds)).
Proof.
  intros Hds. revert acc cnt.
  induction Hds as [|d ds Hd _ IH]; intros acc cnt.
  - cbn. f_equal. lia.
  - cbn [decimal map app Num.read_digits].
    destruct (digit_char d Hd) as (Hdig & _). unfold digit_char_of.
    rewrite Hdig. fold (decimal ds). rewrite IH.
    cbn [written fold_left List.length]. f_equal. lia.
Qed.

Lemma list_ascii_of_string_app (s1 s2 : string) :
  list_ascii_of_string (s1 ++ s2)
  = (list_ascii_of_string s1 ++ list_ascii_of_string s2)%list.
Proof.
  induction s1 as [|c s1 IH]; cbn; [reflexivity|]. rewrite IH. reflexivity.
Qed.

Lemma list_ascii_of_substring (n m : nat) (s : string) :
  list_ascii_of_string (substring n m s)
  = firstn m (skipn n (list_ascii_of_string s)).
Proof.
  revert n m. induction s as [|c s IH]; intros n m.
  - destruct n, m; reflexivity.
  - destruct n as [|n].
    + destruct m as [|m]; [reflexivity|]. cbn. rewrite IH. reflexivity.
    + cbn. apply IH.
Qed.

Lemma length_list_ascii (s : string) :
  List.length (list_ascii_of_string s) = String.length s.
Proof. induction s; cbn; congruence. Qed.

(** What a digit character is not. *)
Lemma digit_char_is_plain (d : Z) :
  0 <= d < 10 ->
  let c := digit_char_of d in
  Num.is_space c = false /\
  Num.is_char c "-" = false /\ Num.is_char c "+" = false /\
  Num.is_char c "x" = false /\ Num.is_char c "X" = false /\
  Num.is_char c "o" = false /\ Num.is_char c "O" = false /\
  Num.is_char c "b" = false /\ Num.is_char c "B" = false /\
  Ascii.eqb c "I" = false.
Proof.
  intros Hd.
  assert (H : d = 0 \/ d = 1 \/ d = 2 \/ d = 3 \/ d = 4 \/ d = 5 \/ d = 6
              \/ d = 7 \/ d = 8 \/ d = 9) by lia.
  repeat (destruct H as [->|H]; [vm_compute; repeat split|]).
  subst d. vm_compute. repeat split.
Qed.

Lemma trim_no_space (c z : ascii) (rest init : list ascii) :
  (c :: rest = init ++ [z])%list ->
  Num.is_space c = false -> Num.is_space z = false ->
  Num.trim (c :: rest) = c :: rest.
Proof.
  intros Hl Hc Hz. unfold Num.trim. cbn [Num.skip_space]. rewrite Hc.
  rewrite Hl at 1. rewrite rev_app_distr. cbn [rev app Num.skip_space].
  rewrite Hz. rewrite Hl.
  change (z :: rev init) with ([z] ++ rev init)%list.
  rewrite rev_app_distr, rev_involutive. reflexivity.
Qed.

(** [Number(text)] for digits, a point and digits. *)
Lemma of_string_decimal_point (A B : list Z) :
  are_digits A -> are_digits B ->
  (0 < List.length A)%nat -> (0 < List.length B)%nat ->
  Num.parse_literal (Num.trim (decimal A ++ "."%char :: decimal B))
  = Num.of_decimal false (written B (written A 0))
      (0 - Z.of_nat (List.length B)).
Proof.
  intros HA HB HlA HlB.
  destruct A as [|a A]; [cbn in HlA; lia|].
  destruct (exists_last (l := B)) as (B' & b & ->);
    [intros ->; cbn in HlB; lia|].
  inversion HA as [|? ? Ha HA']; subst.
  pose proof HB as HB0.
  apply Forall_app in HB. destruct HB as [HB' Hb].
  inversion Hb as [|? ? Hb' _]; subst.
  destruct (digit_char_is_plain a Ha)
    as (Hsa & Hma & Hpa & _ & _ & _ & _ & _ & _ & HIa).
  destruct (digit_char_is_plain b Hb') as (Hsb & _).
  assert (Htrim : Num.trim (decimal (a :: A)
                            ++ "."%char :: decimal (B' ++ [b]))
                  = (decimal (a :: A)
                     ++ "."%char :: decimal (B' ++ [b]))%list).
  { unfold decimal. rewrite map_app. cbn [map app].
    apply (trim_no_space _ (digit_char_of b) _
             (digit_char_of a
              :: (map digit_char_of A
                  ++ "."%char :: map digit_char_of B'))%list);
      [|exact Hsa|exact Hsb].
    cbn [app]. rewrite <- app_assoc. reflexivity. }
  rewrite Htrim.
  (* no radix prefix, no sign *)
  assert (Hnext : forall (p : ascii) (r' : list ascii),
             (decimal A ++ "."%char :: decimal (B' ++ [b]))%list = p :: r' ->
             Num.is_char p "x" || Num.is_char p "X" = false /\
             Num.is_char p "o" || Num.is_char p "O" = false /\
             Num.is_char p "b" || Num.is_char p "B" = false).
  { intros p r' Hp. destruct A as [|a' A'].
    - cbn [decimal map app] in Hp. injection Hp as <- _.
      vm_compute. auto.
    - cbn [decimal map app] in Hp. injection Hp as <- _.
      inversion HA' as [|? ? Ha' _]; subst.
      destruct (digit_char_is_plain a' Ha')
        as (_ & _ & _ & H1 & H2 & H3 & H4 & H5 & H6 & _).
      rewrite H1, H2, H3, H4, H5, H6. auto. }
  cbn [decimal map app Num.parse_literal]. fold (decimal A).
  fold (decimal (B' ++ [b])).
  destruct (decimal A ++ "."%char :: decimal (B' ++ [b]))%list
    as [|p r'] eqn:Hrest.
  { destruct A; discriminate Hrest. }
  destruct (Hnext p r' eq_refl) as (Hx & Ho & Hb2).
  rewrite Hx, Ho, Hb2.
  replace (if Num.is_char (digit_char_of a) "0" then None else None)
    with (@None (Z * list ascii))
    by (destruct (Num.is_char (digit_char_of a) "0"); reflexivity).
  rewrite Hpa, Hma. rewrite <- Hrest.
  (* the literal *)
  unfold Num.parse_unsigned_decimal.
  assert (Hinf : String.eqb
                   (string_of_list_ascii
                      (digit_char_of a
                       :: (decimal A ++ "."%char :: decimal (B' ++ [b]))))
                   "Infinity" = false).
  { cbn [string_of_list_ascii String.eqb]. rewrite HIa. reflexivity. }
  rewrite Hinf.
  change (digit_char_of a
          :: (decimal A ++ "."%char :: decimal (B' ++ [b])))%list
    with (decimal (a :: A) ++ "."%char :: decimal (B' ++ [b]))%list.
  rewrite (read_decimal (a :: A) _ 0 0 HA).
  cbn [Num.read_digits].
  change (Num.digit_of 10 "."%char) with (@None Z). cbv iota.
  change (Num.is_char "."%char ".") with true. cbv iota.
  rewrite <- (app_nil_r (decimal (B' ++ [b]))).
  rewrite (read_decimal (B' ++ [b]) [] _ 0 HB0).
  cbn [Num.read_digits].
  assert (Hic : (0 + Z.of_nat (List.length (a :: A)) =? 0) = false)
    by (apply Z.eqb_neq; cbn [List.length]; lia).
  rewrite Hic. cbn [andb Num.parse_exponent]. reflexivity.
Qed.

Lemma Zdigits2_mul_le (x y : positive) :
  Zdigits2 (Zpos x * Zpos y)
  <= Zpos (digits2_pos x) + Zpos (digits2_pos y).
Proof.
  change (Zpos x * Zpos y) with (Zpos (x * y)). cbn [Zdigits2].
  pose proof (digits2_pos_lower (x * y)) as Hl.
  pose proof (digits2_pos_bound x) as Hx.
  pose proof (digits2_pos_bound y) as Hy.
  assert (Hlt : 2 ^ (Zpos (digits2_pos (x * y)) - 1)
                < 2 ^ (Zpos (digits2_pos x) + Zpos (digits2_pos y))).
  { rewrite Z.pow_add_r by lia. rewrite Pos2Z.inj_mul in Hl. nia. }
  apply Z.pow_lt_mono_r_iff in Hlt; lia.
Qed.

(** Dividing [n * 10^18] by [10^18] gives back the number of [n]. *)
Lemma of_decimal_units (n : positive) :
  Zpos n < 2 ^ 53 ->
  Num.of_decimal false (Zpos n * 10 ^ 18) (0 - 18) = whole n.
Proof.
  intros Hn.
  change (Zpos n * 10 ^ 18) with (Zpos (n * 1000000000000000000)).
  unfold Num.of_decimal. change (0 <=? 0 - 18) with false. cbv iota.
  change (Z.to_pos (10 ^ (- (0 - 18)))) with 1000000000000000000%positive.
  unfold SFdiv, SFdiv_core_binary. cbn [xorb].
  pose proof (Zdigits2_mul_le n 1000000000000000000) as Hmul.
  change (Zpos (digits2_pos 1000000000000000000)) with 60 in Hmul.
  change (Zpos n * 1000000000000000000)
    with (Zpos (n * 1000000000000000000)) in Hmul.
  cbn [Zdigits2] in Hmul |- *.
  change (Zpos (digits2_pos 1000000000000000000)) with 60.
  pose proof (digits2_pos_le 1000000000000000000
                (n * 1000000000000000000) ltac:(lia)) as Hlow.
  change (Zpos (digits2_pos 1000000000000000000)) with 60 in Hlow.
  pose proof (digits2_pos_lower n) as Hl.
  assert (Hd : Zpos (digits2_pos n) <= 53).
  { assert (Zpos (digits2_pos n) - 1 < 53)
      by (apply (Z.pow_lt_mono_r_iff 2); lia). lia. }
  set (D := Zpos (digits2_pos (n * 1000000000000000000))) in *.
  assert (He : Z.min (fexp Num.prec Num.emax (D + 0 - (60 + 0))) (0 - 0)
               = D - 113).
  { unfold fexp, emin, Num.prec, Num.emax. lia. }
  rewrite He.
  replace (0 - 0 - (D - 113)) with (113 - D) by lia.
  assert (Hm' : match 113 - D with
                | 0 => Zpos (n * 1000000000000000000)
                | Zpos _ => Z.shiftl (Zpos (n * 1000000000000000000))
                              (113 - D)
                | Zneg _ => 0
                end = Zpos n * 2 ^ (113 - D) * 1000000000000000000).
  { destruct (113 - D) as [|s|s] eqn:Hs.
    - rewrite Pos2Z.inj_mul, Z.pow_0_r. lia.
    - rewrite Z.shiftl_mul_pow2 by lia. rewrite Pos2Z.inj_mul. lia.
    - lia. }
  rewrite Hm'.
  assert (Hdiv : Z.div_eucl (Zpos n * 2 ^ (113 - D) * 1000000000000000000)
                   1000000000000000000
                 = (Zpos n * 2 ^ (113 - D), 0)).
  { pose proof (Z.div_eucl_eq (Zpos n * 2 ^ (113 - D) * 1000000000000000000)
                  1000000000000000000 ltac:(lia)) as Heq.
    pose proof (Z.mod_pos_bound
                  (Zpos n * 2 ^ (113 - D) * 1000000000000000000)
                  1000000000000000000 ltac:(lia)) as Hb.
    unfold Z.modulo in Hb.
    destruct (Z.div_eucl _ _) as [q r]. f_equal; nia. }
  rewrite Hdiv.
  change (new_location 1000000000000000000 0) with loc_Exact.
  replace (D - 113) with (- (113 - D)) by lia.
  apply binary_round_aux_exact; [exact Hn|lia].
Qed.

(** The exact value of the number that holds [n], as a fraction. *)
Lemma fraction_whole (n : positive) :
  Zpos n < 2 ^ 53 ->
  exists den,
    0 < den /\
    Num.fraction (Z.to_pos (Zpos n * 2 ^ (53 - Zpos (digits2_pos n))))
                 (Zpos (digits2_pos n) - 53)
    = (Zpos n * den, den).
Proof.
  intros Hn. destruct (whole_mantissa n Hn) as [Hm Hu].
  unfold Num.fraction. rewrite Hm.
  destruct (0 <=? Zpos (digits2_pos n) - 53) eqn:E.
  - apply Z.leb_le in E. exists 1. split; [lia|].
    replace (Zpos (digits2_pos n) - 53) with 0 by lia.
    replace (53 - Zpos (digits2_pos n)) with 0 by lia.
    f_equal. rewrite Z.pow_0_r. lia.
  - apply Z.leb_gt in E. exists (2 ^ (53 - Zpos (digits2_pos n))).
    split; [apply Z.pow_pos_nonneg; lia|].
    f_equal. f_equal. lia.
Qed.

Lemma toFixed_whole (n : positive) :
  Zpos n < 2 ^ 53 ->
  Num.toFixed (whole n) 18 = Num.format_fixed 18 (Zpos n * 10 ^ 18).
Proof.
  intros Hn. destruct (fraction_whole n Hn) as (den & Hden & Hf).
  unfold Num.toFixed, whole, Num.fixed_units. rewrite Hf.
  assert (Hbig : (10 ^ 21 * den <=? Zpos n * den) = false).
  { apply Z.leb_gt. assert (Zpos n < 10 ^ 21) by lia. nia. }
  rewrite Hbig. cbn [append]. f_equal.
  unfold Num.round_half_up. symmetry.
  apply Z.div_unique with (r := den); lia.
Qed.

Lemma format_fixed_decimal (u : Z) :
  10 ^ 18 <= u ->
  exists A B,
    are_digits A /\ are_digits B /\
    (0 < List.length A)%nat /\ List.length B = 18%nat /\
    written B (written A 0) = u /\
    list_ascii_of_string (Num.format_fixed 18 u)
    = (decimal A ++ "."%char :: decimal B)%list.
Proof.
  intros Hu.
  destruct (digits_decimal u ltac:(lia)) as (ds & Hds & Hval & Hlow & _ & Hl).
  specialize (Hlow ltac:(lia)).
  pose proof (written_bounds ds 0 Hds ltac:(lia)) as Hb.
  rewrite Hval in Hb.
  assert (Hlen : (18 < List.length ds)%nat).
  { assert (Hlt : 10 ^ 18 < 10 ^ Z.of_nat (List.length ds)) by lia.
    apply Z.pow_lt_mono_r_iff in Hlt; lia. }
  set (k := List.length ds) in *.
  exists (firstn (k - 18) ds), (skipn (k - 18) ds).
  split; [apply Forall_forall; intros x Hx;
          rewrite <- (firstn_skipn (k - 18) ds) in Hds;
          apply Forall_app in Hds; destruct Hds as [H1 _];
          rewrite Forall_forall in H1; exact (H1 x Hx)|].
  split; [apply Forall_forall; intros x Hx;
          rewrite <- (firstn_skipn (k - 18) ds) in Hds;
          apply Forall_app in Hds; destruct Hds as [_ H2];
          rewrite Forall_forall in H2; exact (H2 x Hx)|].
  split; [rewrite length_firstn; fold k; lia|].
  split; [rewrite length_skipn; fold k; lia|].
  split.
  { unfold written. rewrite <- fold_left_app, firstn_skipn. exact Hval. }
  unfold Num.format_fixed. change (18 =? 0) with false. cbv iota.
  assert (Hslen : String.length (Num.digits u) = k).
  { rewrite <- length_list_ascii, Hl. unfold decimal.
    rewrite length_map. reflexivity. }
  rewrite Hslen.
  assert (Hk : (Z.of_nat k <=? 18) = false) by (apply Z.leb_gt; lia).
  rewrite Hk. cbv zeta. rewrite Hslen.
  replace (Z.to_nat (Z.of_nat k - 18)) with (k - 18)%nat by lia.
  change (Z.to_nat 18) with 18%nat.
  rewrite !list_ascii_of_string_app, !list_ascii_of_substring, Hl.
  cbn [list_ascii_of_string app skipn]. unfold decimal.
  rewrite <- firstn_map, <- skipn_map.
  f_equal. f_equal.
  apply firstn_all2. rewrite length_skipn, length_map. fold k. lia.
Qed.

(** Rounding to 18 decimals and reading back keeps an integer below
    [2^53]. *)
Lemma rounded_of_Z (n : Z) :
  0 <= n < 2 ^ 53 -> rounded (Num.of_Z n) = Num.of_Z n.
Proof.
  intros Hn. destruct (of_Z_cases n Hn) as [[-> Hz]|(p & -> & Hp)].
  - rewrite Hz. vm_compute. reflexivity.
  - rewrite Hp. unfold rounded, DECIMAL_PRECISION.
    rewrite (toFixed_whole p ltac:(lia)). unfold Num.of_string.
    destruct (format_fixed_decimal (Zpos p * 10 ^ 18) ltac:(lia))
      as (A & B & HA & HB & HlA & HlB & Hval & Hlist).
    rewrite Hlist.
    rewrite (of_string_decimal_point A B HA HB HlA ltac:(lia)).
    rewrite Hval, HlB. apply of_decimal_units. lia.
Qed.

Lemma eqb_whole_refl (n : positive) : Num.eqb (whole n) (whole n) = true.
Proof.
  unfold Num.eqb, SFeqb, whole, SFcompare.
  rewrite Z.compare_refl.
  change (Pos.compare_cont Eq ?a ?b) with (Pos.compare a b).
  rewrite Pos.compare_refl. reflexivity.
Qed.

(** An integer from [2^53] on is a number above every smaller
    integer's. *)
Lemma eqb_of_Z_large (v : positive) (n : positive) :
  2 ^ 53 <= Zpos v -> Zpos n < 2 ^ 53 ->
  Num.eqb (Num.of_Z (Zpos v)) (whole n) = false.
Proof.
  intros Hv Hn. unfold Num.of_Z. cbn [binary_normalize].
  pose proof (binary_round_shape false v 0) as H.
  pose proof (digits2_pos_bound v) as Hb.
  pose proof (digits2_pos_lower n) as Hl.
  assert (Hdv : 53 < Zpos (digits2_pos v))
    by (apply (Z.pow_lt_mono_r_iff 2); lia).
  assert (Hdn : Zpos (digits2_pos n) <= 53).
  { assert (Zpos (digits2_pos n) - 1 < 53)
      by (apply (Z.pow_lt_mono_r_iff 2); lia). lia. }
  destruct (binary_round Num.prec Num.emax false v 0) as [s|s| |s m e];
    try reflexivity.
  - subst s. reflexivity.
  - destruct H as [-> He]. unfold Num.prec in He.
    unfold Num.eqb, SFeqb, whole, SFcompare.
    assert (Hc : (e ?= Zpos (digits2_pos n) - 53) = Gt)
      by (apply Z.compare_gt_iff; lia).
    rewrite Hc. reflexivity.
Qed.

Lemma eqb_of_Z_iff (v : Z) (n : positive) :
  0 < v -> Zpos n < 2 ^ 53 ->
  Num.eqb (Num.of_Z v) (whole n) = true <-> v = Zpos n.
Proof.
  intros Hv Hn. split.
  - intros H. destruct (Z.lt_ge_cases v (2 ^ 53)) as [Hs|Hl].
    + apply eqb_of_Z; [lia|lia|]. rewrite (of_Z_whole n Hn). exact H.
    + destruct v as [|p|p]; try lia.
      rewrite eqb_of_Z_large in H by lia. discriminate H.
  - intros ->. rewrite (of_Z_whole n Hn). apply eqb_whole_refl.
Qed.

Lemma decade_up_spec (fuel : nat) (q r : Z) :
  1 <= q < 2 ^ Z.of_nat fuel ->
  let L := Num.decade_up fuel q r in
  10 ^ (L - r) <= q < 10 ^ (L - r + 1) /\ r <= L.
Proof.
  revert q r. induction fuel as [|f IH]; intros q r Hq; cbv zeta.
  - cbn in Hq. lia.
  - cbn [Num.decade_up]. destruct (q <? 10) eqn:E.
    + apply Z.ltb_lt in E. rewrite Z.sub_diag. cbn. lia.
    + apply Z.ltb_ge in E.
      assert (Hq' : 1 <= q / 10 < 2 ^ Z.of_nat f).
      { split; [apply Z.div_le_lower_bound; lia|].
        apply Z.div_lt_upper_bound; [lia|].
        rewrite Nat2Z.inj_succ, Z.pow_succ_r in Hq by lia. lia. }
      destruct (IH (q / 10) (r + 1) Hq') as [[H1 H2] H3].
      set (L := Num.decade_up f (q / 10) (r + 1)) in *.
      split; [|lia].
      replace (L - r) with (Z.succ (L - (r + 1))) by lia.
      replace (Z.succ (L - (r + 1)) + 1) with (Z.succ (L - (r + 1) + 1))
        by lia.
      rewrite !Z.pow_succ_r by lia.
      pose proof (Z.div_mod q 10 ltac:(lia)) as Hdm.
      pose proof (Z.mod_pos_bound q 10 ltac:(lia)) as Hmb.
      lia.
Qed.

(** The decimal length of an integer below [2^53]. *)
Lemma decade_whole (n : positive) (den : Z) :
  0 < den -> Zpos n < 2 ^ 53 ->
  let L := Num.decade (Zpos n * den) den in
  10 ^ (L - 1) <= Zpos n < 10 ^ L /\ 1 <= L <= 16.
Proof.
  intros Hden Hn. cbv zeta. unfold Num.decade.
  assert (Hle : (den <=? Zpos n * den) = true) by (apply Z.leb_le; nia).
  rewrite Hle. rewrite Z.div_mul by lia.
  assert (Hfuel : 1 <= Zpos n
                  < 2 ^ Z.of_nat (S (Z.to_nat (Z.log2 (Zpos n * den))))).
  { split; [lia|]. rewrite Nat2Z.inj_succ, Z2Nat.id by apply Z.log2_nonneg.
    pose proof (Z.log2_spec (Zpos n * den) ltac:(nia)) as [_ Hup].
    nia. }
  destruct (decade_up_spec _ (Zpos n) 1 Hfuel) as [[H1 H2] H3].
  set (L := Num.decade_up _ (Zpos n) 1) in *.
  replace (L - 1 + 1) with L in H2 by lia.
  split; [lia|]. split; [lia|].
  assert (Hlt : 10 ^ (L - 1) < 10 ^ 16) by lia.
  apply Z.pow_lt_mono_r_iff in Hlt; lia.
Qed.

Lemma shortest_from_whole (n : positive) (den L : Z) (fuel : nat) (k : Z) :
  0 < den -> Zpos n < 2 ^ 53 ->
  10 ^ (L - 1) <= Zpos n < 10 ^ L ->
  1 <= k <= L -> L - k < Z.of_nat fuel ->
  exists k',
    k <= k' <= L /\
    Num.shortest_from fuel k (whole n) (Zpos n * den) den L
    = (Zpos n / 10 ^ (L - k'), L) /\
    Zpos n / 10 ^ (L - k') * 10 ^ (L - k') = Zpos n.
Proof.
  intros Hden Hn HL. revert k. induction fuel as [|f IH]; intros k Hk Hfuel.
  - cbn in Hfuel. lia.
  - cbn [Num.shortest_from].
    set (q := L - k).
    assert (Hq : 0 <= q) by (unfold q; lia).
    pose proof (Z.pow_pos_nonneg 10 q ltac:(lia) Hq) as Hpq.
    unfold Num.scaled.
    assert (Hq' : (0 <=? q) = true) by (apply Z.leb_le; exact Hq).
    rewrite Hq'.
    assert (Hlo : Zpos n * den / (den * 10 ^ q) = Zpos n / 10 ^ q).
    { rewrite (Z.mul_comm (Zpos n) den).
      apply Z.div_mul_cancel_l; lia. }
    rewrite Hlo.
    set (lo := Zpos n / 10 ^ q).
    pose proof (Z.div_mod (Zpos n) (10 ^ q) ltac:(lia)) as Hdm.
    pose proof (Z.mod_pos_bound (Zpos n) (10 ^ q) ltac:(lia)) as Hmb.
    fold lo in Hdm.
    assert (Hk10 : 10 ^ L = 10 ^ k * 10 ^ q).
    { rewrite <- Z.pow_add_r by lia. f_equal. unfold q. lia. }
    assert (Hk10' : 10 ^ (L - 1) = 10 ^ (k - 1) * 10 ^ q).
    { rewrite <- Z.pow_add_r by lia. f_equal. unfold q. lia. }
    pose proof (Z.pow_pos_nonneg 10 (k - 1) ltac:(lia) ltac:(lia)) as Hpk.
    assert (Hlo_lt : lo < 10 ^ k) by nia.
    assert (Hlo_ge : 10 ^ (k - 1) <= lo).
    { unfold lo. apply Z.div_le_lower_bound; lia. }
    assert (Hdec : forall s, 0 < s ->
               Num.of_decimal false s q = Num.of_Z (s * 10 ^ q)).
    { intros s Hs. destruct s as [|p|p]; try lia.
      unfold Num.of_decimal. rewrite Hq'. reflexivity. }
    rewrite !Hdec by lia.
    assert (Hhi : Num.eqb (Num.of_Z ((lo + 1) * 10 ^ q)) (whole n) = false).
    { destruct (Num.eqb (Num.of_Z ((lo + 1) * 10 ^ q)) (whole n)) eqn:E;
        [|reflexivity].
      apply eqb_of_Z_iff in E; [|nia|exact Hn]. nia. }
    rewrite Hhi.
    destruct (Num.eqb (Num.of_Z (lo * 10 ^ q)) (whole n)) eqn:E.
    + apply eqb_of_Z_iff in E; [|nia|exact Hn].
      exists k. split; [lia|]. fold q. fold lo.
      assert (Hne : (lo =? 10 ^ k) = false) by (apply Z.eqb_neq; lia).
      rewrite Hne. split; [reflexivity|exact E].
    + assert (Hneq : lo * 10 ^ q <> Zpos n).
      { intros Heq.
        assert (Num.eqb (Num.of_Z (lo * 10 ^ q)) (whole n) = true)
          by (apply eqb_of_Z_iff; [nia|exact Hn|exact Heq]).
        congruence. }
      assert (Hkl : k < L).
      { destruct (Z.eq_dec k L) as [->|]; [|lia]. exfalso. apply Hneq.
        unfold lo, q. rewrite Z.sub_diag. cbn. rewrite Z.div_1_r. lia. }
      destruct (IH (k + 1) ltac:(lia) ltac:(lia)) as (k' & Hk' & Hs & Hv).
      exists k'. split; [lia|]. split; [exact Hs|exact Hv].
Qed.

Lemma digits_length (s k : Z) :
  1 <= k -> 10 ^ (k - 1) <= s < 10 ^ k ->
  Z.of_nat (String.length (Num.digits s)) = k.
Proof.
  intros Hk Hs.
  pose proof (Z.pow_pos_nonneg 10 (k - 1) ltac:(lia) ltac:(lia)) as Hp.
  destruct (digits_decimal s ltac:(lia))
    as (ds & Hds & Hval & Hlow & Hlen & Hl).
  specialize (Hlow ltac:(lia)).
  pose proof (written_bounds ds 0 Hds ltac:(lia)) as Hb.
  rewrite Hval in Hb.
  rewrite <- length_list_ascii, Hl. unfold decimal. rewrite length_map.
  assert (H1 : 10 ^ (k - 1) < 10 ^ Z.of_nat (List.length ds)) by lia.
  assert (H2 : 10 ^ (Z.of_nat (List.length ds) - 1) < 10 ^ k) by lia.
  apply Z.pow_lt_mono_r_iff in H1; [|lia|lia].
  apply Z.pow_lt_mono_r_iff in H2; [|lia|lia].
  lia.
Qed.

(** What a [NUMERIC(36,18)] column holds for an integer below [2^53]:
    the integer itself, in units of [10^-18]. *)
Lemma numeric_36_18_of_Z (n : Z) :
  0 <= n < 2 ^ 53 -> numeric_36_18 (Num.of_Z n) = Some (n * 10 ^ 18).
Proof.
  intros Hn. destruct (of_Z_cases n Hn) as [[-> Hz]|(p & -> & Hp)].
  - rewrite Hz. reflexivity.
  - rewrite Hp. unfold numeric_36_18, whole, Num.shortest.
    destruct (fraction_whole p ltac:(lia)) as (den & Hden & Hf).
    rewrite Hf.
    destruct (decade_whole p den Hden ltac:(lia)) as [HL HL16].
    set (L := Num.decade (Zpos p * den) den) in *.
    destruct (shortest_from_whole p den L 16 1 Hden ltac:(lia) HL
                ltac:(lia) ltac:(lia)) as (k & Hk & Hs & Hv).
    fold (whole p). rewrite Hs.
    set (s := Zpos p / 10 ^ (L - k)) in *.
    pose proof (Z.pow_pos_nonneg 10 (L - k) ltac:(lia) ltac:(lia)) as Hpq.
    assert (Hk10 : 10 ^ L = 10 ^ k * 10 ^ (L - k)).
    { rewrite <- Z.pow_add_r by lia. f_equal. lia. }
    assert (Hk10' : 10 ^ (L - 1) = 10 ^ (k - 1) * 10 ^ (L - k)).
    { rewrite <- Z.pow_add_r by lia. f_equal. lia. }
    pose proof (Z.pow_pos_nonneg 10 (k - 1) ltac:(lia) ltac:(lia)) as Hpk.
    assert (Hsb : 10 ^ (k - 1) <= s < 10 ^ k) by nia.
    rewrite (digits_length s k ltac:(lia) Hsb).
    assert (Hq : (0 <=? L - k + 18) = true) by (apply Z.leb_le; lia).
    rewrite Hq.
    assert (Hu : s * 10 ^ (L - k + 18) = Zpos p * 10 ^ 18).
    { rewrite Z.pow_add_r by lia. rewrite Z.mul_assoc, Hv. reflexivity. }
    rewrite Hu.
    assert (Hlt : (Zpos p * 10 ^ 18 <? 10 ^ 36) = true)
      by (apply Z.ltb_lt; lia).
    rewrite Hlt. reflexivity.
Qed.

(** A number of an integer that passes the amount check is the number of
    a positive integer. *)
Lemma of_Z_accepted (a : Z) :
  Num.isFinite (Num.of_Z a) = true ->
  Num.leb (Num.of_Z a) Num.pos_zero = false ->
  0 < a.
Proof.
  intros Hfin Hleb. destruct a as [|p|p]; [discriminate Hleb|lia|].
  exfalso. unfold Num.of_Z in *. cbn [binary_normalize] in *.
  pose proof (binary_round_shape true p 0) as H.
  destruct (binary_round Num.prec Num.emax true p 0) as [s|s| |s m e];
    try discriminate.
  destruct H as [-> _]. discriminate Hleb.
Qed.

Lemma alone_unique (items : list value) (nls1 nls2 : list normalized_line) :
  Forall2 (fun l nl => alone l = Next nl) items nls1 ->
  Forall2 (fun l nl => alone l = Next nl) items nls2 ->
  nls1 = nls2.
Proof.
  intros H1. revert nls2. induction H1 as [|l nl items nls1 Hl _ IH];
    intros nls2 H2; inversion H2; subst; [reflexivity|].
  f_equal; [congruence|apply IH; assumption].
Qed.

(** The lines of a request with whole amounts, once normalized. *)
Lemma whole_amounts_normalized (items : list value) (amounts : list Z)
    (nls : list normalized_line) :
  Forall2 whole_amount items amounts ->
  Forall2 (fun l nl => alone l = Next nl) items nls ->
  Forall2 (fun a nl => line_amount nl = Num.of_Z a /\ 0 < a) amounts nls.
Proof.
  intros Hw. revert nls. induction Hw as [|l a items amounts Hl _ IH];
    intros nls Hal; inversion Hal as [|? nl ? nls' Hnl Hrest]; subst;
    constructor; [|apply IH; exact Hrest].
  destruct (alone_fields l nl Hnl) as (_ & _ & Hnum & Hfin & Hleb & _).
  unfold whole_amount in Hl. rewrite Hl in Hnum. injection Hnum as Heq.
  split; [symmetry; exact Heq|].
  rewrite <- Heq in Hfin, Hleb. exact (of_Z_accepted a Hfin Hleb).
Qed.

Lemma side_bounds (direction : string) (amounts : list Z)
    (nls : list normalized_line) :
  Forall2 (fun a nl => line_amount nl = Num.of_Z a /\ 0 < a) amounts nls ->
  0 <= side direction amounts nls <= fold_right Z.add 0 amounts.
Proof.
  induction 1 as [|a nl amounts nls [_ Ha] _ IH]; cbn [side fold_right];
    [lia|].
  destruct (String.eqb (line_direction nl) direction); lia.
Qed.

(** With whole amounts the float total of one side is the exact sum. *)
Lemma float_total_of_whole_amounts (direction : string) (amounts : list Z)
    (nls : list normalized_line) (acc : Z) :
  Forall2 (fun a nl => line_amount nl = Num.of_Z a /\ 0 < a) amounts nls ->
  0 <= acc -> acc + fold_right Z.add 0 amounts < 2 ^ 53 ->
  float_total direction nls (Num.of_Z acc)
  = Num.of_Z (acc + side direction amounts nls).
Proof.
  intros Hw. revert acc.
  induction Hw as [|a nl amounts nls [Ha Hpos] Hrest IH];
    intros acc Hacc Hsum.
  - cbn. rewrite Z.add_0_r. reflexivity.
  - cbn [fold_right] in Hsum.
    pose proof (side_bounds direction amounts nls Hrest) as Hb.
    unfold float_total. cbn [filter side].
    destruct (String.eqb (line_direction nl) direction) eqn:E.
    + cbn [map fold_left]. rewrite Ha, add_of_Z by lia.
      fold (float_total direction nls (Num.of_Z (acc + a))).
      rewrite IH by lia. f_equal. lia.
    + fold (float_total direction nls (Num.of_Z acc)).
      rewrite IH by lia. f_equal.
Qed.

(** The rows stored for whole amounts hold them, in units of [10^-18]. *)
Lemma rows_of_whole_amounts (uuid_in : value -> option uuid)
    (direction : string) (amounts : list Z) (nls : list normalized_line)
    (rows : list line_row) :
  Forall2 (fun a nl => line_amount nl = Num.of_Z a /\ 0 < a) amounts nls ->
  Forall2 (line_stored uuid_in) nls rows ->
  fold_right Z.add 0 amounts < 2 ^ 53 ->
  posted_units direction rows = side direction amounts nls * 10 ^ 18 /\
  Forall2 (fun a r => row_amount r = a * 10 ^ 18) amounts rows.
Proof.
  intros Hw. revert rows.
  induction Hw as [|a nl amounts nls [Ha Hpos] Hrest IH];
    intros rows Hst Hsum; inversion Hst as [|? r ? rows' Hr Hrs]; subst.
  - split; [reflexivity|constructor].
  - cbn [fold_right] in Hsum.
    pose proof (side_bounds direction amounts nls Hrest) as Hb.
    destruct Hr as (Hnum & _ & Hdir & _).
    rewrite Ha, numeric_36_18_of_Z in Hnum by lia.
    injection Hnum as Hunits.
    destruct (IH rows' Hrs ltac:(lia)) as [Hposted Hrows].
    split; [|constructor; [lia|exact Hrows]].
    unfold posted_units in *. cbn [filter side]. rewrite Hdir.
    destruct (String.eqb (line_direction nl) direction);
      cbn [map fold_right]; rewrite Hposted; lia.
Qed.

Lemma eqb_of_Z_decides (a b : Z) :
  0 <= a < 2 ^ 53 -> 0 <= b < 2 ^ 53 ->
  Num.eqb (Num.of_Z a) (Num.of_Z b) = (a =? b).
Proof.
  intros Ha Hb. destruct (a =? b) eqn:E.
  - apply Z.eqb_eq in E. subst b.
    destruct (of_Z_cases a Ha) as [[-> Hz]|(p & -> & Hp)].
    + rewrite Hz. reflexivity.
    + rewrite Hp. apply eqb_whole_refl.
  - apply Z.eqb_neq in E.
    destruct (Num.eqb (Num.of_Z a) (Num.of_Z b)) eqn:Heq; [|reflexivity].
    exfalso. apply E. exact (eqb_of_Z a b Ha Hb Heq).
Qed.

(** X25. Whole amounts are posted in balance.  When every amount of a
    request converts to an integer and the integers add up to less than
    [2^53], the float totals of the handler are exact: after a 201 every
    row holds its integer, in units of [10^-18], and the debit rows and the
    credit rows add up to the same. *)
Theorem whole_amounts_are_posted_in_balance
    (encode_text : value -> string) (uuid_in : value -> option uuid)
    (env : environment) (d : db) (req_body : value)
    (items : list value) (amounts : list Z)
    (entry : entry_row) (rows : list line_row) :
  lines_of req_body = VArray items ->
  Forall2 whole_amount items amounts ->
  fold_right Z.add 0 amounts < 2 ^ 53 ->
  reply (post_ledger_entries encode_text uuid_in env d req_body)
  = Some (created entry rows) ->
  Forall2 (fun a r => row_amount r = a * 10 ^ 18) amounts rows /\
  posted_units "debit" rows = posted_units "credit" rows.
Proof.
  intros Hitems Hw Hsum Hr.
  destruct (posted_lines _ _ _ _ _ _ _ Hr)
    as (items1 & nls & Hl1 & _ & Hal & Hst & _).
  destruct (posted_entries_have_equal_float_totals _ _ _ _ _ _ _ Hr)
    as (items2 & nls2 & Hl2 & Hal2 & Hbal).
  rewrite Hitems in Hl1, Hl2. injection Hl1 as <-. injection Hl2 as <-.
  rewrite (alone_unique items nls2 nls Hal2 Hal) in Hbal.
  pose proof (whole_amounts_normalized items amounts nls Hw Hal) as Hn.
  pose proof (side_bounds "debit" amounts nls Hn) as HD.
  pose proof (side_bounds "credit" amounts nls Hn) as HC.
  destruct (rows_of_whole_amounts uuid_in "debit" amounts nls rows Hn Hst
              Hsum) as [HpD Hrows].
  destruct (rows_of_whole_amounts uuid_in "credit" amounts nls rows Hn Hst
              Hsum) as [HpC _].
  split; [exact Hrows|].
  change Num.pos_zero with (Num.of_Z 0) in Hbal.
  rewrite !float_total_of_whole_amounts with (amounts := amounts) in Hbal
    by (assumption || lia).
  rewrite !Z.add_0_l, !rounded_of_Z in Hbal by lia.
  apply eqb_of_Z in Hbal; [|lia|lia].
  rewrite HpD, HpC, Hbal. reflexivity.
Qed.

Lemma whole_amounts_are_posted_in_balance_witness :
  Forall2 (fun a r => row_amount r = a * 10 ^ 18) [100; 100]
          balanced_sale_rows /\
  posted_units "debit" balanced_sale_rows
  = posted_units "credit" balanced_sale_rows.
Proof.
  apply (whole_amounts_are_posted_in_balance Sample.encode_text
           Sample.uuid_in Sample.calm Sample.books balanced_sale
           balanced_sale_items [100; 100] header balanced_sale_rows).
  - reflexivity.
  - repeat constructor; vm_compute; reflexivity.
  - vm_compute. reflexivity.
  - vm_compute. reflexivity.
Defined.

(** X26. On whole amounts the balance check is exact.  When the lines of
    a request pass the loop, every amount converts to an integer and the
    integers add up to less than [2^53], validation accepts the lines
    exactly when the debit integers and the credit integers have the same
    sum, and otherwise answers 400 with these two sums as the totals. *)
Theorem balance_check_is_exact_on_whole_amounts
    (items : list value) (amounts : list Z) (st : loop_state) :
  (2 <= List.length items)%nat ->
  validate_lines items loop_start = Next st ->
  Forall2 whole_amount items amounts ->
  fold_right Z.add 0 amounts < 2 ^ 53 ->
  validation (VArray items)
  = if side "debit" amounts (normalizedLines st)
       =? side "credit" amounts (normalizedLines st)
    then Next (normalizedLines st)
    else Return (unbalanced
                   (Num.of_Z (side "debit" amounts (normalizedLines st)))
                   (Num.of_Z (side "credit" amounts (normalizedLines st)))).
Proof.
  intros Hlen Hloop Hw Hsum.
  destruct (validate_lines_next items loop_start st Hloop)
    as (nls & Hal & Hnls & Hd & Hc).
  cbn [loop_start normalizedLines totalDebits totalCredits app] in Hnls, Hd,
    Hc.
  pose proof (whole_amounts_normalized items amounts nls Hw Hal) as Hn.
  pose proof (side_bounds "debit" amounts nls Hn) as HD.
  pose proof (side_bounds "credit" amounts nls Hn) as HC.
  unfold validation.
  assert (Hl : (List.length items <? 2)%nat = false)
    by (apply Nat.ltb_ge; exact Hlen).
  rewrite Hl, Hloop. cbn [bind]. unfold balance_check.
  rewrite Hd, Hc, Hnls.
  change Num.pos_zero with (Num.of_Z 0).
  rewrite !float_total_of_whole_amounts with (amounts := amounts)
    by (assumption || lia).
  rewrite !Z.add_0_l, !rounded_of_Z by lia.
  rewrite eqb_of_Z_decides by lia.
  destruct (side "debit" amounts nls =? side "credit" amounts nls);
    reflexivity.
Qed.

Lemma balance_check_is_exact_on_whole_amounts_witness :
  validation (VArray balanced_sale_items)
  = if side "debit" [100; 100] (normalizedLines balanced_sale_state)
       =? side "credit" [100; 100] (normalizedLines balanced_sale_state)
    then Next (normalizedLines balanced_sale_state)
    else Return
           (unbalanced
              (Num.of_Z (side "debit" [100; 100]
                           (normalizedLines balanced_sale_state)))
              (Num.of_Z (side "credit" [100; 100]
                           (normalizedLines balanced_sale_state)))).
Proof.
  apply (balance_check_is_exact_on_whole_amounts balanced_sale_items
           [100; 100] balanced_sale_state).
  - cbn. lia.
  - vm_compute. reflexivity.
  - repeat constructor; vm_compute; reflexivity.
  - vm_compute. reflexivity.
Defined.
